(** * Data-texture depth renderer: shader generation and layer drawing

    A shallow embedding of [TrianglesDataTextureDepthRenderer]
    (shader source builder, program allocation, [drawLayer]), of the vertex
    stage it emits and of the source builder of the instancing occlusion
    shader, together with the properties of the specification that were
    checked against them. *)

From Stdlib Require Import ZArith List String Ascii Bool Lia Ring DecimalString DecimalNat.
Import ListNotations.
Local Open Scope string_scope.
Local Open Scope list_scope.

(** ** Numbers, vectors and matrices *)

(** The arithmetic the renderer and the emitted shader rely on.  [lit z] is
    the numeric literal of integral value [z]; [eqb] is the strict comparison
    ([===] in the script, [==] in the shader) and [ltb] the order test.
    Integral literals of small magnitude are represented exactly, so their
    order is the order of the integers. *)
Class Scalar (T : Type) := {
  lit : Z -> T;
  add : T -> T -> T;
  sub : T -> T -> T;
  mul : T -> T -> T;
  div : T -> T -> T;
  opp : T -> T;
  eqb : T -> T -> bool;
  ltb : T -> T -> bool;
  ltb_lit : forall a b : Z,
      (Z.abs a <= 2 ^ 24)%Z -> (Z.abs b <= 2 ^ 24)%Z ->
      ltb (lit a) (lit b) = (a <? b)%Z
}.

Record vec3 (T : Type) := mkVec3 { v3x : T; v3y : T; v3z : T }.
Record vec4 (T : Type) := mkVec4 { v4x : T; v4y : T; v4z : T; v4w : T }.
(** A 4x4 matrix by columns, as both the script's flat arrays and the
    shader's [mat4] store it: [m[c][r]] is row [r] of column [c]. *)
Record mat4 (T : Type) := mkMat4 { col0 : vec4 T; col1 : vec4 T; col2 : vec4 T; col3 : vec4 T }.

Arguments mkVec3 {T}. Arguments v3x {T}. Arguments v3y {T}. Arguments v3z {T}.
Arguments mkVec4 {T}. Arguments v4x {T}. Arguments v4y {T}. Arguments v4z {T}. Arguments v4w {T}.
Arguments mkMat4 {T}. Arguments col0 {T}. Arguments col1 {T}. Arguments col2 {T}. Arguments col3 {T}.

Section VectorOps.
Context {T : Type} {scalar : Scalar T}.

Definition add3 (a b : vec3 T) : vec3 T :=
  mkVec3 (add (v3x a) (v3x b)) (add (v3y a) (v3y b)) (add (v3z a) (v3z b)).

Definition sub3 (a b : vec3 T) : vec3 T :=
  mkVec3 (sub (v3x a) (v3x b)) (sub (v3y a) (v3y b)) (sub (v3z a) (v3z b)).

Definition opp3 (a : vec3 T) : vec3 T :=
  mkVec3 (opp (v3x a)) (opp (v3y a)) (opp (v3z a)).

Definition dot3 (a b : vec3 T) : T :=
  add (add (mul (v3x a) (v3x b)) (mul (v3y a) (v3y b))) (mul (v3z a) (v3z b)).

Definition cross (a b : vec3 T) : vec3 T :=
  mkVec3 (sub (mul (v3y a) (v3z b)) (mul (v3z a) (v3y b)))
         (sub (mul (v3z a) (v3x b)) (mul (v3x a) (v3z b)))
         (sub (mul (v3x a) (v3y b)) (mul (v3y a) (v3x b))).

Definition zero3 : vec3 T := mkVec3 (lit 0) (lit 0) (lit 0).

Definition xyz (v : vec4 T) : vec3 T := mkVec3 (v4x v) (v4y v) (v4z v).

Definition vec4_of (v : vec3 T) (w : T) : vec4 T := mkVec4 (v3x v) (v3y v) (v3z v) w.

Definition add4 (a b : vec4 T) : vec4 T :=
  mkVec4 (add (v4x a) (v4x b)) (add (v4y a) (v4y b))
         (add (v4z a) (v4z b)) (add (v4w a) (v4w b)).

Definition scale4 (k : T) (a : vec4 T) : vec4 T :=
  mkVec4 (mul (v4x a) k) (mul (v4y a) k) (mul (v4z a) k) (mul (v4w a) k).

(** [m * v]: the combination of the columns of [m] weighted by [v]. *)
Definition mulMV (m : mat4 T) (v : vec4 T) : vec4 T :=
  add4 (add4 (add4 (scale4 (v4x v) (col0 m)) (scale4 (v4y v) (col1 m)))
             (scale4 (v4z v) (col2 m)))
       (scale4 (v4w v) (col3 m)).

Definition mulMat4 (a b : mat4 T) : mat4 T :=
  mkMat4 (mulMV a (col0 b)) (mulMV a (col1 b)) (mulMV a (col2 b)) (mulMV a (col3 b)).

Definition transpose (m : mat4 T) : mat4 T :=
  mkMat4 (mkVec4 (v4x (col0 m)) (v4x (col1 m)) (v4x (col2 m)) (v4x (col3 m)))
         (mkVec4 (v4y (col0 m)) (v4y (col1 m)) (v4y (col2 m)) (v4y (col3 m)))
         (mkVec4 (v4z (col0 m)) (v4z (col1 m)) (v4z (col2 m)) (v4z (col3 m)))
         (mkVec4 (v4w (col0 m)) (v4w (col1 m)) (v4w (col2 m)) (v4w (col3 m))).

Definition identityMat4 : mat4 T :=
  mkMat4 (mkVec4 (lit 1) (lit 0) (lit 0) (lit 0))
         (mkVec4 (lit 0) (lit 1) (lit 0) (lit 0))
         (mkVec4 (lit 0) (lit 0) (lit 1) (lit 0))
         (mkVec4 (lit 0) (lit 0) (lit 0) (lit 1)).

(** The matrix that translates a point by [t]. *)
Definition translationMat4 (t : vec3 T) : mat4 T :=
  mkMat4 (mkVec4 (lit 1) (lit 0) (lit 0) (lit 0))
         (mkVec4 (lit 0) (lit 1) (lit 0) (lit 0))
         (mkVec4 (lit 0) (lit 0) (lit 1) (lit 0))
         (vec4_of t (lit 1)).

(** [v[0] !== 0 || v[1] !== 0 || v[2] !== 0] *)
Definition nonzero3 (v : vec3 T) : bool :=
  negb (eqb (v3x v) (lit 0)) || negb (eqb (v3y v) (lit 0)) || negb (eqb (v3z v) (lit 0)).

End VectorOps.

(** Modelled from the spec: [createRTCViewMat] (math/rtcCoords.js) is not
    among the sources.  Its contract is to "produce (a) a view matrix
    expressed relative to [origin + position] rather than absolute world
    space, and (b) a camera-eye vector in that same relative space".  A
    position given relative to [rtcCenter] stands for the absolute position
    that lies [rtcCenter] further, so the view matrix expressed relative to
    [rtcCenter] is the view matrix applied after the translation by
    [rtcCenter]. *)
Definition createRTCViewMat_spec {T : Type} {scalar : Scalar T}
    (viewMat : mat4 T) (rtcCenter : vec3 T) : mat4 T :=
  mulMat4 viewMat (translationMat4 rtcCenter).

(** ** Scene configuration *)

Section SceneModel.
Context {T : Type}.

(** A section plane as the renderer reads it. *)
Record SectionPlane := {
  sp_pos : vec3 T;
  sp_dir : vec3 T;
  sp_dist : T
}.

Record SectionPlanesState := {
  sectionPlanes : list SectionPlane
}.

Record Project := {
  project_matrix : mat4 T;
  project_far : T
}.

Record Camera := {
  viewMatrix : mat4 T;
  projMatrix : mat4 T;
  eye : vec3 T;
  project : Project
}.

Record Viewer := {
  logarithmicDepthBufferSupported : bool
}.

Record Scene := {
  _sectionPlanesState : SectionPlanesState;
  camera : Camera;
  logarithmicDepthBufferEnabled : bool;
  entityOffsetsEnabled : bool;
  viewer : Viewer
}.

End SceneModel.

Arguments SectionPlane T : clear implicits.
Arguments SectionPlanesState T : clear implicits.
Arguments Project T : clear implicits.
Arguments Camera T : clear implicits.
Arguments Scene T : clear implicits.

(** ** Shader source builder *)

(** The decimal text the script's [+] gives an array index. *)
Definition string_of_nat (n : nat) : string :=
  NilEmpty.string_of_uint (Nat.to_uint n).

(** [for (let i = from; i < from + count; i++) src.push(...body i)] *)
Fixpoint for_push {A : Type} (from count : nat) (body : nat -> list A) : list A :=
  match count with
  | O => []
  | S count' => body from ++ for_push (S from) count' body
  end.

Record ShaderSource := {
  vertex : list string;
  fragment : list string
}.

Section ShaderBuilder.
Context {T : Type}.

Definition _buildVertexShader (scene : Scene T) : list string :=
  let sectionPlanesState := _sectionPlanesState scene in
  let clipping := (0 <? List.length (sectionPlanes sectionPlanesState))%nat in
  [ "#version 300 es";
    "// Triangles dataTexture draw vertex shader";
    "#ifdef GL_FRAGMENT_PRECISION_HIGH";
    "precision highp float;";
    "precision highp int;";
    "precision highp usampler2D;";
    "precision highp isampler2D;";
    "precision highp sampler2D;";
    "#else";
    "precision mediump float;";
    "precision mediump int;";
    "precision mediump usampler2D;";
    "precision mediump isampler2D;";
    "precision mediump sampler2D;";
    "#endif";
    "uniform int renderPass;" ]
  ++ (if entityOffsetsEnabled scene then
    [ "in vec3 offset;" ] else [])
  ++
  [ "uniform mat4 sceneModelMatrix;";
    "uniform mat4 viewMatrix;";
    "uniform mat4 projMatrix;";
    "uniform highp sampler2D uObjectPerObjectPositionsDecodeMatrix;";
    "uniform highp sampler2D uTexturePerObjectMatrix;";
    "uniform lowp usampler2D uObjectPerObjectColorsAndFlags;";
    "uniform mediump usampler2D uTexturePerVertexIdCoordinates;";
    "uniform highp usampler2D uTexturePerPolygonIdIndices;";
    "uniform mediump usampler2D uTexturePerPolygonIdPortionIds;";
    "uniform vec3 uCameraEyeRtc;";
    "vec3 positions[3];" ]
  ++ (if logarithmicDepthBufferEnabled scene then
    [ "uniform float logDepthBufFC;";
      "out float vFragDepth;";
      "out float isPerspective;" ] else [])
  ++
  [ "bool isPerspectiveMatrix(mat4 m) {";
    "    return (m[2][3] == - 1.0);";
    "}";
    "out highp vec2 vHighPrecisionZW;" ]
  ++ (if clipping then
    [ "out vec4 vWorldPosition;";
      "flat out uint vFlags2;" ] else [])
  ++
  [ "void main(void) {";
    "int polygonIndex = gl_VertexID / 3;";
    "int h_packed_object_id_index = (polygonIndex >> 3) & 4095;";
    "int v_packed_object_id_index = (polygonIndex >> 3) >> 12;";
    "int objectIndex = int(texelFetch(uTexturePerPolygonIdPortionIds, ivec2(h_packed_object_id_index, v_packed_object_id_index), 0).r);";
    "ivec2 objectIndexCoords = ivec2(objectIndex % 512, objectIndex / 512);";
    "uvec4 flags = texelFetch (uObjectPerObjectColorsAndFlags, ivec2(objectIndexCoords.x*8+2, objectIndexCoords.y), 0);";
    "uvec4 flags2 = texelFetch (uObjectPerObjectColorsAndFlags, ivec2(objectIndexCoords.x*8+3, objectIndexCoords.y), 0);";
    "if (int(flags.x) != renderPass) {";
    "   gl_Position = vec4(3.0, 3.0, 3.0, 1.0);";
    "   return;";
    "} else {";
    "ivec4 packedVertexBase = ivec4(texelFetch (uObjectPerObjectColorsAndFlags, ivec2(objectIndexCoords.x*8+4, objectIndexCoords.y), 0));";
    "ivec4 packedIndexBaseOffset = ivec4(texelFetch (uObjectPerObjectColorsAndFlags, ivec2(objectIndexCoords.x*8+5, objectIndexCoords.y), 0));";
    "int indexBaseOffset = (packedIndexBaseOffset.r << 24) + (packedIndexBaseOffset.g << 16) + (packedIndexBaseOffset.b << 8) + packedIndexBaseOffset.a;";
    "int h_index = (polygonIndex - indexBaseOffset) & 4095;";
    "int v_index = (polygonIndex - indexBaseOffset) >> 12;";
    "ivec3 vertexIndices = ivec3(texelFetch(uTexturePerPolygonIdIndices, ivec2(h_index, v_index), 0));";
    "ivec3 uniqueVertexIndexes = vertexIndices + (packedVertexBase.r << 24) + (packedVertexBase.g << 16) + (packedVertexBase.b << 8) + packedVertexBase.a;";
    "ivec3 indexPositionH = uniqueVertexIndexes & 4095;";
    "ivec3 indexPositionV = uniqueVertexIndexes >> 12;";
    "mat4 objectInstanceMatrix = mat4 (texelFetch (uTexturePerObjectMatrix, ivec2(objectIndexCoords.x*4+0, objectIndexCoords.y), 0), texelFetch (uTexturePerObjectMatrix, ivec2(objectIndexCoords.x*4+1, objectIndexCoords.y), 0), texelFetch (uTexturePerObjectMatrix, ivec2(objectIndexCoords.x*4+2, objectIndexCoords.y), 0), texelFetch (uTexturePerObjectMatrix, ivec2(objectIndexCoords.x*4+3, objectIndexCoords.y), 0));";
    "mat4 objectDecodeAndInstanceMatrix = objectInstanceMatrix * mat4 (texelFetch (uObjectPerObjectPositionsDecodeMatrix, ivec2(objectIndexCoords.x*4+0, objectIndexCoords.y), 0), texelFetch (uObjectPerObjectPositionsDecodeMatrix, ivec2(objectIndexCoords.x*4+1, objectIndexCoords.y), 0), texelFetch (uObjectPerObjectPositionsDecodeMatrix, ivec2(objectIndexCoords.x*4+2, objectIndexCoords.y), 0), texelFetch (uObjectPerObjectPositionsDecodeMatrix, ivec2(objectIndexCoords.x*4+3, objectIndexCoords.y), 0));";
    "uint solid = texelFetch (uObjectPerObjectColorsAndFlags, ivec2(objectIndexCoords.x*8+7, objectIndexCoords.y), 0).r;";
    "positions[0] = vec3(texelFetch(uTexturePerVertexIdCoordinates, ivec2(indexPositionH.r, indexPositionV.r), 0));";
    "positions[1] = vec3(texelFetch(uTexturePerVertexIdCoordinates, ivec2(indexPositionH.g, indexPositionV.g), 0));";
    "positions[2] = vec3(texelFetch(uTexturePerVertexIdCoordinates, ivec2(indexPositionH.b, indexPositionV.b), 0));";
    "uvec4 color = texelFetch (uObjectPerObjectColorsAndFlags, ivec2(objectIndexCoords.x*8+0, objectIndexCoords.y), 0);";
    "if (color.a == 0u) {";
    "   gl_Position = vec4(3.0, 3.0, 3.0, 1.0);";
    "   return;";
    "};";
    "vec3 normal = normalize(cross(positions[2] - positions[0], positions[1] - positions[0]));";
    "vec3 position;";
    "position = positions[gl_VertexID % 3];";
    "vec3 viewNormal = -normalize((transpose(inverse(viewMatrix*objectDecodeAndInstanceMatrix)) * vec4(normal,1)).xyz);";
    "if (solid != 1u) {";
    "if (isPerspectiveMatrix(projMatrix)) {";
    "vec3 uCameraEyeRtcInQuantizedSpace = (inverse(sceneModelMatrix * objectDecodeAndInstanceMatrix) * vec4(uCameraEyeRtc, 1)).xyz;";
    "if (dot(position.xyz - uCameraEyeRtcInQuantizedSpace, normal) < 0.0) {";
    "position = positions[2 - (gl_VertexID % 3)];";
    "viewNormal = -viewNormal;";
    "}";
    "} else {";
    "if (viewNormal.z < 0.0) {";
    "position = positions[2 - (gl_VertexID % 3)];";
    "viewNormal = -viewNormal;";
    "}";
    "}";
    "}";
    "vec4 worldPosition = sceneModelMatrix * (objectDecodeAndInstanceMatrix * vec4(position, 1.0)); ";
    "vec4 viewPosition = viewMatrix * worldPosition; ";
    "vec4 clipPos = projMatrix * viewPosition;" ]
  ++ (if logarithmicDepthBufferEnabled scene then
    [ "vFragDepth = 1.0 + clipPos.w;";
      "isPerspective = float (isPerspectiveMatrix(projMatrix));" ] else [])
  ++ (if clipping then
    [ "vWorldPosition = worldPosition;";
      "vFlags2 = flags2.r;" ] else [])
  ++
  [ "gl_Position = clipPos;";
    "vHighPrecisionZW = gl_Position.zw;";
    "}";
    "}" ].

Definition _buildFragmentShader (scene : Scene T) : list string :=
  let sectionPlanesState := _sectionPlanesState scene in
  let clipping := (0 <? List.length (sectionPlanes sectionPlanesState))%nat in
  [ "#version 300 es";
    "// Triangles dataTexture draw fragment shader";
    "#ifdef GL_FRAGMENT_PRECISION_HIGH";
    "precision highp float;";
    "precision highp int;";
    "#else";
    "precision mediump float;";
    "precision mediump int;";
    "#endif";
    "in highp vec2 vHighPrecisionZW;";
    "out vec4 outColor;" ]
  ++ (if logarithmicDepthBufferEnabled scene then
    [ "in float isPerspective;";
      "uniform float logDepthBufFC;";
      "in float vFragDepth;" ] else [])
  ++ (if clipping then
    [ "in vec4 vWorldPosition;";
      "flat in uint vFlags2;" ]
    ++ for_push 0 (List.length (sectionPlanes sectionPlanesState)) (fun i =>
      [ ("uniform bool sectionPlaneActive" ++ string_of_nat i ++ ";")%string;
        ("uniform vec3 sectionPlanePos" ++ string_of_nat i ++ ";")%string;
        ("uniform vec3 sectionPlaneDir" ++ string_of_nat i ++ ";")%string ])
    else [])
  ++
  [ "void main(void) {" ]
  ++ (if clipping then
    [ "  bool clippable = vFlags2 > 0u;";
      "  if (clippable) {";
      "  float dist = 0.0;" ]
    ++ for_push 0 (List.length (sectionPlanes sectionPlanesState)) (fun i =>
      [ ("if (sectionPlaneActive" ++ string_of_nat i ++ ") {")%string;
        ("   dist += clamp(dot(-sectionPlaneDir" ++ string_of_nat i
          ++ ".xyz, vWorldPosition.xyz - sectionPlanePos" ++ string_of_nat i
          ++ ".xyz), 0.0, 1000.0);")%string;
        "}" ])
    ++
    [ "  if (dist > 0.0) { ";
      "      discard;";
      "  }";
      "}" ]
    else [])
  ++ (if logarithmicDepthBufferEnabled scene then
    [ "    gl_FragDepth = isPerspective == 0.0 ? gl_FragCoord.z : log2( vFragDepth ) * logDepthBufFC * 0.5;" ] else [])
  ++
  [ "float fragCoordZ = 0.5 * vHighPrecisionZW[0] / vHighPrecisionZW[1] + 0.5;";
    "    outColor = vec4(vec3(1.0 - fragCoordZ), 1.0); ";
    "}" ].

Definition _buildShader (scene : Scene T) : ShaderSource :=
  {| vertex := _buildVertexShader scene;
     fragment := _buildFragmentShader scene |}.

End ShaderBuilder.

(** ** The emitted vertex stage

    The text pushed by [_buildVertexShader] is a program of its own.  Its
    [main] is embedded here line by line; [logDepth] and [clipping] are the
    two builder branches that add statements to it. *)

Module VertexStage.

(** Shader integers are 32 bits wide; [int32] wraps a value to the signed
    range, which is also what the [int(...)] and [ivec4(...)] conversions of
    an unsigned value do. *)
Definition int32 (z : Z) : Z := ((z + 2 ^ 31) mod 2 ^ 32 - 2 ^ 31)%Z.

Definition ivec4 (v : vec4 Z) : vec4 Z :=
  mkVec4 (int32 (v4x v)) (int32 (v4y v)) (int32 (v4z v)) (int32 (v4w v)).

(** [(v.r << 24) + (v.g << 16) + (v.b << 8) + v.a] *)
Definition unpack (v : vec4 Z) : Z :=
  int32 (int32 (int32 (int32 (Z.shiftl (v4x v) 24) + int32 (Z.shiftl (v4y v) 16))
                + int32 (Z.shiftl (v4z v) 8))
         + v4w v).

(** What the shader builtins whose results the platform defines compute. *)
Class Builtins (T : Type) := {
  normalize : vec3 T -> vec3 T;
  inverse : mat4 T -> mat4 T
}.

Inductive Exit : Type :=
| PassCulled    (* the [return] of the render-pass filter *)
| AlphaCulled   (* the [return] of the zero-alpha test *)
| Emitted.      (* ran to the end of [main] *)

Section Main.
Context {T : Type} {scalar : Scalar T} {builtins : Builtins T}.

Record Uniforms := {
  renderPass : Z;
  sceneModelMatrix : mat4 T;
  viewMatrix : mat4 T;
  projMatrix : mat4 T;
  uCameraEyeRtc : vec3 T
}.

(** The data textures, each read through [texelFetch(sampler, ivec2, 0)]. *)
Record Textures := {
  uObjectPerObjectPositionsDecodeMatrix : Z * Z -> vec4 T;
  uTexturePerObjectMatrix : Z * Z -> vec4 T;
  uObjectPerObjectColorsAndFlags : Z * Z -> vec4 Z;
  uTexturePerVertexIdCoordinates : Z * Z -> vec4 Z;
  uTexturePerPolygonIdIndices : Z * Z -> vec4 Z;
  uTexturePerPolygonIdPortionIds : Z * Z -> vec4 Z
}.

(** The outputs of the stage; [None] is an output [main] never wrote. *)
Record Outputs := {
  gl_Position : vec4 T;
  vHighPrecisionZW : option (T * T);
  vFragDepth : option T;
  isPerspective : option T;
  vWorldPosition : option (vec4 T);
  vFlags2 : option Z
}.

(** The local variables of [main] once the winding test has run. *)
Record Locals := {
  solid : Z;
  normal : vec3 T;
  position : vec3 T;
  viewNormal : vec3 T
}.

(** [bool isPerspectiveMatrix(mat4 m) { return (m[2][3] == - 1.0); }] *)
Definition isPerspectiveMatrix (m : mat4 T) : bool :=
  eqb (v4w (col2 m)) (lit (-1)).

(** [vec3(texel)] of an unsigned texel. *)
Definition vec3_of_uvec4 (v : vec4 Z) : vec3 T :=
  mkVec3 (lit (v4x v)) (lit (v4y v)) (lit (v4z v)).

(** The array [positions]; the shader only indexes it with 0, 1 and 2. *)
Definition index3 (positions : vec3 T * vec3 T * vec3 T) (k : Z) : vec3 T :=
  let '(p0, p1, p2) := positions in
  if (k =? 0)%Z then p0 else if (k =? 1)%Z then p1 else p2.

(** [gl_Position = vec4(3.0, 3.0, 3.0, 1.0); return;] *)
Definition culled : Outputs :=
  {| gl_Position := mkVec4 (lit 3) (lit 3) (lit 3) (lit 1);
     vHighPrecisionZW := None; vFragDepth := None; isPerspective := None;
     vWorldPosition := None; vFlags2 := None |}.

(** [vec3 normal = normalize(cross(positions[2] - positions[0],
    positions[1] - positions[0]));] *)
Definition faceNormal (positions : vec3 T * vec3 T * vec3 T) : vec3 T :=
  normalize (cross (sub3 (index3 positions 2) (index3 positions 0))
                   (sub3 (index3 positions 1) (index3 positions 0))).

(** The test deciding whether the block [if (solid != 1u) { ... }] reassigns
    [position] and [viewNormal]. *)
Definition flips (u : Uniforms) (objectDecodeAndInstanceMatrix : mat4 T)
    (solid : Z) (normal position viewNormal : vec3 T) : bool :=
  if negb (solid =? 1)%Z then
    if isPerspectiveMatrix (projMatrix u) then
      let uCameraEyeRtcInQuantizedSpace :=
        xyz (mulMV (inverse (mulMat4 (sceneModelMatrix u) objectDecodeAndInstanceMatrix))
                   (vec4_of (uCameraEyeRtc u) (lit 1))) in
      ltb (dot3 (sub3 position uCameraEyeRtcInQuantizedSpace) normal) (lit 0)
    else
      ltb (v3z viewNormal) (lit 0)
  else false.

(** Lines from [vec3 normal = ...] to the end of the [solid] block. *)
Definition winding (u : Uniforms) (objectDecodeAndInstanceMatrix : mat4 T)
    (solid : Z) (positions : vec3 T * vec3 T * vec3 T) (gl_VertexID : Z) : Locals :=
  let normal := faceNormal positions in
  let position := index3 positions (Z.rem gl_VertexID 3) in
  let viewNormal :=
    opp3 (normalize (xyz (mulMV
      (transpose (inverse (mulMat4 (viewMatrix u) objectDecodeAndInstanceMatrix)))
      (vec4_of normal (lit 1))))) in
  if flips u objectDecodeAndInstanceMatrix solid normal position viewNormal then
    {| solid := solid; normal := normal;
       position := index3 positions (2 - Z.rem gl_VertexID 3);
       viewNormal := opp3 viewNormal |}
  else
    {| solid := solid; normal := normal; position := position; viewNormal := viewNormal |}.

(** Lines from [vec4 worldPosition = ...] to the end of [main]. *)
Definition assemble (logDepth clipping : bool) (u : Uniforms)
    (objectDecodeAndInstanceMatrix : mat4 T) (flags2 : vec4 Z) (l : Locals) : Outputs :=
  let worldPosition :=
    mulMV (sceneModelMatrix u)
          (mulMV objectDecodeAndInstanceMatrix (vec4_of (position l) (lit 1))) in
  let viewPosition := mulMV (viewMatrix u) worldPosition in
  let clipPos := mulMV (projMatrix u) viewPosition in
  {| gl_Position := clipPos;
     vHighPrecisionZW := Some (v4z clipPos, v4w clipPos);
     vFragDepth := if logDepth then Some (add (lit 1) (v4w clipPos)) else None;
     isPerspective :=
       if logDepth
       then Some (if isPerspectiveMatrix (projMatrix u) then lit 1 else lit 0)
       else None;
     vWorldPosition := if clipping then Some worldPosition else None;
     vFlags2 := if clipping then Some (v4x flags2) else None |}.

(** The object a vertex belongs to: lines from [int polygonIndex] to
    [ivec2 objectIndexCoords]. *)
Definition objectIndexCoords (t : Textures) (gl_VertexID : Z) : Z * Z :=
  let polygonIndex := Z.quot gl_VertexID 3 in
  let h_packed_object_id_index := Z.land (Z.shiftr polygonIndex 3) 4095 in
  let v_packed_object_id_index := Z.shiftr (Z.shiftr polygonIndex 3) 12 in
  let objectIndex :=
    int32 (v4x (uTexturePerPolygonIdPortionIds t
                  (h_packed_object_id_index, v_packed_object_id_index))) in
  (Z.rem objectIndex 512, Z.quot objectIndex 512).

(** Texel [k] of the object's row of eight in the colours-and-flags texture. *)
Definition objectTexel (t : Textures) (oic : Z * Z) (k : Z) : vec4 Z :=
  uObjectPerObjectColorsAndFlags t (int32 (int32 (fst oic * 8) + k), snd oic).

(** The four texels of an object's row of a matrix texture. *)
Definition objectMatrix (tex : Z * Z -> vec4 T) (oic : Z * Z) : mat4 T :=
  mkMat4 (tex (int32 (int32 (fst oic * 4) + 0), snd oic))
         (tex (int32 (int32 (fst oic * 4) + 1), snd oic))
         (tex (int32 (int32 (fst oic * 4) + 2), snd oic))
         (tex (int32 (int32 (fst oic * 4) + 3), snd oic)).

(** The three corners of the vertex's triangle: lines from
    [ivec4 packedVertexBase] to [positions[2] = ...]. *)
Definition fetchPositions (t : Textures) (oic : Z * Z) (gl_VertexID : Z)
    : vec3 T * vec3 T * vec3 T :=
  let polygonIndex := Z.quot gl_VertexID 3 in
  let packedVertexBase := ivec4 (objectTexel t oic 4) in
  let packedIndexBaseOffset := ivec4 (objectTexel t oic 5) in
  let indexBaseOffset := unpack packedIndexBaseOffset in
  let h_index := Z.land (int32 (polygonIndex - indexBaseOffset)) 4095 in
  let v_index := Z.shiftr (int32 (polygonIndex - indexBaseOffset)) 12 in
  let vertexIndices := ivec4 (uTexturePerPolygonIdIndices t (h_index, v_index)) in
  let base := unpack packedVertexBase in
  let unique (i : Z) := int32 (i + base) in
  let fetch (i : Z) :=
    vec3_of_uvec4 (uTexturePerVertexIdCoordinates t
                     (Z.land (unique i) 4095, Z.shiftr (unique i) 12)) in
  (fetch (v4x vertexIndices), fetch (v4y vertexIndices), fetch (v4z vertexIndices)).

(** The locals of [main] for a vertex that reaches the winding test. *)
Definition locals (u : Uniforms) (t : Textures) (gl_VertexID : Z) : Locals :=
  let oic := objectIndexCoords t gl_VertexID in
  let objectInstanceMatrix := objectMatrix (uTexturePerObjectMatrix t) oic in
  let objectDecodeAndInstanceMatrix :=
    mulMat4 objectInstanceMatrix
            (objectMatrix (uObjectPerObjectPositionsDecodeMatrix t) oic) in
  winding u objectDecodeAndInstanceMatrix (v4x (objectTexel t oic 7))
          (fetchPositions t oic gl_VertexID) gl_VertexID.

(** [void main(void)] *)
Definition main (logDepth clipping : bool) (u : Uniforms) (t : Textures)
    (gl_VertexID : Z) : Exit * Outputs :=
  let oic := objectIndexCoords t gl_VertexID in
  let flags := objectTexel t oic 2 in
  let flags2 := objectTexel t oic 3 in
  if negb (int32 (v4x flags) =? renderPass u)%Z then (PassCulled, culled)
  else
    let objectInstanceMatrix := objectMatrix (uTexturePerObjectMatrix t) oic in
    let objectDecodeAndInstanceMatrix :=
      mulMat4 objectInstanceMatrix
              (objectMatrix (uObjectPerObjectPositionsDecodeMatrix t) oic) in
    let color := objectTexel t oic 0 in
    if (v4w color =? 0)%Z then (AlphaCulled, culled)
    else
      (Emitted,
       assemble logDepth clipping u objectDecodeAndInstanceMatrix flags2
                (locals u t gl_VertexID)).

(** A clip-space position lies outside the canonical view volume when one of
    its first three coordinates exceeds [w] in magnitude. *)
Definition outsideClipVolume (p : vec4 T) : bool :=
  let beyond (c : T) := ltb (v4w p) c || ltb c (opp (v4w p)) in
  beyond (v4x p) || beyond (v4y p) || beyond (v4z p).

End Main.

Arguments Uniforms T : clear implicits.
Arguments Textures T : clear implicits.
Arguments Outputs T : clear implicits.
Arguments Locals T : clear implicits.

End VertexStage.

(** ** The renderer *)

(** Modelled from the spec: [Program] (webgl/Program.js) is not among the
    sources.  A compiled program is "an opaque GPU program handle plus a
    mapping from uniform/attribute names to their bound locations", and a
    failed compilation leaves an error set on it. *)
Record Program := {
  id : Z;
  program_errors : option (list string)
}.

Inductive Location : Type :=
| Loc (program : Z) (name : string).

(** [program.getLocation(name)] *)
Definition getLocation (program : Program) (name : string) : Location :=
  Loc (id program) name.

(** What the module imports and does not define: the program constructor,
    the [math] helpers, the two RTC helpers, and the hash of the scene's
    section-plane state. *)
Class Imports (T : Type) := {
  Program_new : ShaderSource -> Program;
  transformPoint3 : mat4 T -> vec3 T -> vec3 T;
  createRTCViewMat : mat4 T -> vec3 T -> mat4 T;
  getPlaneRTCPos : T -> vec3 T -> vec3 T -> vec3 T;
  Math_log : T -> T;
  Math_LN2 : T;
  getHash : SectionPlanesState T -> string
}.

Inductive DrawMode : Type :=
| TRIANGLES.

Record SectionPlaneUniforms := {
  active : Location;
  pos : Location;
  dir : Location
}.

(** The object [_allocate] pushes for section plane [i]. *)
Definition planeUniforms (program : Program) (i : nat) : SectionPlaneUniforms :=
  {| active := getLocation program ("sectionPlaneActive" ++ string_of_nat i);
     pos := getLocation program ("sectionPlanePos" ++ string_of_nat i);
     dir := getLocation program ("sectionPlaneDir" ++ string_of_nat i) |}.

(** The layer's texture state; its two bind methods are calls into the
    layer and leave a record of their arguments. *)
Record TextureState := {
  textureStateId : Z
}.

Section Renderer.
Context {T : Type} {scalar : Scalar T} {imports : Imports T}.

(** Every call the renderer makes on the GL context, on its program or on
    the layer's texture state, in the order made.  A location or name is
    [None] when the renderer field holding it was never assigned. *)
Inductive GLCall : Type :=
| NewProgram (src : ShaderSource)
| ProgramBind (program : Z)
| UniformMatrix4fv (location : option Location) (transposed : bool) (value : mat4 T)
| Uniform3fv (location : option Location) (value : vec3 T)
| Uniform1i (location : option Location) (value : Z)
| Uniform1f (location : option Location) (value : T)
| BindCommonTextures (textureState : TextureState) (program : Z)
    (positionsDecodeMatrix vertexIdCoordinates colorsAndFlags objectMatrix : option string)
| BindTriangleIndicesTextures (textureState : TextureState) (program : Z)
    (portionIds indices : option string) (bits : Z)
| DrawArrays (mode : DrawMode) (first : Z) (count : Z).

Record Renderer := {
  _program : option Program;
  errors : option (list string);
  _hash : option string;
  _uRenderPass : option Location;
  _uPositionsDecodeMatrix : option Location;
  _uSceneModelMatrix : option Location;
  _uViewMatrix : option Location;
  _uProjMatrix : option Location;
  _uSectionPlanes : option (list SectionPlaneUniforms);
  _uLogDepthBufFC : option Location;
  uTexturePerObjectPositionsDecodeMatrix : option string;
  uTexturePerObjectColorsAndFlags : option string;
  _uTexturePerVertexIdCoordinates : option string;
  _uTexturePerPolygonIdNormals : option string;
  _uTexturePerPolygonIdIndices : option string;
  _uTexturePerPolygonIdPortionIds : option string;
  _uTexturePerObjectMatrix : option string;
  _uCameraEyeRtc : option Location
}.

(** The object before its constructor has assigned anything. *)
Definition blank : Renderer :=
  {| _program := None; errors := None; _hash := None;
     _uRenderPass := None; _uPositionsDecodeMatrix := None;
     _uSceneModelMatrix := None; _uViewMatrix := None; _uProjMatrix := None;
     _uSectionPlanes := None; _uLogDepthBufFC := None;
     uTexturePerObjectPositionsDecodeMatrix := None;
     uTexturePerObjectColorsAndFlags := None;
     _uTexturePerVertexIdCoordinates := None;
     _uTexturePerPolygonIdNormals := None;
     _uTexturePerPolygonIdIndices := None;
     _uTexturePerPolygonIdPortionIds := None;
     _uTexturePerObjectMatrix := None;
     _uCameraEyeRtc := None |}.

Record RenderFlags := {
  sectionPlanesActivePerLayer : list bool
}.

Record Model := {
  position : vec3 T;
  rotationMatrix : mat4 T;
  rotationMatrixConjugate : mat4 T;
  renderFlags : RenderFlags
}.

Record LayerState := {
  textureState : TextureState;
  origin : option (vec3 T);
  numIndices8Bits : Z;
  numIndices16Bits : Z;
  numIndices32Bits : Z
}.

Record DataTextureLayer := {
  model : Model;
  _state : LayerState;
  layerIndex : nat
}.

Record FrameCtx := {
  lastProgramId : option Z;
  drawElements : Z;
  pickZFar : T
}.

(** [_getHash()] *)
Definition _getHash (scene : Scene T) : string :=
  getHash (_sectionPlanesState scene).

(** [getValid()] *)
Definition getValid (this : Renderer) (scene : Scene T) : bool :=
  match _hash this with
  | Some h => String.eqb h (_getHash scene)
  | None => false
  end.

(** [2.0 / (Math.log(far + 1.0) / Math.LN2)] *)
Definition logDepthBufFC (far : T) : T :=
  div (lit 2) (div (Math_log (add far (lit 1))) Math_LN2).

(** [_allocate()]: the renderer afterwards and the calls made.  The scene is
    the state of [this._scene] at the time of the call. *)
Definition _allocate (this : Renderer) (scene : Scene T) : Renderer * list GLCall :=
  let program := Program_new (_buildShader scene) in
  let calls := [NewProgram (_buildShader scene)] in
  match program_errors program with
  | Some e =>
      ({| _program := Some program; errors := Some e; _hash := _hash this;
          _uRenderPass := _uRenderPass this;
          _uPositionsDecodeMatrix := _uPositionsDecodeMatrix this;
          _uSceneModelMatrix := _uSceneModelMatrix this;
          _uViewMatrix := _uViewMatrix this;
          _uProjMatrix := _uProjMatrix this;
          _uSectionPlanes := _uSectionPlanes this;
          _uLogDepthBufFC := _uLogDepthBufFC this;
          uTexturePerObjectPositionsDecodeMatrix := uTexturePerObjectPositionsDecodeMatrix this;
          uTexturePerObjectColorsAndFlags := uTexturePerObjectColorsAndFlags this;
          _uTexturePerVertexIdCoordinates := _uTexturePerVertexIdCoordinates this;
          _uTexturePerPolygonIdNormals := _uTexturePerPolygonIdNormals this;
          _uTexturePerPolygonIdIndices := _uTexturePerPolygonIdIndices this;
          _uTexturePerPolygonIdPortionIds := _uTexturePerPolygonIdPortionIds this;
          _uTexturePerObjectMatrix := _uTexturePerObjectMatrix this;
          _uCameraEyeRtc := _uCameraEyeRtc this |}, calls)
  | None =>
      ({| _program := Some program; errors := errors this; _hash := _hash this;
          _uRenderPass := Some (getLocation program "renderPass");
          _uPositionsDecodeMatrix := Some (getLocation program "objectDecodeAndInstanceMatrix");
          _uSceneModelMatrix := Some (getLocation program "sceneModelMatrix");
          _uViewMatrix := Some (getLocation program "viewMatrix");
          _uProjMatrix := Some (getLocation program "projMatrix");
          _uSectionPlanes :=
            Some (for_push 0 (List.length (sectionPlanes (_sectionPlanesState scene)))
                    (fun i => [ planeUniforms program i ]));
          _uLogDepthBufFC :=
            if logarithmicDepthBufferEnabled scene
            then Some (getLocation program "logDepthBufFC")
            else _uLogDepthBufFC this;
          uTexturePerObjectPositionsDecodeMatrix := Some "uObjectPerObjectPositionsDecodeMatrix";
          uTexturePerObjectColorsAndFlags := Some "uObjectPerObjectColorsAndFlags";
          _uTexturePerVertexIdCoordinates := Some "uTexturePerVertexIdCoordinates";
          _uTexturePerPolygonIdNormals := Some "uTexturePerPolygonIdNormals";
          _uTexturePerPolygonIdIndices := Some "uTexturePerPolygonIdIndices";
          _uTexturePerPolygonIdPortionIds := Some "uTexturePerPolygonIdPortionIds";
          _uTexturePerObjectMatrix := Some "uTexturePerObjectMatrix";
          _uCameraEyeRtc := Some (getLocation program "uCameraEyeRtc") |}, calls)
  end.

Definition set_program (this : Renderer) (p : option Program) : Renderer :=
  {| _program := p; errors := errors this; _hash := _hash this;
     _uRenderPass := _uRenderPass this;
     _uPositionsDecodeMatrix := _uPositionsDecodeMatrix this;
     _uSceneModelMatrix := _uSceneModelMatrix this;
     _uViewMatrix := _uViewMatrix this;
     _uProjMatrix := _uProjMatrix this;
     _uSectionPlanes := _uSectionPlanes this;
     _uLogDepthBufFC := _uLogDepthBufFC this;
     uTexturePerObjectPositionsDecodeMatrix := uTexturePerObjectPositionsDecodeMatrix this;
     uTexturePerObjectColorsAndFlags := uTexturePerObjectColorsAndFlags this;
     _uTexturePerVertexIdCoordinates := _uTexturePerVertexIdCoordinates this;
     _uTexturePerPolygonIdNormals := _uTexturePerPolygonIdNormals this;
     _uTexturePerPolygonIdIndices := _uTexturePerPolygonIdIndices this;
     _uTexturePerPolygonIdPortionIds := _uTexturePerPolygonIdPortionIds this;
     _uTexturePerObjectMatrix := _uTexturePerObjectMatrix this;
     _uCameraEyeRtc := _uCameraEyeRtc this |}.

Definition set_hash (this : Renderer) (h : string) : Renderer :=
  {| _program := _program this; errors := errors this; _hash := Some h;
     _uRenderPass := _uRenderPass this;
     _uPositionsDecodeMatrix := _uPositionsDecodeMatrix this;
     _uSceneModelMatrix := _uSceneModelMatrix this;
     _uViewMatrix := _uViewMatrix this;
     _uProjMatrix := _uProjMatrix this;
     _uSectionPlanes := _uSectionPlanes this;
     _uLogDepthBufFC := _uLogDepthBufFC this;
     uTexturePerObjectPositionsDecodeMatrix := uTexturePerObjectPositionsDecodeMatrix this;
     uTexturePerObjectColorsAndFlags := uTexturePerObjectColorsAndFlags this;
     _uTexturePerVertexIdCoordinates := _uTexturePerVertexIdCoordinates this;
     _uTexturePerPolygonIdNormals := _uTexturePerPolygonIdNormals this;
     _uTexturePerPolygonIdIndices := _uTexturePerPolygonIdIndices this;
     _uTexturePerPolygonIdPortionIds := _uTexturePerPolygonIdPortionIds this;
     _uTexturePerObjectMatrix := _uTexturePerObjectMatrix this;
     _uCameraEyeRtc := _uCameraEyeRtc this |}.

(** [constructor(scene)] *)
Definition constructor (scene : Scene T) : Renderer * list GLCall :=
  let '(this, calls) := _allocate blank scene in
  (set_hash this (_getHash scene), calls).

(** [webglContextRestored()] *)
Definition webglContextRestored (this : Renderer) : Renderer :=
  set_program this None.

(** [_bindProgram(frameCtx)] *)
Definition _bindProgram (this : Renderer) (scene : Scene T) (program : Program)
    : list GLCall :=
  let project := project (camera scene) in
  [ ProgramBind (id program);
    UniformMatrix4fv (_uProjMatrix this) false (project_matrix project) ]
  ++ (if logarithmicDepthBufferEnabled scene
      then [ Uniform1f (_uLogDepthBufFC this) (logDepthBufFC (project_far project)) ]
      else []).

(** How a call of [drawLayer] ends: it ran to its last statement, it left
    through the [return] of the missing-program guard, or an access to a
    property of a missing object raised a [TypeError]. *)
Inductive Completion : Type :=
| Completed
| Skipped
| Threw.

Record Outcome := {
  renderer : Renderer;
  frame : FrameCtx;
  calls : list GLCall;
  completion : Completion
}.

(** [frameCtx.lastProgramId !== id] *)
Definition differs (lastProgramId : option Z) (id : Z) : bool :=
  match lastProgramId with
  | Some last => negb (last =? id)%Z
  | None => true
  end.

(** The body of the loop over the section planes, from plane
    [sectionPlaneIndex] on; [rest] are the planes from that index on, so its
    head is [sectionPlanes[sectionPlaneIndex]]. *)
Fixpoint sectionPlaneCalls (uSectionPlanes : list SectionPlaneUniforms)
    (flags : RenderFlags) (baseIndex : nat) (origin : option (vec3 T))
    (sectionPlaneIndex : nat) (rest : list (SectionPlane T)) : list GLCall :=
  match rest with
  | [] => []
  | sectionPlane :: rest' =>
      match nth_error uSectionPlanes sectionPlaneIndex with
      | Some sectionPlaneUniforms =>
          let isActive :=
            nth (baseIndex + sectionPlaneIndex) (sectionPlanesActivePerLayer flags) false in
          Uniform1i (Some (active sectionPlaneUniforms)) (if isActive then 1 else 0)
          :: (if isActive then
                [ Uniform3fv (Some (pos sectionPlaneUniforms))
                    match origin with
                    | Some o => getPlaneRTCPos (sp_dist sectionPlane) (sp_dir sectionPlane) o
                    | None => sp_pos sectionPlane
                    end;
                  Uniform3fv (Some (dir sectionPlaneUniforms)) (sp_dir sectionPlane) ]
              else [])
      | None => []
      end
      ++ sectionPlaneCalls uSectionPlanes flags baseIndex origin (S sectionPlaneIndex) rest'
  end.

(** One index-width bucket: bind its index textures and draw, when it holds
    indices. *)
Definition drawBucket (this : Renderer) (program : Program)
    (textureState : TextureState) (bits numIndices : Z) : list GLCall :=
  if (numIndices >? 0)%Z then
    [ BindTriangleIndicesTextures textureState (id program)
        (_uTexturePerPolygonIdPortionIds this) (_uTexturePerPolygonIdIndices this) bits;
      DrawArrays TRIANGLES 0 numIndices ]
  else [].

(** Lines 41-46: [if (!this._program) { this._allocate(); if (this.errors)
    { return; } }].  The boolean tells whether the [return] is taken. *)
Definition ensureProgram (this : Renderer) (scene : Scene T)
    : Renderer * list GLCall * bool :=
  match _program this with
  | Some _ => (this, [], false)
  | None =>
      let '(this1, c) := _allocate this scene in
      (this1, c, match errors this1 with Some _ => true | None => false end)
  end.

(** Lines 48-51: bind the program unless the frame context says it is the
    one bound last. *)
Definition bindPhase (this : Renderer) (scene : Scene T) (frameCtx : FrameCtx)
    (program : Program) : FrameCtx * list GLCall :=
  if differs (lastProgramId frameCtx) (id program) then
    ({| lastProgramId := Some (id program);
        drawElements := drawElements frameCtx;
        pickZFar := pickZFar frameCtx |},
     _bindProgram this scene program)
  else (frameCtx, []).

(** Lines 61-89: the view matrix and camera eye to upload.  The scratch
    arrays [tempVec3a] to [tempVec3d] and [tempMat4a] belong to the module
    alone, and each is written before it is read and uploaded before it is
    written again, so plain values stand for them. *)
Definition rtc (camera : Camera T) (model : Model) (originValue : vec3 T)
    : mat4 T * vec3 T :=
  let gotOrigin := nonzero3 originValue in
  let gotPosition := nonzero3 (position model) in
  if gotOrigin || gotPosition then
    let rotatedOrigin :=
      if gotOrigin then transformPoint3 (rotationMatrix model) originValue else zero3 in
    let rtcOrigin := add3 rotatedOrigin (position model) in
    (createRTCViewMat (viewMatrix camera) rtcOrigin, sub3 (eye camera) rtcOrigin)
  else (viewMatrix camera, eye camera).

(** Lines 91-100: the uniforms uploaded on every draw. *)
Definition frameUniformCalls (this : Renderer) (scene : Scene T) (frameCtx : FrameCtx)
    (model : Model) (rtcViewMatrix : mat4 T) (rtcCameraEye : vec3 T) (renderPass : Z)
    : list GLCall :=
  [ UniformMatrix4fv (_uSceneModelMatrix this) false (rotationMatrixConjugate model);
    UniformMatrix4fv (_uViewMatrix this) false rtcViewMatrix;
    UniformMatrix4fv (_uProjMatrix this) false (projMatrix (camera scene));
    Uniform3fv (_uCameraEyeRtc this) rtcCameraEye;
    Uniform1i (_uRenderPass this) renderPass ]
  ++ (if logarithmicDepthBufferEnabled scene
      then [ Uniform1f (_uLogDepthBufFC this) (logDepthBufFC (pickZFar frameCtx)) ]
      else []).

(** Lines 102-124: the section-plane uniforms; [None] when indexing the
    renderer's missing uniform table raises. *)
Definition sectionPlanePhase (this : Renderer) (scene : Scene T)
    (dataTextureLayer : DataTextureLayer) : option (list GLCall) :=
  let planes := sectionPlanes (_sectionPlanesState scene) in
  let numSectionPlanes := List.length planes in
  if (0 <? numSectionPlanes)%nat then
    let baseIndex := (layerIndex dataTextureLayer * numSectionPlanes)%nat in
    match _uSectionPlanes this with
    | Some uSectionPlanes =>
        Some (sectionPlaneCalls uSectionPlanes (renderFlags (model dataTextureLayer))
                baseIndex (origin (_state dataTextureLayer)) 0 planes)
    | None => None
    end
  else Some [].

(** Lines 126-157: the three index-width buckets, in the order written. *)
Definition bucketCalls (this : Renderer) (program : Program) (state : LayerState)
    : list GLCall :=
  drawBucket this program (textureState state) 8 (numIndices8Bits state)
  ++ drawBucket this program (textureState state) 16 (numIndices16Bits state)
  ++ drawBucket this program (textureState state) 32 (numIndices32Bits state).

(** [drawLayer(frameCtx, dataTextureLayer, renderPass)].  [scene] is the
    state of [this._scene] at the time of the call. *)
Definition drawLayer (this : Renderer) (scene : Scene T) (frameCtx : FrameCtx)
    (dataTextureLayer : DataTextureLayer) (renderPass : Z) : Outcome :=
  let model := model dataTextureLayer in
  let state := _state dataTextureLayer in
  let '(this, calls0, leave) := ensureProgram this scene in
  if leave then
    {| renderer := this; frame := frameCtx; calls := calls0; completion := Skipped |}
  else
  match _program this with
  | None =>
      (* [this._program.id] of a missing program *)
      {| renderer := this; frame := frameCtx; calls := calls0; completion := Threw |}
  | Some program =>
  let '(frameCtx, calls1) := bindPhase this scene frameCtx program in
  let calls2 :=
    [ BindCommonTextures (textureState state) (id program)
        (uTexturePerObjectPositionsDecodeMatrix this)
        (_uTexturePerVertexIdCoordinates this)
        (uTexturePerObjectColorsAndFlags this)
        (_uTexturePerObjectMatrix this) ] in
  match origin state with
  | None =>
      (* [origin[0]] of a missing origin *)
      {| renderer := this; frame := frameCtx;
         calls := calls0 ++ calls1 ++ calls2; completion := Threw |}
  | Some originValue =>
  let '(rtcViewMatrix, rtcCameraEye) := rtc (camera scene) model originValue in
  let calls3 :=
    frameUniformCalls this scene frameCtx model rtcViewMatrix rtcCameraEye renderPass in
  match sectionPlanePhase this scene dataTextureLayer with
  | None =>
      {| renderer := this; frame := frameCtx;
         calls := calls0 ++ calls1 ++ calls2 ++ calls3; completion := Threw |}
  | Some calls4 =>
  {| renderer := this;
     frame := {| lastProgramId := lastProgramId frameCtx;
                 drawElements := drawElements frameCtx + 1;
                 pickZFar := pickZFar frameCtx |};
     calls := calls0 ++ calls1 ++ calls2 ++ calls3 ++ calls4
              ++ bucketCalls this program state;
     completion := Completed |}
  end end end.

End Renderer.

Arguments GLCall T : clear implicits.
Arguments Renderer : clear implicits.
Arguments Model T : clear implicits.
Arguments LayerState T : clear implicits.
Arguments DataTextureLayer T : clear implicits.
Arguments FrameCtx T : clear implicits.
Arguments Outcome T : clear implicits.

(** ** The instancing occlusion shader source

    The builder of the plain occlusion shader, which is written for the
    first version of the shading language and so asks for the fragment-depth
    extension. *)

Module InstancingOcclusionShaderSource.
Section Builder.
Context {T : Type}.

Definition buildVertex (scene : Scene T) : list string :=
  let sectionPlanesState := _sectionPlanesState scene in
  let clipping := (0 <? List.length (sectionPlanes sectionPlanesState))%nat in
  let logDepth :=
    logarithmicDepthBufferEnabled scene
    && logarithmicDepthBufferSupported (viewer scene) in
  [ "// Instancing occlusion vertex shader" ]
  ++ (if logDepth then
    [ "#extension GL_EXT_frag_depth : enable" ] else [])
  ++
  [ "attribute vec3 position;" ]
  ++ (if entityOffsetsEnabled scene then
    [ "attribute vec3 offset;" ] else [])
  ++
  [ "attribute vec4 color;";
    "attribute vec4 flags;";
    "attribute vec4 flags2;";
    "attribute vec4 modelMatrixCol0;";
    "attribute vec4 modelMatrixCol1;";
    "attribute vec4 modelMatrixCol2;";
    "uniform mat4 worldMatrix;";
    "uniform mat4 viewMatrix;";
    "uniform mat4 projMatrix;";
    "uniform mat4 positionsDecodeMatrix;" ]
  ++ (if logDepth then
    [ "uniform float logDepthBufFC;";
      "varying float vFragDepth;" ] else [])
  ++ (if clipping then
    [ "varying vec4 vWorldPosition;";
      "varying vec4 vFlags2;" ] else [])
  ++
  [ "void main(void) {";
    "bool visible   = (float(flags.x) > 0.0);";
    "bool transparent  = ((float(color.a) / 255.0) < 1.0);";
    "bool culled  = (float(flags2.w) > 0.0);";
    "if (culled || !visible || transparent) {";
    "   gl_Position = vec4(0.0, 0.0, 0.0, 0.0);";
    "} else {";
    "  vec4 worldPosition = positionsDecodeMatrix * vec4(position, 1.0); ";
    "  worldPosition = worldMatrix * vec4(dot(worldPosition, modelMatrixCol0), dot(worldPosition, modelMatrixCol1), dot(worldPosition, modelMatrixCol2), 1.0);" ]
  ++ (if entityOffsetsEnabled scene then
    [ "      worldPosition.xyz = worldPosition.xyz + offset;" ] else [])
  ++
  [ "  vec4 viewPosition  = viewMatrix * worldPosition; " ]
  ++ (if clipping then
    [ "  vWorldPosition = worldPosition;" ] else [])
  ++
  [ "vec4 clipPos = projMatrix * viewPosition;" ]
  ++ (if logDepth then
    [ "vFragDepth = 1.0 + clipPos.w;" ] else [])
  ++
  [ "gl_Position = clipPos;";
    "}";
    "}" ].

Definition buildFragment (scene : Scene T) : list string :=
  let sectionPlanesState := _sectionPlanesState scene in
  let clipping := (0 <? List.length (sectionPlanes sectionPlanesState))%nat in
  let logDepth :=
    logarithmicDepthBufferEnabled scene
    && logarithmicDepthBufferSupported (viewer scene) in
  [ "// Instancing occlusion fragment shader" ]
  ++ (if logDepth then
    [ "#extension GL_EXT_frag_depth : enable" ] else [])
  ++
  [ "#ifdef GL_FRAGMENT_PRECISION_HIGH";
    "precision highp float;";
    "precision highp int;";
    "#else";
    "precision mediump float;";
    "precision mediump int;";
    "#endif" ]
  ++ (if logDepth then
    [ "uniform float logDepthBufFC;";
      "varying float vFragDepth;" ] else [])
  ++ (if clipping then
    [ "varying vec4 vWorldPosition;";
      "varying vec4 vFlags2;" ]
    ++ for_push 0 (List.length (sectionPlanes sectionPlanesState)) (fun i =>
      [ ("uniform bool sectionPlaneActive" ++ string_of_nat i ++ ";")%string;
        ("uniform vec3 sectionPlanePos" ++ string_of_nat i ++ ";")%string;
        ("uniform vec3 sectionPlaneDir" ++ string_of_nat i ++ ";")%string ])
    else [])
  ++
  [ "void main(void) {" ]
  ++ (if clipping then
    [ "  bool clippable = (float(vFlags2.x) > 0.0);";
      "  if (clippable) {";
      "  float dist = 0.0;" ]
    ++ for_push 0 (List.length (sectionPlanes sectionPlanesState)) (fun i =>
      [ ("if (sectionPlaneActive" ++ string_of_nat i ++ ") {")%string;
        ("   dist += clamp(dot(-sectionPlaneDir" ++ string_of_nat i
          ++ ".xyz, vWorldPosition.xyz - sectionPlanePos" ++ string_of_nat i
          ++ ".xyz), 0.0, 1000.0);")%string;
        "}" ])
    ++
    [ "if (dist > 0.0) { discard; }";
      "}" ]
    else [])
  ++
  [ "   gl_FragColor = vec4(0.0, 0.0, 1.0, 1.0); " ]
  ++ (if logDepth then
    [ "gl_FragDepthEXT = log2( vFragDepth ) * logDepthBufFC * 0.5;" ] else [])
  ++
  [ "}" ].

(** [new InstancingOcclusionShaderSource(scene)] *)
Definition create (scene : Scene T) : ShaderSource :=
  {| vertex := buildVertex scene; fragment := buildFragment scene |}.

End Builder.
End InstancingOcclusionShaderSource.

(** ** Observations on sources and call sequences *)

(** A source holds a line. *)
Definition declares (line : string) (src : list string) : bool :=
  existsb (String.eqb line) src.

(** The lines the builder adds to the vertex stage for logarithmic depth:
    the uniform, the two varyings and their assignments. *)
Definition logDepthVertexLines : list string :=
  [ "uniform float logDepthBufFC;";
    "out float vFragDepth;";
    "out float isPerspective;";
    "vFragDepth = 1.0 + clipPos.w;";
    "isPerspective = float (isPerspectiveMatrix(projMatrix));" ].

(** The lines it adds to the fragment stage: the two varyings, the uniform
    and the depth formula. *)
Definition logDepthFragmentLines : list string :=
  [ "in float isPerspective;";
    "uniform float logDepthBufFC;";
    "in float vFragDepth;";
    "    gl_FragDepth = isPerspective == 0.0 ? gl_FragCoord.z : log2( vFragDepth ) * logDepthBufFC * 0.5;" ].


(** The renderer holds the section-plane uniforms [_allocate] looks up in
    [program] for [count] planes, and that program's camera-eye and
    render-pass uniforms. *)
Definition allocatedFor (program : Program) (count : nat) (this : Renderer) : Prop :=
  _uSectionPlanes this = Some (map (planeUniforms program) (seq 0 count))
  /\ _uCameraEyeRtc this = Some (getLocation program "uCameraEyeRtc")
  /\ _uRenderPass this = Some (getLocation program "renderPass").

Section Observations.
Context {T : Type}.




(** The counts of the [drawArrays] calls, in order. *)
Definition drawCounts (cs : list (GLCall T)) : list Z :=
  flat_map (fun c => match c with DrawArrays _ _ n => [n] | _ => [] end) cs.

(** The [drawArrays] calls with the index width bound for each: the width is
    that of the latest [bindTriangleIndicesTextures] before the draw. *)
Fixpoint bucketDraws (width : option Z) (cs : list (GLCall T)) : list (option Z * Z) :=
  match cs with
  | [] => []
  | BindTriangleIndicesTextures _ _ _ _ bits :: cs' => bucketDraws (Some bits) cs'
  | DrawArrays _ _ n :: cs' => (width, n) :: bucketDraws width cs'
  | _ :: cs' => bucketDraws width cs'
  end.

(** A call that draws or binds index textures. *)
Definition touchesBuckets (c : GLCall T) : bool :=
  match c with
  | BindTriangleIndicesTextures _ _ _ _ _ | DrawArrays _ _ _ => true
  | _ => false
  end.

(** What an index-width bucket holding [numIndices] indices is to draw. *)
Definition bucketCount (numIndices : Z) : list Z :=
  if (numIndices >? 0)%Z then [numIndices] else [].

Definition bucketDraw (bits numIndices : Z) : list (option Z * Z) :=
  if (numIndices >? 0)%Z then [(Some bits, numIndices)] else [].

(** How many times a program was bound. *)
Definition programBinds (cs : list (GLCall T)) : nat :=
  List.length (filter (fun c => match c with ProgramBind _ => true | _ => false end) cs).

(** How many times a program was compiled. *)
Definition compilations (cs : list (GLCall T)) : nat :=
  List.length (filter (fun c => match c with NewProgram _ => true | _ => false end) cs).

End Observations.

(** [block] occurs in [src] as consecutive lines. *)
Fixpoint startsWith (block src : list string) : bool :=
  match block, src with
  | [], _ => true
  | b :: block', l :: src' => String.eqb b l && startsWith block' src'
  | _ :: _, [] => false
  end.

Fixpoint holdsBlock (block src : list string) : bool :=
  startsWith block src
  || match src with
     | [] => false
     | _ :: src' => holdsBlock block src'
     end.

(** The render-pass filter as the builder writes it. *)
Definition passFilterLines : list string :=
  [ "if (int(flags.x) != renderPass) {";
    "   gl_Position = vec4(3.0, 3.0, 3.0, 1.0);";
    "   return;";
    "} else {" ].

(** The face normal, the winding test and the first line of the position
    assembly, as the builder writes them one after the other. *)
Definition windingLines : list string :=
  [ "vec3 normal = normalize(cross(positions[2] - positions[0], positions[1] - positions[0]));";
    "vec3 position;";
    "position = positions[gl_VertexID % 3];";
    "vec3 viewNormal = -normalize((transpose(inverse(viewMatrix*objectDecodeAndInstanceMatrix)) * vec4(normal,1)).xyz);";
    "if (solid != 1u) {";
    "if (isPerspectiveMatrix(projMatrix)) {";
    "vec3 uCameraEyeRtcInQuantizedSpace = (inverse(sceneModelMatrix * objectDecodeAndInstanceMatrix) * vec4(uCameraEyeRtc, 1)).xyz;";
    "if (dot(position.xyz - uCameraEyeRtcInQuantizedSpace, normal) < 0.0) {";
    "position = positions[2 - (gl_VertexID % 3)];";
    "viewNormal = -viewNormal;";
    "}";
    "} else {";
    "if (viewNormal.z < 0.0) {";
    "position = positions[2 - (gl_VertexID % 3)];";
    "viewNormal = -viewNormal;";
    "}";
    "}";
    "}";
    "vec4 worldPosition = sceneModelMatrix * (objectDecodeAndInstanceMatrix * vec4(position, 1.0)); " ].

(** The corners the three vertices of polygon [k] are given, in vertex
    order. *)
Definition triangle {T : Type} {scalar : Scalar T} {builtins : VertexStage.Builtins T}
    (u : VertexStage.Uniforms T) (t : VertexStage.Textures T) (k : Z) : list (vec3 T) :=
  map (fun j => VertexStage.position (VertexStage.locals u t (3 * k + j)%Z)) [0; 1; 2]%Z.

(** Two vertex orders describe the same winding when one is a rotation of
    the other. *)
Definition sameWinding {A : Type} (a b : list A) : Prop :=
  exists n, b = skipn n a ++ firstn n a.

(** ** The rest of the renderer *)

(** [destroy()]: the renderer afterwards and the identity of the program
    whose own [destroy] was called, if one was held. *)
Definition destroy (this : Renderer) : Renderer * option Z :=
  (set_program this None,
   match _program this with
   | Some program => Some (id program)
   | None => None
   end).


(** The name a location was looked up by. *)
Definition locationName (l : Location) : string :=
  match l with
  | Loc _ name => name
  end.

(** The line that declares a uniform of a type. *)
Definition uniformDeclaration (type name : string) : string :=
  ("uniform " ++ type ++ " " ++ name ++ ";")%string.

Section LastUploads.
Context {T : Type}.



End LastUploads.

(** A string ends with another. *)
Fixpoint endsWith (suffix l : string) : bool :=
  String.eqb suffix l
  || match l with
     | EmptyString => false
     | String _ l' => endsWith suffix l'
     end.

(** A string holds a character. *)
Fixpoint holdsChar (c : ascii) (l : string) : bool :=
  match l with
  | EmptyString => false
  | String d l' => Ascii.eqb c d || holdsChar c l'
  end.

(** No line of a source ends with the name followed by a semicolon, as the
    declaration of a uniform of that name does whatever its type. *)
Definition noLineDeclares (name : string) (src : list string) : bool :=
  forallb (fun l => negb (endsWith (" " ++ name ++ ";") l)) src.

(** A uniform held by the renderer is declared, with a type, in a source. *)
Definition uniformDeclaredIn (src : list string) (type : string)
    (location : option Location) : Prop :=
  exists l, location = Some l
            /\ declares (uniformDeclaration type (locationName l)) src = true.

(** A sampler name held by the renderer is declared, with a type, in a
    source. *)
Definition samplerDeclaredIn (src : list string) (type : string)
    (name : option string) : Prop :=
  exists n, name = Some n /\ declares (uniformDeclaration type n) src = true.

(** The lines the occlusion builder adds to its vertex source for
    logarithmic depth, and those it adds to its fragment source. *)
Definition occlusionLogDepthVertexLines : list string :=
  [ "#extension GL_EXT_frag_depth : enable";
    "uniform float logDepthBufFC;";
    "varying float vFragDepth;";
    "vFragDepth = 1.0 + clipPos.w;" ].

Definition occlusionLogDepthFragmentLines : list string :=
  [ "#extension GL_EXT_frag_depth : enable";
    "uniform float logDepthBufFC;";
    "varying float vFragDepth;";
    "gl_FragDepthEXT = log2( vFragDepth ) * logDepthBufFC * 0.5;" ].

(** A scene with entity offsets switched off. *)
Definition withoutEntityOffsets {T : Type} (scene : Scene T) : Scene T :=
  {| _sectionPlanesState := _sectionPlanesState scene;
     camera := camera scene;
     logarithmicDepthBufferEnabled := logarithmicDepthBufferEnabled scene;
     entityOffsetsEnabled := false;
     viewer := viewer scene |}.

(** The lines both fragment builders push for section plane [j]: its three
    uniforms before [main], and its test inside [main]. *)
Definition planeDeclarations (j : nat) : list string :=
  [ ("uniform bool sectionPlaneActive" ++ string_of_nat j ++ ";")%string;
    ("uniform vec3 sectionPlanePos" ++ string_of_nat j ++ ";")%string;
    ("uniform vec3 sectionPlaneDir" ++ string_of_nat j ++ ";")%string ].

Definition planeTests (j : nat) : list string :=
  [ ("if (sectionPlaneActive" ++ string_of_nat j ++ ") {")%string;
    ("   dist += clamp(dot(-sectionPlaneDir" ++ string_of_nat j
      ++ ".xyz, vWorldPosition.xyz - sectionPlanePos" ++ string_of_nat j
      ++ ".xyz), 0.0, 1000.0);")%string;
    "}" ].

(** ** The fast-navigation plugin

    [FastNavPlugin] switches the expensive effects of the scene off while
    the camera moves and fades them back in afterwards.  The plugin acts
    only when one of its callbacks is called, so it is modelled as a state
    and a step per callback: the camera's "matrix" event, the scene's "tick"
    event, a firing of the fade interval, [send] and [destroy]. *)

Module FastNavPlugin.

(** What the browser and the viewer provide: the comparison [a <= b] on
    numbers, [parseInt] ([None] is NaN), the snapshot the viewer returns and
    the handle [setInterval] returns, which is an integer above zero. *)
Class Browser (T : Type) := {
  leb : T -> T -> bool;
  parseInt : string -> option Z;
  getSnapshot : string;
  setInterval : positive
}.

(** The canvas, as far as the plugin reads it. *)
Record Canvas := {
  canvas_zIndex : string;
  canvas_left : string;
  canvas_top : string;
  canvas_styleWidth : string;
  canvas_styleHeight : string;
  canvas_width : Z;
  canvas_height : Z
}.

Section Plugin.
Context {T : Type} {scalar : Scalar T} {browser : Browser T}.

(** The image element the plugin fades, with the style properties it sets. *)
Record Img := {
  position : string;
  visibility : string;
  pointerEvents : string;
  zIndex : Z;
  left : string;
  top : string;
  styleWidth : string;
  styleHeight : string;
  opacity : T;
  width : Z;
  height : Z;
  src : option string
}.

(** The plugin with what it closes over and what it acts on: the fields
    [_pInterval], [_fadeMillisecs] and [_img]; the variables [timer] and
    [fastMode] of the constructor and [opacity] and [inc] of the latest
    [_startFade]; whether the two event handlers are still subscribed and
    whether the base class was destroyed; the three switches of the scene,
    the canvas, and the number of images the plugin has put in the document
    body; and whether a call has raised a [TypeError]. *)
Record State := {
  _pInterval : option positive;
  _fadeMillisecs : T;
  _img : option Img;
  timer : T;
  fastMode : bool;
  fadeOpacity : T;
  fadeInc : T;
  subscribed : bool;
  superDestroyed : bool;
  pbrEnabled : bool;
  saoEnabled : bool;
  edges : bool;
  canvas : Canvas;
  imagesInBody : nat;
  raised : bool
}.

(** [timeoutDuration] *)
Definition timeoutDuration : T := lit 600.

(** [constructor(viewer)], on a viewer with the given switches and canvas. *)
Definition constructor (pbr sao edgesOn : bool) (c : Canvas) : State :=
  {| _pInterval := None; _fadeMillisecs := lit 500; _img := None;
     timer := timeoutDuration; fastMode := false;
     fadeOpacity := lit 0; fadeInc := lit 0;
     subscribed := true; superDestroyed := false;
     pbrEnabled := pbr; saoEnabled := sao; edges := edgesOn;
     canvas := c; imagesInBody := 0; raised := false |}.

(** [(parseInt(canvas.style["z-index"]) || 0) + 1] *)
Definition zIndexAbove (c : Canvas) : Z :=
  (match parseInt (canvas_zIndex c) with
   | Some z => z
   | None => 0
   end + 1)%Z.

Definition with_fade (s : State) (interval : option positive) (img : option Img) : State :=
  {| _pInterval := interval; _fadeMillisecs := _fadeMillisecs s; _img := img;
     timer := timer s; fastMode := fastMode s;
     fadeOpacity := fadeOpacity s; fadeInc := fadeInc s;
     subscribed := subscribed s; superDestroyed := superDestroyed s;
     pbrEnabled := pbrEnabled s; saoEnabled := saoEnabled s; edges := edges s;
     canvas := canvas s; imagesInBody := imagesInBody s; raised := raised s |}.

Definition with_style (img : Img) (v : string) (o : T) : Img :=
  {| position := position img; visibility := v; pointerEvents := pointerEvents img;
     zIndex := zIndex img; left := left img; top := top img;
     styleWidth := styleWidth img; styleHeight := styleHeight img;
     opacity := o; width := width img; height := height img; src := src img |}.

(** The image [_initFade()] creates and appends to the body. *)
Definition initialImage (c : Canvas) : Img :=
  {| position := "absolute"; visibility := "hidden"; pointerEvents := "none";
     zIndex := zIndexAbove c; left := canvas_left c; top := canvas_top c;
     styleWidth := canvas_styleWidth c; styleHeight := canvas_styleHeight c;
     opacity := lit 0; width := canvas_width c; height := canvas_height c;
     src := None |}.

(** [_initFade()] *)
Definition _initFade (s : State) : State :=
  {| _pInterval := _pInterval s; _fadeMillisecs := _fadeMillisecs s;
     _img := Some (initialImage (canvas s));
     timer := timer s; fastMode := fastMode s;
     fadeOpacity := fadeOpacity s; fadeInc := fadeInc s;
     subscribed := subscribed s; superDestroyed := superDestroyed s;
     pbrEnabled := pbrEnabled s; saoEnabled := saoEnabled s; edges := edges s;
     canvas := canvas s; imagesInBody := S (imagesInBody s); raised := raised s |}.

(** [_cancelFade()] *)
Definition _cancelFade (s : State) : State :=
  match _img s with
  | None => s
  | Some img => with_fade s None (Some (with_style img "hidden" (lit 0)))
  end.

(** [_startFade()] *)
Definition _startFade (s : State) : State :=
  let s := match _img s with
           | None => _initFade s
           | Some _ => s
           end in
  let interval := lit 50 in
  let inc := div (lit 1) (div (_fadeMillisecs s) interval) in
  let c := canvas s in
  match _img s with
  | None => s   (* not reached: [_initFade] has set the image *)
  | Some img =>
      {| _pInterval := Some setInterval; _fadeMillisecs := _fadeMillisecs s;
         _img := Some {| position := "absolute"; visibility := "visible";
                         pointerEvents := pointerEvents img;
                         zIndex := zIndexAbove c;
                         left := canvas_left c; top := canvas_top c;
                         styleWidth := canvas_styleWidth c;
                         styleHeight := canvas_styleHeight c;
                         opacity := lit 1;
                         width := canvas_width c; height := canvas_height c;
                         src := Some getSnapshot |};
         timer := timer s; fastMode := fastMode s;
         fadeOpacity := lit 1; fadeInc := inc;
         subscribed := subscribed s; superDestroyed := superDestroyed s;
         pbrEnabled := pbrEnabled s; saoEnabled := saoEnabled s; edges := edges s;
         canvas := canvas s; imagesInBody := imagesInBody s; raised := raised s |}
  end.

Definition with_raised (s : State) : State :=
  {| _pInterval := _pInterval s; _fadeMillisecs := _fadeMillisecs s; _img := _img s;
     timer := timer s; fastMode := fastMode s;
     fadeOpacity := fadeOpacity s; fadeInc := fadeInc s;
     subscribed := subscribed s; superDestroyed := superDestroyed s;
     pbrEnabled := pbrEnabled s; saoEnabled := saoEnabled s; edges := edges s;
     canvas := canvas s; imagesInBody := imagesInBody s; raised := true |}.

(** The callback [_startFade] hands to [setInterval]. *)
Definition intervalCallback (s : State) : State :=
  let opacity := sub (fadeOpacity s) (fadeInc s) in
  let s := {| _pInterval := _pInterval s; _fadeMillisecs := _fadeMillisecs s;
              _img := _img s; timer := timer s; fastMode := fastMode s;
              fadeOpacity := opacity; fadeInc := fadeInc s;
              subscribed := subscribed s; superDestroyed := superDestroyed s;
              pbrEnabled := pbrEnabled s; saoEnabled := saoEnabled s; edges := edges s;
              canvas := canvas s; imagesInBody := imagesInBody s; raised := raised s |} in
  match _img s with
  | None => with_raised s   (* [this._img.style] of a missing image *)
  | Some img =>
      if ltb (lit 0) opacity
      then with_fade s (_pInterval s) (Some (with_style img (visibility img) opacity))
      else with_fade s None (Some (with_style img "hidden" (lit 0)))
  end.

Definition with_mode (s : State) (t : T) (fast : bool) (switches : bool) : State :=
  {| _pInterval := _pInterval s; _fadeMillisecs := _fadeMillisecs s; _img := _img s;
     timer := t; fastMode := fast;
     fadeOpacity := fadeOpacity s; fadeInc := fadeInc s;
     subscribed := subscribed s; superDestroyed := superDestroyed s;
     pbrEnabled := switches; saoEnabled := switches; edges := switches;
     canvas := canvas s; imagesInBody := imagesInBody s; raised := raised s |}.

Definition with_timer (s : State) (t : T) : State :=
  {| _pInterval := _pInterval s; _fadeMillisecs := _fadeMillisecs s; _img := _img s;
     timer := t; fastMode := fastMode s;
     fadeOpacity := fadeOpacity s; fadeInc := fadeInc s;
     subscribed := subscribed s; superDestroyed := superDestroyed s;
     pbrEnabled := pbrEnabled s; saoEnabled := saoEnabled s; edges := edges s;
     canvas := canvas s; imagesInBody := imagesInBody s; raised := raised s |}.

(** The handler of the camera's "matrix" event. *)
Definition onCameraMatrix (s : State) : State :=
  if fastMode s then with_timer s timeoutDuration
  else with_mode (_cancelFade (with_timer s timeoutDuration)) timeoutDuration true false.

(** The handler of the scene's "tick" event. *)
Definition onSceneTick (s : State) (deltaTime : T) : State :=
  if negb (fastMode s) then s
  else
    let t := sub (timer s) deltaTime in
    if leb t (lit 0)
    then with_mode (_startFade (with_timer s t)) t false true
    else with_timer s t.

(** [send(name, value)] *)
Definition send (s : State) (name : string) : State :=
  if String.eqb name "clear" then _cancelFade s else s.

(** [destroy()] *)
Definition destroy (s : State) : State :=
  let s := _cancelFade s in
  let s := {| _pInterval := _pInterval s; _fadeMillisecs := _fadeMillisecs s;
              _img := _img s; timer := timer s; fastMode := fastMode s;
              fadeOpacity := fadeOpacity s; fadeInc := fadeInc s;
              subscribed := false; superDestroyed := true;
              pbrEnabled := pbrEnabled s; saoEnabled := saoEnabled s; edges := edges s;
              canvas := canvas s; imagesInBody := imagesInBody s; raised := raised s |} in
  match _img s with
  | None => with_raised s   (* [this._img.parentNode] of a missing image *)
  | Some _ =>
      {| _pInterval := _pInterval s; _fadeMillisecs := _fadeMillisecs s;
         _img := None; timer := timer s; fastMode := fastMode s;
         fadeOpacity := fadeOpacity s; fadeInc := fadeInc s;
         subscribed := subscribed s; superDestroyed := superDestroyed s;
         pbrEnabled := pbrEnabled s; saoEnabled := saoEnabled s; edges := edges s;
         canvas := canvas s; imagesInBody := pred (imagesInBody s); raised := raised s |}
  end.

(** What can happen to the plugin. *)
Inductive Event : Type :=
| CameraMatrix
| Tick (deltaTime : T)
| IntervalFires
| Send (name : string)
| Destroy.

(** One event.  The two handlers run only while they are subscribed, and the
    interval callback only while the interval it was set for is not
    cleared. *)
Definition step (s : State) (e : Event) : State :=
  match e with
  | CameraMatrix => if subscribed s then onCameraMatrix s else s
  | Tick deltaTime => if subscribed s then onSceneTick s deltaTime else s
  | IntervalFires =>
      match _pInterval s with
      | Some _ => intervalCallback s
      | None => s
      end
  | Send name => send s name
  | Destroy => destroy s
  end.

Definition run (s : State) (events : list Event) : State :=
  fold_left step events s.

(** The image is shown. *)
Definition shown (s : State) : bool :=
  match _img s with
  | Some img => String.eqb (visibility img) "visible"
  | None => false
  end.

(** What every state the plugin reaches satisfies: in fast mode the three
    switches are off and no fade runs; the fade interval runs exactly while
    the image is shown; the body holds the plugin's image exactly while
    [_img] is set; and only [destroy] raises. *)
Definition consistent (s : State) : Prop :=
  (fastMode s = true ->
   pbrEnabled s = false /\ saoEnabled s = false /\ edges s = false
   /\ _pInterval s = None)
  /\ (_pInterval s <> None <-> shown s = true)
  /\ imagesInBody s = match _img s with Some _ => 1 | None => 0 end
  /\ (raised s = true -> superDestroyed s = true).

End Plugin.

Arguments Img T : clear implicits.
Arguments State T : clear implicits.
Arguments Event T : clear implicits.

End FastNavPlugin.

(** ** Fixtures

    Concrete interpretations and inputs on which the definitions above run.
    The integers stand for numbers of integral value, on which the
    arithmetic used here is exact. *)

#[export] Instance ZScalar : Scalar Z := {|
  lit := fun z => z;
  add := Z.add;
  sub := Z.sub;
  mul := Z.mul;
  div := Z.div;
  opp := Z.opp;
  eqb := Z.eqb;
  ltb := Z.ltb;
  ltb_lit := fun a b _ _ => eq_refl
|}.

(** Shader builtins on integral vectors: [normalize] is exact on the
    axis-aligned vectors, [inverse] on the identity. *)
#[export] Instance ZBuiltins : VertexStage.Builtins Z := {|
  VertexStage.normalize := fun v => mkVec3 (Z.sgn (v3x v)) (Z.sgn (v3y v)) (Z.sgn (v3z v));
  VertexStage.inverse := fun m => m
|}.

(** The imports with the two RTC helpers left open and a constructor that
    returns program 1 with the given error set. *)
Definition importsWith (errs : option (list string))
    (viewMat : mat4 Z -> vec3 Z -> mat4 Z)
    (planePos : Z -> vec3 Z -> vec3 Z -> vec3 Z) : Imports Z := {|
  Program_new := fun _ => {| id := 1; program_errors := errs |};
  transformPoint3 := fun m p => xyz (mulMV m (vec4_of p 1%Z));
  createRTCViewMat := viewMat;
  getPlaneRTCPos := planePos;
  Math_log := Z.log2;
  Math_LN2 := 1%Z;
  getHash := fun s => string_of_nat (List.length (sectionPlanes s))
|}.

Definition planePosFixture (dist : Z) (d c : vec3 Z) : vec3 Z :=
  let k := (- (dot3 d c + dist))%Z in
  mkVec3 (v3x d * k)%Z (v3y d * k)%Z (v3z d * k)%Z.

(** Compilation succeeds. *)
Definition workingImports : Imports Z :=
  importsWith None createRTCViewMat_spec planePosFixture.

(** Compilation fails. *)
Definition failingImports : Imports Z :=
  importsWith (Some ["ERROR: 0:1: syntax error"]) createRTCViewMat_spec planePosFixture.

Definition cameraFixture : Camera Z := {|
  viewMatrix := identityMat4;
  projMatrix := identityMat4;
  eye := mkVec3 10 20 30;
  project := {| project_matrix := identityMat4; project_far := 1023 |}
|}%Z.

Definition planeFixture : SectionPlane Z := {|
  sp_pos := mkVec3 0 0 5;
  sp_dir := mkVec3 0 0 1;
  sp_dist := (-5)
|}%Z.

Definition sceneWith (planes : list (SectionPlane Z)) (logDepth offsets supported : bool)
    : Scene Z := {|
  _sectionPlanesState := {| sectionPlanes := planes |};
  camera := cameraFixture;
  logarithmicDepthBufferEnabled := logDepth;
  entityOffsetsEnabled := offsets;
  viewer := {| logarithmicDepthBufferSupported := supported |}
|}.

Definition layerWith (o : option (vec3 Z)) (p : vec3 Z) (flags : list bool)
    (n8 n16 n32 : Z) : DataTextureLayer Z := {|
  model := {| position := p;
              rotationMatrix := identityMat4;
              rotationMatrixConjugate := identityMat4;
              renderFlags := {| sectionPlanesActivePerLayer := flags |} |};
  _state := {| textureState := {| textureStateId := 42 |};
               origin := o;
               numIndices8Bits := n8;
               numIndices16Bits := n16;
               numIndices32Bits := n32 |};
  layerIndex := 0
|}.

Definition frameFixture : FrameCtx Z := {|
  lastProgramId := None;
  drawElements := 0;
  pickZFar := 1023
|}%Z.

(** One object, number 0, made of one non-solid triangle with corners
    (0,0,0), (0,1,0) and (1,0,0); its pass flag and alpha are given. *)
Definition texturesWith (passFlag alpha : Z) : VertexStage.Textures Z :=
  let identityRow (c : Z * Z) : vec4 Z :=
    (if fst c =? 0 then mkVec4 1 0 0 0
     else if fst c =? 1 then mkVec4 0 1 0 0
     else if fst c =? 2 then mkVec4 0 0 1 0
     else mkVec4 0 0 0 1)%Z in
  {| VertexStage.uObjectPerObjectPositionsDecodeMatrix := identityRow;
     VertexStage.uTexturePerObjectMatrix := identityRow;
     VertexStage.uObjectPerObjectColorsAndFlags := fun c =>
       (if fst c =? 0 then mkVec4 255 0 0 alpha
        else if fst c =? 2 then mkVec4 passFlag 0 0 0
        else mkVec4 0 0 0 0)%Z;
     VertexStage.uTexturePerVertexIdCoordinates := fun c =>
       (if fst c =? 1 then mkVec4 0 1 0 0
        else if fst c =? 2 then mkVec4 1 0 0 0
        else mkVec4 0 0 0 0)%Z;
     VertexStage.uTexturePerPolygonIdIndices := fun _ => mkVec4 0 1 2 0;
     VertexStage.uTexturePerPolygonIdPortionIds := fun _ => mkVec4 0 0 0 0 |}%Z.

(** An orthographic set-up: every matrix is the identity. *)
Definition uniformsWith (pass : Z) : VertexStage.Uniforms Z :=
  {| VertexStage.renderPass := pass;
     VertexStage.sceneModelMatrix := identityMat4;
     VertexStage.viewMatrix := identityMat4;
     VertexStage.projMatrix := identityMat4;
     VertexStage.uCameraEyeRtc := mkVec3 0 0 10 |}%Z.


(** A browser on integral numbers, with a canvas whose z-index is 5. *)
#[export] Instance ZBrowser : FastNavPlugin.Browser Z := {|
  FastNavPlugin.leb := Z.leb;
  FastNavPlugin.parseInt := fun s => if String.eqb s "5" then Some 5%Z else None;
  FastNavPlugin.getSnapshot := "data:image/png;base64,";
  FastNavPlugin.setInterval := 1%positive
|}.

Definition canvasFixture : FastNavPlugin.Canvas := {|
  FastNavPlugin.canvas_zIndex := "5";
  FastNavPlugin.canvas_left := "0px";
  FastNavPlugin.canvas_top := "0px";
  FastNavPlugin.canvas_styleWidth := "800px";
  FastNavPlugin.canvas_styleHeight := "600px";
  FastNavPlugin.canvas_width := 800;
  FastNavPlugin.canvas_height := 600
|}.

(** ** Properties of the shader source builder *)

Lemma for_push_singletons {A : Type} (f : nat -> A) (count from : nat) :
  for_push from count (fun i => [f i]) = map f (seq from count).
Proof.
  revert from; induction count as [|n IH]; intros from; simpl.
  - reflexivity.
  - now rewrite IH.
Qed.

Lemma declares_app (l : string) (xs ys : list string) :
  declares l (xs ++ ys) = declares l xs || declares l ys.
Proof. apply existsb_app. Qed.

Lemma declares_for_push_none (l : string) (body : nat -> list string) (count from : nat) :
  (forall i, declares l (body i) = false) ->
  declares l (for_push from count body) = false.
Proof.
  intros Hbody. revert from; induction count as [|n IH]; intros from; simpl.
  - reflexivity.
  - now rewrite declares_app, Hbody, IH.
Qed.

Lemma string_of_nat_inj (n m : nat) : string_of_nat n = string_of_nat m -> n = m.
Proof.
  unfold string_of_nat. intros H.
  apply DecimalNat.Unsigned.to_uint_inj.
  apply (f_equal NilEmpty.uint_of_string) in H.
  rewrite !NilEmpty.usu in H. congruence.
Qed.

(** The two sources read three things of the scene and nothing else: the
    number of section planes and the two enablement flags. *)
Lemma _buildShader_reads {T : Type} (s1 s2 : Scene T) :
  List.length (sectionPlanes (_sectionPlanesState s1))
  = List.length (sectionPlanes (_sectionPlanesState s2)) ->
  logarithmicDepthBufferEnabled s1 = logarithmicDepthBufferEnabled s2 ->
  entityOffsetsEnabled s1 = entityOffsetsEnabled s2 ->
  _buildShader s1 = _buildShader s2.
Proof.
  intros Hlen Hlog Hoff.
  unfold _buildShader, _buildVertexShader, _buildFragmentShader.
  cbv zeta. rewrite Hlen, Hlog, Hoff. reflexivity.
Qed.

(** C1, as amended.  Two scene configurations with the same derived hash
    that also agree on logarithmic-depth enablement and on entity-offset
    enablement get the same vertex and fragment sources, line for line; the
    hash is taken to tell section-plane counts apart, which is all it is
    derived from. *)
Theorem C1_equal_hash_and_flags_give_equal_source
    {T : Type} {imports : Imports T} (s1 s2 : Scene T) :
  (forall a b : SectionPlanesState T,
      getHash a = getHash b ->
      List.length (sectionPlanes a) = List.length (sectionPlanes b)) ->
  _getHash s1 = _getHash s2 ->
  logarithmicDepthBufferEnabled s1 = logarithmicDepthBufferEnabled s2 ->
  entityOffsetsEnabled s1 = entityOffsetsEnabled s2 ->
  vertex (_buildShader s1) = vertex (_buildShader s2)
  /\ fragment (_buildShader s1) = fragment (_buildShader s2).
Proof.
  intros Hcount Hhash Hlog Hoff.
  assert (H : _buildShader s1 = _buildShader s2).
  { apply _buildShader_reads; [ | exact Hlog | exact Hoff].
    apply Hcount. exact Hhash. }
  rewrite H. split; reflexivity.
Qed.

Lemma C1_witness :
  let s1 := sceneWith [planeFixture] true false true in
  let s2 := sceneWith [{| sp_pos := mkVec3 1 0 0; sp_dir := mkVec3 1 0 0; sp_dist := 7 |}%Z]
                      true false false in
  vertex (_buildShader s1) = vertex (_buildShader s2)
  /\ fragment (_buildShader s1) = fragment (_buildShader s2).
Proof.
  intros s1 s2.
  apply (C1_equal_hash_and_flags_give_equal_source (imports := workingImports) s1 s2).
  - intros a b H. simpl in H. apply string_of_nat_inj. exact H.
  - reflexivity.
  - reflexivity.
  - reflexivity.
Defined.

(** C1 as stated fails: two configurations that share their section-plane
    state have the same hash whatever the hash function is, and yet differ
    in their sources when one of them enables logarithmic depth, or entity
    offsets, and the other does not. *)
Lemma C1_counterexample :
  let s1 := sceneWith [] false false true in
  let s2 := sceneWith [] true false true in
  let s3 := sceneWith [] false true true in
  (forall imports : Imports Z,
      @_getHash Z imports s1 = @_getHash Z imports s2
      /\ @_getHash Z imports s1 = @_getHash Z imports s3)
  /\ vertex (_buildShader s1) <> vertex (_buildShader s2)
  /\ fragment (_buildShader s1) <> fragment (_buildShader s2)
  /\ vertex (_buildShader s1) <> vertex (_buildShader s3).
Proof.
  intros s1 s2 s3. split; [ | split; [ | split ] ].
  - intros imports. split; reflexivity.
  - intros H. apply (f_equal (@List.length string)) in H. vm_compute in H. discriminate H.
  - intros H. apply (f_equal (@List.length string)) in H. vm_compute in H. discriminate H.
  - intros H. apply (f_equal (@List.length string)) in H. vm_compute in H. discriminate H.
Qed.

Lemma logDepth_vertex_lines {T : Type} (scene : Scene T) (l : string) :
  In l logDepthVertexLines ->
  declares l (_buildVertexShader scene) = logarithmicDepthBufferEnabled scene.
Proof.
  intros Hl. unfold _buildVertexShader. cbv zeta.
  destruct (logarithmicDepthBufferEnabled scene),
           (entityOffsetsEnabled scene),
           (sectionPlanes (_sectionPlanesState scene)) as [|p ps];
    simpl in Hl;
    repeat (destruct Hl as [<- | Hl]; [reflexivity | ]);
    contradiction.
Qed.

Lemma logDepth_fragment_lines {T : Type} (scene : Scene T) (l : string) :
  In l logDepthFragmentLines ->
  declares l (_buildFragmentShader scene) = logarithmicDepthBufferEnabled scene.
Proof.
  intros Hl. unfold _buildFragmentShader. cbv zeta.
  rewrite !declares_app.
  assert (Hdecl : forall n from,
    declares l (for_push from n (fun i =>
      [ ("uniform bool sectionPlaneActive" ++ string_of_nat i ++ ";")%string;
        ("uniform vec3 sectionPlanePos" ++ string_of_nat i ++ ";")%string;
        ("uniform vec3 sectionPlaneDir" ++ string_of_nat i ++ ";")%string ])) = false).
  { intros n from. apply declares_for_push_none. intros i.
    simpl in Hl.
    repeat (destruct Hl as [<- | Hl]; [reflexivity | ]); contradiction. }
  assert (Hmain : forall n from,
    declares l (for_push from n (fun i =>
      [ ("if (sectionPlaneActive" ++ string_of_nat i ++ ") {")%string;
        ("   dist += clamp(dot(-sectionPlaneDir" ++ string_of_nat i
          ++ ".xyz, vWorldPosition.xyz - sectionPlanePos" ++ string_of_nat i
          ++ ".xyz), 0.0, 1000.0);")%string;
        "}" ])) = false).
  { intros n from. apply declares_for_push_none. intros i.
    simpl in Hl.
    repeat (destruct Hl as [<- | Hl]; [reflexivity | ]); contradiction. }
  destruct (0 <? List.length (sectionPlanes (_sectionPlanesState scene)))%nat;
    rewrite ?declares_app, ?Hdecl, ?Hmain;
    destruct (logarithmicDepthBufferEnabled scene);
    simpl in Hl;
    repeat (destruct Hl as [<- | Hl]; [reflexivity | ]);
    contradiction.
Qed.

(** The occlusion shader, in contrast, declares its depth varying only when
    the platform supports logarithmic depth as well. *)
Lemma occlusion_log_depth_needs_support {T : Type} (scene : Scene T) :
  declares "varying float vFragDepth;" (InstancingOcclusionShaderSource.buildVertex scene)
  = logarithmicDepthBufferEnabled scene
    && logarithmicDepthBufferSupported (viewer scene).
Proof.
  unfold InstancingOcclusionShaderSource.buildVertex. cbv zeta.
  destruct (logarithmicDepthBufferEnabled scene),
           (logarithmicDepthBufferSupported (viewer scene)),
           (entityOffsetsEnabled scene),
           (sectionPlanes (_sectionPlanesState scene)) as [|p ps];
    reflexivity.
Qed.

(** C4, as amended.  The vertex source holds the logarithmic-depth uniform,
    the varyings [vFragDepth] and [isPerspective] and their assignments, and
    the fragment source holds the two varyings, the uniform and the line
    [gl_FragDepth = isPerspective == 0.0 ? gl_FragCoord.z : log2( vFragDepth )
    * logDepthBufFC * 0.5;], exactly when the scene enables logarithmic depth
    buffering; whether the platform supports it is not consulted, and a scene
    that differs only in that flag gets the same two sources. *)
Theorem C4_log_depth_lines_follow_enablement {T : Type} (scene : Scene T) :
  (forall l, In l logDepthVertexLines ->
     declares l (vertex (_buildShader scene)) = logarithmicDepthBufferEnabled scene)
  /\ (forall l, In l logDepthFragmentLines ->
     declares l (fragment (_buildShader scene)) = logarithmicDepthBufferEnabled scene)
  /\ (forall supported : bool,
     _buildShader {| _sectionPlanesState := _sectionPlanesState scene;
                     camera := camera scene;
                     logarithmicDepthBufferEnabled := logarithmicDepthBufferEnabled scene;
                     entityOffsetsEnabled := entityOffsetsEnabled scene;
                     viewer := {| logarithmicDepthBufferSupported := supported |} |}
     = _buildShader scene).
Proof.
  split; [ | split ].
  - intros l Hl. apply logDepth_vertex_lines. exact Hl.
  - intros l Hl. apply logDepth_fragment_lines. exact Hl.
  - intros supported. apply _buildShader_reads; reflexivity.
Qed.

(** C4 as stated fails: with logarithmic depth enabled on a platform that
    does not support it, both sources still hold the varyings and the
    fragment source the depth formula. *)
Lemma C4_counterexample :
  let scene := sceneWith [] true false false in
  (logarithmicDepthBufferEnabled scene
   && logarithmicDepthBufferSupported (viewer scene) = false)
  /\ declares "out float vFragDepth;" (vertex (_buildShader scene)) = true
  /\ declares "out float isPerspective;" (vertex (_buildShader scene)) = true
  /\ declares "in float vFragDepth;" (fragment (_buildShader scene)) = true
  /\ declares "in float isPerspective;" (fragment (_buildShader scene)) = true
  /\ declares
       "    gl_FragDepth = isPerspective == 0.0 ? gl_FragCoord.z : log2( vFragDepth ) * logDepthBufFC * 0.5;"
       (fragment (_buildShader scene)) = true.
Proof.
  intros scene. repeat split; vm_compute; reflexivity.
Qed.

(** ** Properties of the emitted vertex stage *)

Section VertexStageProperties.
Import VertexStage.
Context {T : Type} {scalar : Scalar T} {builtins : Builtins T}.

Lemma passFilter_emitted (scene : Scene T) :
  holdsBlock passFilterLines (_buildVertexShader scene) = true.
Proof.
  unfold _buildVertexShader. cbv zeta.
  destruct (logarithmicDepthBufferEnabled scene),
           (entityOffsetsEnabled scene),
           (sectionPlanes (_sectionPlanesState scene)) as [|p ps];
    reflexivity.
Qed.

Lemma winding_emitted (scene : Scene T) :
  holdsBlock windingLines (_buildVertexShader scene) = true.
Proof.
  unfold _buildVertexShader. cbv zeta.
  destruct (logarithmicDepthBufferEnabled scene),
           (entityOffsetsEnabled scene),
           (sectionPlanes (_sectionPlanesState scene)) as [|p ps];
    reflexivity.
Qed.

Lemma int32_small (z : Z) : (- 2 ^ 31 <= z < 2 ^ 31)%Z -> int32 z = z.
Proof.
  intros Hz. unfold int32.
  rewrite Z.mod_small by lia. lia.
Qed.

Lemma culled_outside : outsideClipVolume (gl_Position culled) = true.
Proof.
  unfold outsideClipVolume, culled. simpl.
  rewrite (ltb_lit 1 3) by (simpl; lia).
  reflexivity.
Qed.

(** C5.  For every object and every [renderPass], the vertex leaves through
    the render-pass filter exactly when [int(flags.x)] differs from
    [renderPass]; it then carries the position (3, 3, 3, 1), which is outside
    the canonical clip volume, and no other output.  For a flag word in the
    signed range [int(flags.x)] is [flags.x] itself.  The builder writes the
    filter into the vertex source of every scene. *)
Theorem C5_render_pass_filter (logDepth clipping : bool)
    (u : Uniforms T) (t : Textures T) (gl_VertexID : Z) :
  let flags := objectTexel t (objectIndexCoords t gl_VertexID) 2 in
  let result := main logDepth clipping u t gl_VertexID in
  (int32 (v4x flags) = renderPass u -> fst result <> PassCulled)
  /\ (int32 (v4x flags) <> renderPass u -> result = (PassCulled, culled))
  /\ gl_Position culled = mkVec4 (lit 3) (lit 3) (lit 3) (lit 1)
  /\ outsideClipVolume (gl_Position culled) = true
  /\ ((0 <= v4x flags < 2 ^ 31)%Z -> int32 (v4x flags) = v4x flags)
  /\ (forall scene : Scene T, holdsBlock passFilterLines (vertex (_buildShader scene)) = true).
Proof.
  intros flags result. subst flags result. unfold main. cbv zeta.
  destruct (Z.eqb_spec
              (int32 (v4x (objectTexel t (objectIndexCoords t gl_VertexID) 2)))
              (renderPass u)) as [Heq | Hne]; simpl negb; cbv iota.
  - split; [ | split; [ | split; [ | split; [ | split ] ] ] ].
    + intros _.
      destruct (v4w (objectTexel t (objectIndexCoords t gl_VertexID) 0) =? 0)%Z;
        simpl; discriminate.
    + intros Hne. contradiction.
    + reflexivity.
    + apply culled_outside.
    + intros Hr. apply int32_small. lia.
    + intros scene. apply passFilter_emitted.
  - split; [ | split; [ | split; [ | split; [ | split ] ] ] ].
    + intros Heq. contradiction.
    + intros _. reflexivity.
    + reflexivity.
    + apply culled_outside.
    + intros Hr. apply int32_small. lia.
    + intros scene. apply passFilter_emitted.
Qed.

Lemma polygon_of_vertex (k j : Z) :
  (0 <= k)%Z -> (0 <= j < 3)%Z ->
  Z.quot (3 * k + j) 3 = k /\ Z.rem (3 * k + j) 3 = j.
Proof.
  intros Hk Hj.
  rewrite Z.quot_div_nonneg, Z.rem_mod_nonneg by lia.
  split.
  - symmetry. apply (Z.div_unique _ _ k j); lia.
  - symmetry. apply (Z.mod_unique _ _ k j); lia.
Qed.

Lemma objectIndexCoords_of_polygon (t : Textures T) (k j : Z) :
  (0 <= k)%Z -> (0 <= j < 3)%Z ->
  objectIndexCoords t (3 * k + j) = objectIndexCoords t (3 * k).
Proof.
  intros Hk Hj. unfold objectIndexCoords.
  destruct (polygon_of_vertex k j Hk Hj) as [-> _].
  destruct (polygon_of_vertex k 0 Hk ltac:(lia)) as [Hq _].
  rewrite Z.add_0_r in Hq. rewrite Hq. reflexivity.
Qed.

Lemma fetchPositions_of_polygon (t : Textures T) (oic : Z * Z) (k j : Z) :
  (0 <= k)%Z -> (0 <= j < 3)%Z ->
  fetchPositions t oic (3 * k + j) = fetchPositions t oic (3 * k).
Proof.
  intros Hk Hj. unfold fetchPositions.
  destruct (polygon_of_vertex k j Hk Hj) as [-> _].
  destruct (polygon_of_vertex k 0 Hk ltac:(lia)) as [Hq _].
  rewrite Z.add_0_r in Hq. rewrite Hq. reflexivity.
Qed.

(** The locals of vertex [j] of polygon [k], in terms of what the polygon's
    three vertices share. *)
Lemma locals_of_polygon (u : Uniforms T) (t : Textures T) (k j : Z) :
  (0 <= k)%Z -> (0 <= j < 3)%Z ->
  let oic := objectIndexCoords t (3 * k) in
  let M := mulMat4 (objectMatrix (uTexturePerObjectMatrix t) oic)
                   (objectMatrix (uObjectPerObjectPositionsDecodeMatrix t) oic) in
  let P := fetchPositions t oic (3 * k) in
  let n := faceNormal P in
  let vn := opp3 (normalize (xyz (mulMV (transpose (inverse (mulMat4 (viewMatrix u) M)))
                                        (vec4_of n (lit 1))))) in
  let s := v4x (objectTexel t oic 7) in
  locals u t (3 * k + j)
  = if flips u M s n (index3 P j) vn
    then {| solid := s; normal := n; position := index3 P (2 - j); viewNormal := opp3 vn |}
    else {| solid := s; normal := n; position := index3 P j; viewNormal := vn |}.
Proof.
  intros Hk Hj. cbv zeta. unfold locals, winding.
  rewrite objectIndexCoords_of_polygon, fetchPositions_of_polygon by assumption.
  destruct (polygon_of_vertex k j Hk Hj) as [_ ->].
  reflexivity.
Qed.

Lemma main_emitted_position (logDepth clipping : bool) (u : Uniforms T) (t : Textures T)
    (gl_VertexID : Z) :
  fst (main logDepth clipping u t gl_VertexID) = Emitted ->
  let oic := objectIndexCoords t gl_VertexID in
  let M := mulMat4 (objectMatrix (uTexturePerObjectMatrix t) oic)
                   (objectMatrix (uObjectPerObjectPositionsDecodeMatrix t) oic) in
  gl_Position (snd (main logDepth clipping u t gl_VertexID))
  = mulMV (projMatrix u)
      (mulMV (viewMatrix u)
         (mulMV (sceneModelMatrix u)
            (mulMV M (vec4_of (position (locals u t gl_VertexID)) (lit 1))))).
Proof.
  unfold main. cbv zeta.
  destruct (negb _); [discriminate | ].
  destruct (_ =? 0)%Z; [discriminate | ].
  intros _. reflexivity.
Qed.

(** C7.  For vertex [j] of polygon [k]: the face normal is
    [normalize(cross(p2 - p0, p1 - p0))]; solid geometry (flag equal to 1)
    keeps corner [j] and its view normal; non-solid geometry takes corner
    [2 - j] and the negated view normal exactly when the test is negative,
    the test being [dot(position - eye in quantized space, normal) < 0]
    under a perspective projection and [viewNormal.z < 0] under an
    orthographic one.  The chosen corner is the one the final position is
    assembled from.  A polygon whose three vertices flip is emitted as
    (p2, p1, p0), the winding of (p0, p2, p1); one whose vertices do not
    flip is emitted as (p0, p1, p2).  The builder writes the normal, the
    test and the assembly in this order into every vertex source. *)
Theorem C7_backface_flip (u : Uniforms T) (t : Textures T) (k : Z) :
  (0 <= k)%Z ->
  let oic := objectIndexCoords t (3 * k) in
  let M := mulMat4 (objectMatrix (uTexturePerObjectMatrix t) oic)
                   (objectMatrix (uObjectPerObjectPositionsDecodeMatrix t) oic) in
  let P := fetchPositions t oic (3 * k) in
  let p0 := index3 P 0 in
  let p1 := index3 P 1 in
  let p2 := index3 P 2 in
  let n := normalize (cross (sub3 p2 p0) (sub3 p1 p0)) in
  let vn := opp3 (normalize (xyz (mulMV (transpose (inverse (mulMat4 (viewMatrix u) M)))
                                        (vec4_of n (lit 1))))) in
  let s := v4x (objectTexel t oic 7) in
  let eyeQ := xyz (mulMV (inverse (mulMat4 (sceneModelMatrix u) M))
                         (vec4_of (uCameraEyeRtc u) (lit 1))) in
  let negative (j : Z) :=
    if isPerspectiveMatrix (projMatrix u)
    then ltb (dot3 (sub3 (index3 P j) eyeQ) n) (lit 0)
    else ltb (v3z vn) (lit 0) in
  (forall j, (0 <= j < 3)%Z ->
     let l := locals u t (3 * k + j) in
     normal l = n
     /\ (s = 1%Z -> position l = index3 P j /\ viewNormal l = vn)
     /\ (s <> 1%Z -> negative j = true ->
         position l = index3 P (2 - j) /\ viewNormal l = opp3 vn)
     /\ (s <> 1%Z -> negative j = false ->
         position l = index3 P j /\ viewNormal l = vn)
     /\ (forall logDepth clipping,
         fst (main logDepth clipping u t (3 * k + j)) = Emitted ->
         gl_Position (snd (main logDepth clipping u t (3 * k + j)))
         = mulMV (projMatrix u)
             (mulMV (viewMatrix u)
                (mulMV (sceneModelMatrix u)
                   (mulMV M (vec4_of (position l) (lit 1)))))))
  /\ (s <> 1%Z -> negative 0%Z = true -> negative 1%Z = true -> negative 2%Z = true ->
      triangle u t k = [p2; p1; p0] /\ sameWinding [p0; p2; p1] (triangle u t k))
  /\ (s = 1%Z \/ (negative 0%Z = false /\ negative 1%Z = false /\ negative 2%Z = false) ->
      triangle u t k = [p0; p1; p2])
  /\ (s <> 1%Z -> isPerspectiveMatrix (projMatrix u) = false ->
      triangle u t k = if ltb (v3z vn) (lit 0) then [p2; p1; p0] else [p0; p1; p2])
  /\ (forall scene : Scene T, holdsBlock windingLines (vertex (_buildShader scene)) = true).
Proof.
  intros Hk oic M P p0 p1 p2 n vn s eyeQ negative.
  assert (Hloc : forall j, (0 <= j < 3)%Z ->
            locals u t (3 * k + j)
            = if (if negb (s =? 1)%Z then negative j else false)
              then {| solid := s; normal := n; position := index3 P (2 - j);
                      viewNormal := opp3 vn |}
              else {| solid := s; normal := n; position := index3 P j;
                      viewNormal := vn |}).
  { intros j Hj. rewrite (locals_of_polygon u t k j Hk Hj). reflexivity. }
  assert (Hsolid : s = 1%Z -> forall j, (0 <= j < 3)%Z -> position (locals u t (3 * k + j)) = index3 P j).
  { intros Hs j Hj. rewrite (Hloc j Hj).
    rewrite (proj2 (Z.eqb_eq s 1) Hs). reflexivity. }
  assert (Hkeep : forall j, (0 <= j < 3)%Z -> negative j = false ->
            position (locals u t (3 * k + j)) = index3 P j).
  { intros j Hj Hn. rewrite (Hloc j Hj), Hn. destruct (negb (s =? 1)%Z); reflexivity. }
  assert (Hflip : s <> 1%Z -> forall j, (0 <= j < 3)%Z -> negative j = true ->
            position (locals u t (3 * k + j)) = index3 P (2 - j)).
  { intros Hs j Hj Hn. rewrite (Hloc j Hj), Hn.
    rewrite (proj2 (Z.eqb_neq s 1) Hs). reflexivity. }
  split; [ | split; [ | split; [ | split ] ] ].
  - intros j Hj l. subst l. rewrite (Hloc j Hj).
    split; [ | split; [ | split; [ | split ] ] ].
    + destruct (if negb (s =? 1)%Z then negative j else false); reflexivity.
    + intros Hs. rewrite (proj2 (Z.eqb_eq s 1) Hs). split; reflexivity.
    + intros Hs Hn. rewrite (proj2 (Z.eqb_neq s 1) Hs), Hn. split; reflexivity.
    + intros Hs Hn. rewrite (proj2 (Z.eqb_neq s 1) Hs), Hn. split; reflexivity.
    + intros logDepth clipping He.
      rewrite (main_emitted_position logDepth clipping u t (3 * k + j) He).
      rewrite (objectIndexCoords_of_polygon t k j Hk Hj).
      rewrite (Hloc j Hj). reflexivity.
  - intros Hs H0 H1 H2.
    assert (Ht : triangle u t k = [p2; p1; p0]).
    { unfold triangle. cbn [map].
      rewrite (Hflip Hs 0%Z ltac:(lia) H0), (Hflip Hs 1%Z ltac:(lia) H1),
              (Hflip Hs 2%Z ltac:(lia) H2).
      reflexivity. }
    split; [exact Ht | ].
    rewrite Ht. exists 1%nat. reflexivity.
  - intros [Hs | (H0 & H1 & H2)]; unfold triangle; cbn [map].
    + rewrite !(Hsolid Hs) by lia. reflexivity.
    + rewrite (Hkeep 0%Z ltac:(lia) H0), (Hkeep 1%Z ltac:(lia) H1),
              (Hkeep 2%Z ltac:(lia) H2).
      reflexivity.
  - intros Hs Hortho.
    assert (Hneg : forall j, negative j = ltb (v3z vn) (lit 0)).
    { intros j. unfold negative. rewrite Hortho. reflexivity. }
    unfold triangle. cbn [map].
    destruct (ltb (v3z vn) (lit 0)) eqn:Hz.
    + rewrite (Hflip Hs 0%Z ltac:(lia) (Hneg _)), (Hflip Hs 1%Z ltac:(lia) (Hneg _)),
              (Hflip Hs 2%Z ltac:(lia) (Hneg _)).
      reflexivity.
    + rewrite (Hkeep 0%Z ltac:(lia) (Hneg _)), (Hkeep 1%Z ltac:(lia) (Hneg _)),
              (Hkeep 2%Z ltac:(lia) (Hneg _)).
      reflexivity.
  - intros scene. apply winding_emitted.
Qed.

End VertexStageProperties.

Lemma C7_witness :
  (0 <= 0)%Z
  /\ triangle (uniformsWith 1) (texturesWith 1 255) 0
     = [mkVec3 1 0 0; mkVec3 0 1 0; mkVec3 0 0 0]%Z.
Proof.
  split; [lia | ].
  destruct (C7_backface_flip (uniformsWith 1) (texturesWith 1 255) 0 ltac:(lia))
    as (_ & _ & _ & Hortho & _).
  rewrite Hortho.
  - reflexivity.
  - discriminate.
  - reflexivity.
Defined.

(** The filter on the fixture object, whose pass flag is 1: drawn in pass 1,
    culled in pass 2, and culled by the alpha test when its alpha is 0. *)
Example pass_filter_on_fixture :
  fst (VertexStage.main false false (uniformsWith 1) (texturesWith 1 255) 0)
  = VertexStage.Emitted
  /\ VertexStage.main false false (uniformsWith 2) (texturesWith 1 255) 0
     = (VertexStage.PassCulled, VertexStage.culled)
  /\ VertexStage.main false false (uniformsWith 1) (texturesWith 1 0) 0
     = (VertexStage.AlphaCulled, VertexStage.culled).
Proof. repeat split; reflexivity. Qed.

(** ** Properties of [drawLayer] *)

Section DrawLayerProperties.
Context {T : Type} {scalar : Scalar T} {imports : Imports T}.

Lemma drawCounts_app (xs ys : list (GLCall T)) :
  drawCounts (xs ++ ys) = drawCounts xs ++ drawCounts ys.
Proof. unfold drawCounts. apply flat_map_app. Qed.

Lemma programBinds_app (xs ys : list (GLCall T)) :
  programBinds (xs ++ ys) = programBinds xs + programBinds ys.
Proof. unfold programBinds. now rewrite filter_app, length_app. Qed.

Lemma bucketDraws_skip (width : option Z) (xs ys : list (GLCall T)) :
  existsb touchesBuckets xs = false ->
  bucketDraws width (xs ++ ys) = bucketDraws width ys.
Proof.
  induction xs as [|c xs IH]; simpl; [reflexivity | ].
  intros H. apply orb_false_elim in H. destruct H as [Hc Hxs].
  destruct c; try discriminate Hc; apply IH; exact Hxs.
Qed.

Lemma compilations_app (xs ys : list (GLCall T)) :
  compilations (xs ++ ys) = compilations xs + compilations ys.
Proof. unfold compilations. now rewrite filter_app, length_app. Qed.

(** [_allocate] always leaves a program on the renderer, compiles once and
    neither binds nor draws. *)
Lemma _allocate_program (this : Renderer) (scene : Scene T) :
  _program (fst (_allocate this scene)) = Some (Program_new (_buildShader scene))
  /\ snd (_allocate this scene) = [NewProgram (_buildShader scene)].
Proof.
  unfold _allocate.
  destruct (program_errors (Program_new (_buildShader scene))); split; reflexivity.
Qed.

Lemma ensureProgram_calls (this this1 : Renderer) (scene : Scene T)
    (c0 : list (GLCall T)) (leave : bool) :
  ensureProgram this scene = (this1, c0, leave) ->
  (exists p, _program this1 = Some p)
  /\ existsb touchesBuckets c0 = false
  /\ drawCounts c0 = [] /\ programBinds c0 = 0
  /\ (forall p, _program this = Some p -> this1 = this /\ c0 = [] /\ leave = false)
  /\ (_program this = None -> c0 = [NewProgram (_buildShader scene)]).
Proof.
  unfold ensureProgram. intros H.
  destruct (_program this) as [p|] eqn:Hp.
  - injection H as <- <- <-.
    split; [exists p; exact Hp | ].
    split; [reflexivity | ]. split; [reflexivity | ]. split; [reflexivity | ].
    split; [ | discriminate ].
    intros p' _. repeat split.
  - destruct (_allocate_program this scene) as [Hprog Hcalls].
    destruct (_allocate this scene) as [this' c]. simpl in Hprog, Hcalls.
    injection H as <- <- <-. subst c.
    split; [eexists; exact Hprog | ].
    split; [reflexivity | ]. split; [reflexivity | ]. split; [reflexivity | ].
    split; [discriminate | reflexivity ].
Qed.

Lemma bindPhase_frame (this : Renderer) (scene : Scene T) (frameCtx : FrameCtx T)
    (program : Program) :
  let r := bindPhase this scene frameCtx program in
  lastProgramId (fst r) = Some (id program)
  /\ drawElements (fst r) = drawElements frameCtx
  /\ pickZFar (fst r) = pickZFar frameCtx
  /\ existsb touchesBuckets (snd r) = false
  /\ drawCounts (snd r) = []
  /\ compilations (snd r) = 0
  /\ programBinds (snd r) = if differs (lastProgramId frameCtx) (id program) then 1 else 0.
Proof.
  unfold bindPhase, differs.
  destruct (lastProgramId frameCtx) as [last|] eqn:Hlast; simpl.
  - destruct (Z.eqb_spec last (id program)) as [-> | Hne]; simpl.
    + rewrite Hlast. repeat split.
    + unfold _bindProgram.
      destruct (logarithmicDepthBufferEnabled scene); repeat split.
  - unfold _bindProgram.
    destruct (logarithmicDepthBufferEnabled scene); repeat split.
Qed.

Lemma frameUniformCalls_quiet (this : Renderer) (scene : Scene T) (frameCtx : FrameCtx T)
    (m : Model T) (v : mat4 T) (e : vec3 T) (renderPass : Z) :
  let cs := frameUniformCalls this scene frameCtx m v e renderPass in
  existsb touchesBuckets cs = false /\ drawCounts cs = [] /\ programBinds cs = 0 /\ compilations cs = 0.
Proof.
  unfold frameUniformCalls.
  destruct (logarithmicDepthBufferEnabled scene); repeat split.
Qed.

Lemma sectionPlaneCalls_quiet (us : list SectionPlaneUniforms) (flags : RenderFlags)
    (base : nat) (o : option (vec3 T)) (rest : list (SectionPlane T)) (i : nat) :
  let cs := sectionPlaneCalls us flags base o i rest in
  existsb touchesBuckets cs = false
  /\ drawCounts cs = [] /\ programBinds cs = 0 /\ compilations cs = 0.
Proof.
  revert i. induction rest as [|plane rest IH]; intros i; simpl.
  - repeat split.
  - destruct (IH (S i)) as (Ht & Hd & Hb & Hc).
    rewrite existsb_app, drawCounts_app, programBinds_app, compilations_app, Ht, Hd, Hb, Hc.
    destruct (nth_error us i) as [u|]; [ | repeat split ].
    destruct (nth (base + i) (sectionPlanesActivePerLayer flags) false); repeat split.
Qed.

Lemma sectionPlanePhase_quiet (this : Renderer) (scene : Scene T)
    (layer : DataTextureLayer T) (cs : list (GLCall T)) :
  sectionPlanePhase this scene layer = Some cs ->
  existsb touchesBuckets cs = false /\ drawCounts cs = [] /\ programBinds cs = 0 /\ compilations cs = 0.
Proof.
  unfold sectionPlanePhase.
  destruct (0 <? _)%nat.
  - destruct (_uSectionPlanes this) as [us|]; [ | discriminate ].
    intros [= <-]. apply sectionPlaneCalls_quiet.
  - intros [= <-]. repeat split.
Qed.

Lemma bucketCalls_counts (this : Renderer) (program : Program) (state : LayerState T) :
  let cs := bucketCalls this program state in
  (forall width, bucketDraws width cs
   = bucketDraw 8 (numIndices8Bits state) ++ bucketDraw 16 (numIndices16Bits state)
     ++ bucketDraw 32 (numIndices32Bits state))
  /\ drawCounts cs
  = bucketCount (numIndices8Bits state) ++ bucketCount (numIndices16Bits state)
    ++ bucketCount (numIndices32Bits state)
  /\ programBinds cs = 0 /\ compilations cs = 0.
Proof.
  unfold bucketCalls, drawBucket, bucketCount, bucketDraw.
  destruct (numIndices8Bits state >? 0)%Z, (numIndices16Bits state >? 0)%Z,
           (numIndices32Bits state >? 0)%Z; repeat split.
Qed.

(** A call that runs to its last statement, taken apart into its phases. *)
Lemma drawLayer_completed (this : Renderer) (scene : Scene T) (frameCtx : FrameCtx T)
    (layer : DataTextureLayer T) (renderPass : Z) :
  completion (drawLayer this scene frameCtx layer renderPass) = Completed ->
  exists this1 c0 program o c4,
    ensureProgram this scene = (this1, c0, false)
    /\ _program this1 = Some program
    /\ origin (_state layer) = Some o
    /\ sectionPlanePhase this1 scene layer = Some c4
    /\ let b := bindPhase this1 scene frameCtx program in
       let r := rtc (camera scene) (model layer) o in
       drawLayer this scene frameCtx layer renderPass
       = {| renderer := this1;
            frame := {| lastProgramId := lastProgramId (fst b);
                        drawElements := drawElements (fst b) + 1;
                        pickZFar := pickZFar (fst b) |};
            calls := c0 ++ snd b
                     ++ [ BindCommonTextures (textureState (_state layer)) (id program)
                            (uTexturePerObjectPositionsDecodeMatrix this1)
                            (_uTexturePerVertexIdCoordinates this1)
                            (uTexturePerObjectColorsAndFlags this1)
                            (_uTexturePerObjectMatrix this1) ]
                     ++ frameUniformCalls this1 scene (fst b) (model layer)
                          (fst r) (snd r) renderPass
                     ++ c4 ++ bucketCalls this1 program (_state layer);
            completion := Completed |}.
Proof.
  unfold drawLayer. cbv zeta.
  destruct (ensureProgram this scene) as [[this1 c0] leave] eqn:He.
  destruct leave; [discriminate | ].
  destruct (_program this1) as [program|] eqn:Hp; [ | discriminate ].
  destruct (bindPhase this1 scene frameCtx program) as [fc1 c1] eqn:Hb.
  destruct (origin (_state layer)) as [o|] eqn:Ho; [ | discriminate ].
  destruct (rtc (camera scene) (model layer) o) as [v e] eqn:Hr.
  destruct (sectionPlanePhase this1 scene layer) as [c4|] eqn:H4; [ | discriminate ].
  intros _. exists this1, c0, program, o, c4.
  rewrite Hb, Hr.
  split; [reflexivity | ]. split; [exact Hp | ]. split; [reflexivity | ].
  split; [exact H4 | reflexivity ].
Qed.

(** A renderer that holds a program and, when the scene has section planes,
    a uniform table, completes every call on a layer that has an origin. *)
Lemma drawLayer_completes (this : Renderer) (scene : Scene T) (frameCtx : FrameCtx T)
    (layer : DataTextureLayer T) (renderPass : Z) (program : Program) (o : vec3 T) :
  _program this = Some program ->
  origin (_state layer) = Some o ->
  (sectionPlanes (_sectionPlanesState scene) = []
   \/ exists us, _uSectionPlanes this = Some us) ->
  completion (drawLayer this scene frameCtx layer renderPass) = Completed.
Proof.
  intros Hp Ho Hus. unfold drawLayer, ensureProgram. cbv zeta.
  rewrite Hp. cbv beta iota. rewrite Hp.
  destruct (bindPhase this scene frameCtx program) as [fc1 c1].
  rewrite Ho.
  destruct (rtc (camera scene) (model layer) o) as [v e].
  unfold sectionPlanePhase.
  destruct Hus as [-> | (us & ->)].
  - reflexivity.
  - destruct (0 <? _)%nat; reflexivity.
Qed.

(** So does the renderer a successful constructor returns, on any later
    state of the scene. *)
Lemma constructed_renderer_completes (scene0 scene : Scene T) (frameCtx : FrameCtx T)
    (layer : DataTextureLayer T) (renderPass : Z) (o : vec3 T) :
  program_errors (Program_new (_buildShader scene0)) = None ->
  origin (_state layer) = Some o ->
  completion (drawLayer (fst (constructor scene0)) scene frameCtx layer renderPass)
  = Completed.
Proof.
  intros Hok Ho.
  apply (drawLayer_completes _ scene frameCtx layer renderPass
           (Program_new (_buildShader scene0)) o).
  - unfold constructor, _allocate. rewrite Hok. reflexivity.
  - exact Ho.
  - right. unfold constructor, _allocate. rewrite Hok. cbn. eexists. reflexivity.
Qed.

(** The draws of a completed call are those of its buckets. *)
Lemma drawLayer_draws (this : Renderer) (scene : Scene T) (frameCtx : FrameCtx T)
    (layer : DataTextureLayer T) (renderPass : Z) :
  completion (drawLayer this scene frameCtx layer renderPass) = Completed ->
  let state := _state layer in
  bucketDraws None (calls (drawLayer this scene frameCtx layer renderPass))
  = bucketDraw 8 (numIndices8Bits state) ++ bucketDraw 16 (numIndices16Bits state)
    ++ bucketDraw 32 (numIndices32Bits state)
  /\ drawCounts (calls (drawLayer this scene frameCtx layer renderPass))
  = bucketCount (numIndices8Bits state) ++ bucketCount (numIndices16Bits state)
    ++ bucketCount (numIndices32Bits state)
  /\ drawElements (frame (drawLayer this scene frameCtx layer renderPass))
     = (drawElements frameCtx + 1)%Z.
Proof.
  intros Hc.
  destruct (drawLayer_completed this scene frameCtx layer renderPass Hc)
    as (this1 & c0 & program & o & c4 & He & Hp & Ho & H4 & Hout).
  cbv zeta in Hout. rewrite Hout. cbn [calls frame drawElements].
  destruct (ensureProgram_calls this this1 scene c0 false He) as (_ & Ht0 & Hd0 & _).
  destruct (bindPhase_frame this1 scene frameCtx program) as (_ & Hde & _ & Ht1 & Hd1 & _).
  destruct (frameUniformCalls_quiet this1 scene (fst (bindPhase this1 scene frameCtx program))
              (model layer) (fst (rtc (camera scene) (model layer) o))
              (snd (rtc (camera scene) (model layer) o)) renderPass) as (Ht3 & Hd3 & _).
  destruct (sectionPlanePhase_quiet this1 scene layer c4 H4) as (Ht4 & Hd4 & _).
  destruct (bucketCalls_counts this1 program (_state layer)) as (Hb & Hd5 & _).
  split; [ | split ].
  - rewrite (bucketDraws_skip None c0) by exact Ht0.
    rewrite (bucketDraws_skip None (snd _)) by exact Ht1.
    rewrite (bucketDraws_skip None [_]) by reflexivity.
    rewrite (bucketDraws_skip None (frameUniformCalls _ _ _ _ _ _ _)) by exact Ht3.
    rewrite (bucketDraws_skip None c4) by exact Ht4.
    apply Hb.
  - rewrite !drawCounts_app, Hd0, Hd1, Hd3, Hd4, Hd5. reflexivity.
  - rewrite Hde. reflexivity.
Qed.

(** C8.  A call of [drawLayer] that runs to completion draws once for each
    of the 8-bit, 16-bit and 32-bit buckets whose index count is positive,
    in that order, each draw covering that bucket's index count with that
    bucket's index textures bound, and does not draw for a bucket whose count
    is not positive. *)
Theorem C8_one_draw_per_nonempty_bucket (this : Renderer) (scene : Scene T)
    (frameCtx : FrameCtx T) (layer : DataTextureLayer T) (renderPass : Z) :
  completion (drawLayer this scene frameCtx layer renderPass) = Completed ->
  bucketDraws None (calls (drawLayer this scene frameCtx layer renderPass))
  = bucketDraw 8 (numIndices8Bits (_state layer))
    ++ bucketDraw 16 (numIndices16Bits (_state layer))
    ++ bucketDraw 32 (numIndices32Bits (_state layer))
  /\ drawCounts (calls (drawLayer this scene frameCtx layer renderPass))
  = bucketCount (numIndices8Bits (_state layer))
    ++ bucketCount (numIndices16Bits (_state layer))
    ++ bucketCount (numIndices32Bits (_state layer)).
Proof.
  intros Hc.
  destruct (drawLayer_draws this scene frameCtx layer renderPass Hc) as (Hb & Hd & _).
  split; [exact Hb | exact Hd].
Qed.

(** C10.  A call of [drawLayer] that the missing-program guard does not
    stop and that runs to its last statement adds exactly one to
    [frameCtx.drawElements]; when the three index counts are zero it does so
    without drawing. *)
Theorem C10_counter_counts_calls (this : Renderer) (scene : Scene T)
    (frameCtx : FrameCtx T) (layer : DataTextureLayer T) (renderPass : Z) :
  completion (drawLayer this scene frameCtx layer renderPass) = Completed ->
  drawElements (frame (drawLayer this scene frameCtx layer renderPass))
  = (drawElements frameCtx + 1)%Z
  /\ (numIndices8Bits (_state layer) = 0%Z ->
      numIndices16Bits (_state layer) = 0%Z ->
      numIndices32Bits (_state layer) = 0%Z ->
      drawCounts (calls (drawLayer this scene frameCtx layer renderPass)) = []).
Proof.
  intros Hc.
  destruct (drawLayer_draws this scene frameCtx layer renderPass Hc) as (_ & Hd & He).
  split; [exact He | ].
  intros H8 H16 H32. rewrite Hd, H8, H16, H32. reflexivity.
Qed.

(** The binds of a call that the guard does not abort. *)
Lemma drawLayer_binds (this this1 : Renderer) (scene : Scene T) (frameCtx : FrameCtx T)
    (layer : DataTextureLayer T) (renderPass : Z) (c0 : list (GLCall T))
    (program : Program) :
  ensureProgram this scene = (this1, c0, false) ->
  _program this1 = Some program ->
  let out := drawLayer this scene frameCtx layer renderPass in
  renderer out = this1
  /\ lastProgramId (frame out) = Some (id program)
  /\ programBinds (calls out)
     = if differs (lastProgramId frameCtx) (id program) then 1 else 0.
Proof.
  intros He Hp. unfold drawLayer. cbv zeta. rewrite He, Hp.
  destruct (ensureProgram_calls this this1 scene c0 false He) as (_ & _ & _ & Hb0 & _).
  destruct (bindPhase_frame this1 scene frameCtx program) as (Hl & _ & _ & _ & _ & _ & Hb1).
  destruct (bindPhase this1 scene frameCtx program) as [fc1 c1]. simpl in Hl, Hb1.
  destruct (origin (_state layer)) as [o|].
  - destruct (rtc (camera scene) (model layer) o) as [v e].
    destruct (frameUniformCalls_quiet this1 scene fc1 (model layer) v e renderPass)
      as (_ & _ & Hb3 & _).
    destruct (sectionPlanePhase this1 scene layer) as [c4|] eqn:H4.
    + destruct (sectionPlanePhase_quiet this1 scene layer c4 H4) as (_ & _ & Hb4 & _).
      destruct (bucketCalls_counts this1 program (_state layer)) as (_ & _ & Hb5 & _).
      cbn [renderer frame calls lastProgramId].
      rewrite !programBinds_app, Hb0, Hb1, Hb3, Hb4, Hb5.
      split; [reflexivity | ]. split; [exact Hl | ].
      cbn. lia.
    + cbn [renderer frame calls lastProgramId].
      rewrite !programBinds_app, Hb0, Hb1, Hb3.
      split; [reflexivity | ]. split; [exact Hl | ].
      cbn. lia.
  - cbn [renderer frame calls lastProgramId].
    rewrite !programBinds_app, Hb0, Hb1.
    split; [reflexivity | ]. split; [exact Hl | ].
    cbn. lia.
Qed.

Lemma drawLayer_not_skipped (this : Renderer) (scene : Scene T) (frameCtx : FrameCtx T)
    (layer : DataTextureLayer T) (renderPass : Z) :
  completion (drawLayer this scene frameCtx layer renderPass) <> Skipped ->
  exists this1 c0 program,
    ensureProgram this scene = (this1, c0, false) /\ _program this1 = Some program.
Proof.
  unfold drawLayer. cbv zeta.
  destruct (ensureProgram this scene) as [[this1 c0] leave] eqn:He.
  destruct (ensureProgram_calls this this1 scene c0 leave He) as ((p & Hp) & _).
  destruct leave.
  - intros H. exfalso. apply H. reflexivity.
  - intros _. exists this1, c0, p. split; [reflexivity | exact Hp].
Qed.

(** C9.  A call of [drawLayer] that the guard does not abort binds the
    program, and records it in [frameCtx.lastProgramId], exactly when
    [frameCtx.lastProgramId] differs from the identity of the renderer's
    program; afterwards [lastProgramId] is that identity.  A second call on
    the same renderer with the frame context the first one left binds
    nothing, so the two calls together bind the program once when it was not
    the one bound on entry. *)
Theorem C9_program_bound_once (this : Renderer) (scene1 scene2 : Scene T)
    (frameCtx : FrameCtx T) (layer1 layer2 : DataTextureLayer T)
    (renderPass1 renderPass2 : Z) (program : Program) :
  let first := drawLayer this scene1 frameCtx layer1 renderPass1 in
  let second := drawLayer (renderer first) scene2 (frame first) layer2 renderPass2 in
  completion first <> Skipped ->
  _program (renderer first) = Some program ->
  programBinds (calls first)
  = (if differs (lastProgramId frameCtx) (id program) then 1 else 0)
  /\ lastProgramId (frame first) = Some (id program)
  /\ programBinds (calls second) = 0
  /\ lastProgramId (frame second) = Some (id program)
  /\ (differs (lastProgramId frameCtx) (id program) = true ->
      programBinds (calls first ++ calls second) = 1).
Proof.
  intros first second Hns Hprog.
  destruct (drawLayer_not_skipped this scene1 frameCtx layer1 renderPass1 Hns)
    as (this1 & c0 & p & He & Hp).
  destruct (drawLayer_binds this this1 scene1 frameCtx layer1 renderPass1 c0 p He Hp)
    as (Hr & Hl & Hb).
  fold first in Hr, Hl, Hb.
  assert (p = program) as -> by congruence.
  assert (He2 : ensureProgram (renderer first) scene2 = (renderer first, [], false)).
  { unfold ensureProgram. rewrite Hprog. reflexivity. }
  destruct (drawLayer_binds (renderer first) (renderer first) scene2 (frame first)
              layer2 renderPass2 [] program He2 Hprog) as (_ & Hl2 & Hb2).
  fold second in Hl2, Hb2.
  assert (Hsame : differs (lastProgramId (frame first)) (id program) = false).
  { rewrite Hl. unfold differs. rewrite Z.eqb_refl. reflexivity. }
  rewrite Hsame in Hb2.
  split; [exact Hb | ]. split; [exact Hl | ]. split; [exact Hb2 | ].
  split; [exact Hl2 | ].
  intros Hd. rewrite programBinds_app, Hb, Hb2, Hd. reflexivity.
Qed.


End DrawLayerProperties.

Lemma C8_witness :
  let scene := sceneWith [] false false true in
  let this := fst (constructor (imports := workingImports) scene) in
  let out := drawLayer (imports := workingImports) this scene frameFixture
               (layerWith (Some zero3) zero3 [] 300 0 90) 1 in
  completion out = Completed
  /\ bucketDraws None (calls out) = [(Some 8, 300); (Some 32, 90)]%Z
  /\ drawCounts (calls out) = [300; 90]%Z.
Proof.
  intros scene this out.
  split; [reflexivity | ].
  exact (C8_one_draw_per_nonempty_bucket (imports := workingImports) this scene frameFixture
           (layerWith (Some zero3) zero3 [] 300 0 90) 1 eq_refl).
Defined.

Lemma C10_witness :
  let scene := sceneWith [] false false true in
  let this := fst (constructor (imports := workingImports) scene) in
  let out := drawLayer (imports := workingImports) this scene frameFixture
               (layerWith (Some zero3) zero3 [] 0 0 0) 1 in
  completion out = Completed
  /\ drawElements (frame out) = 1%Z
  /\ drawCounts (calls out) = [].
Proof.
  intros scene this out.
  assert (Hc : completion out = Completed) by reflexivity.
  destruct (C10_counter_counts_calls (imports := workingImports) this scene frameFixture
              (layerWith (Some zero3) zero3 [] 0 0 0) 1 Hc) as [Hcount Hnone].
  split; [reflexivity | ].
  split; [exact Hcount | ].
  apply Hnone; reflexivity.
Defined.

Lemma C9_witness :
  let scene := sceneWith [] false false true in
  let this := fst (constructor (imports := workingImports) scene) in
  let first := drawLayer (imports := workingImports) this scene frameFixture
                 (layerWith (Some zero3) zero3 [] 300 0 90) 1 in
  let second := drawLayer (imports := workingImports) (renderer first) scene (frame first)
                  (layerWith (Some zero3) zero3 [] 12 0 0) 1 in
  programBinds (calls first) = 1
  /\ programBinds (calls second) = 0
  /\ programBinds (calls first ++ calls second) = 1.
Proof.
  intros scene this first second.
  destruct (C9_program_bound_once (imports := workingImports) this scene scene frameFixture
              (layerWith (Some zero3) zero3 [] 300 0 90)
              (layerWith (Some zero3) zero3 [] 12 0 0) 1 1
              {| id := 1; program_errors := None |})
    as (H1 & _ & H2 & _ & H12).
  - intros H. vm_compute in H. discriminate H.
  - reflexivity.
  - split; [exact H1 | ]. split; [exact H2 | ]. apply H12. reflexivity.
Defined.

(** ** The view matrix and camera eye of a layer with an origin *)

Section RTCAlgebra.
Context {T : Type} {scalar : Scalar T}.
Hypothesis Hring : ring_theory (lit 0) (lit 1) add mul sub opp (@eq T).
Hypothesis Heqb : forall a b : T, eqb a b = true <-> a = b.

Add Ring scalarRing : Hring.






End RTCAlgebra.

Section RTCRebasing.
Context {T : Type} {scalar : Scalar T} {imports : Imports T}.


End RTCRebasing.



(** ** Section-plane uniforms *)

Lemma String_eqb_prefix (p a b : string) :
  String.eqb (p ++ a) (p ++ b) = String.eqb a b.
Proof.
  induction p as [|c p IH]; simpl.
  - reflexivity.
  - rewrite Ascii.eqb_refl. exact IH.
Qed.

Lemma string_of_nat_eqb (i j : nat) :
  String.eqb (string_of_nat i) (string_of_nat j) = (i =? j)%nat.
Proof.
  destruct (Nat.eqb_spec i j) as [-> | Hne].
  - apply String.eqb_refl.
  - apply String.eqb_neq. intros H. apply Hne. apply string_of_nat_inj. exact H.
Qed.






Lemma nth_error_planeUniforms (program : Program) (count i : nat) :
  nth_error (map (planeUniforms program) (seq 0 count)) i
  = if (i <? count)%nat then Some (planeUniforms program i) else None.
Proof.
  destruct (Nat.ltb_spec i count) as [Hlt | Hge].
  - rewrite nth_error_map, nth_error_seq.
    destruct (Nat.ltb_spec i count); [reflexivity | lia].
  - apply nth_error_None. rewrite length_map, length_seq. exact Hge.
Qed.

Section SectionPlaneProperties.
Context {T : Type} {scalar : Scalar T} {imports : Imports T}.








(** A successful [_allocate] leaves the uniforms [allocatedFor] names, for
    as many planes as the scene has at that time. *)
Lemma _allocate_allocatedFor (this : Renderer) (scene : Scene T) :
  program_errors (Program_new (_buildShader scene)) = None ->
  allocatedFor (Program_new (_buildShader scene))
    (List.length (sectionPlanes (_sectionPlanesState scene)))
    (fst (_allocate this scene)).
Proof.
  intros Hok. unfold _allocate. rewrite Hok. unfold allocatedFor. cbn.
  rewrite for_push_singletons. repeat split.
Qed.


End SectionPlaneProperties.



(** ** Compilation failure *)

Section ErrorGuard.
Context {T : Type} {scalar : Scalar T} {imports : Imports T}.

(** A renderer that holds a program is never stopped by the guard, whatever
    its error set is. *)
Lemma errors_not_consulted (this : Renderer) (scene : Scene T) (frameCtx : FrameCtx T)
    (layer : DataTextureLayer T) (renderPass : Z) (program : Program) :
  _program this = Some program ->
  completion (drawLayer this scene frameCtx layer renderPass) <> Skipped
  /\ compilations (calls (drawLayer this scene frameCtx layer renderPass)) = 0
  /\ renderer (drawLayer this scene frameCtx layer renderPass) = this.
Proof.
  intros Hp. unfold drawLayer, ensureProgram. cbv zeta.
  rewrite Hp. cbv beta iota. rewrite Hp.
  destruct (bindPhase_frame this scene frameCtx program) as (_ & _ & _ & _ & _ & Hc1 & _).
  destruct (bindPhase this scene frameCtx program) as [fc1 c1]. simpl in Hc1.
  destruct (origin (_state layer)) as [o|].
  - destruct (rtc (camera scene) (model layer) o) as [v e].
    destruct (frameUniformCalls_quiet this scene fc1 (model layer) v e renderPass)
      as (_ & _ & _ & Hc3).
    destruct (sectionPlanePhase this scene layer) as [c4|] eqn:H4.
    + destruct (sectionPlanePhase_quiet this scene layer c4 H4) as (_ & _ & _ & Hc4).
      destruct (bucketCalls_counts this program (_state layer)) as (_ & _ & _ & Hc5).
      cbn [completion calls renderer].
      rewrite !compilations_app, Hc1, Hc3, Hc4, Hc5.
      split; [discriminate | split; reflexivity ].
    + cbn [completion calls renderer].
      rewrite !compilations_app, Hc1, Hc3.
      split; [discriminate | split; reflexivity ].
  - cbn [completion calls renderer].
    rewrite !compilations_app, Hc1.
    split; [discriminate | split; reflexivity ].
Qed.

End ErrorGuard.

(** C2 does not hold of the code.  A renderer whose constructor failed to
    compile holds the failed program and its error set; [drawLayer] on it
    finds a program, skips the guard, and binds, uploads and draws.  The
    guard stops only the call that itself allocates: after a context loss
    that call returns at once, and the one after it draws.  No call past the
    first compiles again. *)
Theorem C2_draws_after_failed_compilation :
  let scene := sceneWith [] false false true in
  let layer := layerWith (Some zero3) zero3 [] 300 0 90 in
  let this := fst (constructor (imports := failingImports) scene) in
  let out := drawLayer (imports := failingImports) this scene frameFixture layer 1 in
  let lost := webglContextRestored (fst (constructor (imports := workingImports) scene)) in
  let skipped := drawLayer (imports := failingImports) lost scene frameFixture layer 1 in
  let next := drawLayer (imports := failingImports) (renderer skipped) scene
                (frame skipped) layer 1 in
  (errors this = Some ["ERROR: 0:1: syntax error"]
   /\ completion out = Completed
   /\ calls out
      = [ ProgramBind 1;
          UniformMatrix4fv None false identityMat4;
          BindCommonTextures {| textureStateId := 42 |} 1 None None None None;
          UniformMatrix4fv None false identityMat4;
          UniformMatrix4fv None false identityMat4;
          UniformMatrix4fv None false identityMat4;
          Uniform3fv None (mkVec3 10 20 30)%Z;
          Uniform1i None 1;
          BindTriangleIndicesTextures {| textureStateId := 42 |} 1 None None 8;
          DrawArrays TRIANGLES 0 300;
          BindTriangleIndicesTextures {| textureStateId := 42 |} 1 None None 32;
          DrawArrays TRIANGLES 0 90 ]
   /\ drawElements (frame out) = 1%Z)
  /\ (completion skipped = Skipped
      /\ calls skipped = [NewProgram (_buildShader scene)]
      /\ errors (renderer skipped) = Some ["ERROR: 0:1: syntax error"])
  /\ (completion next = Completed
      /\ programBinds (calls next) = 1
      /\ drawCounts (calls next) = [300; 90]%Z
      /\ compilations (calls next) = 0).
Proof.
  intros scene layer this out lost skipped next.
  split; [ | split ].
  - split; [reflexivity | ]. split; [reflexivity | ]. split; reflexivity.
  - split; [reflexivity | ]. split; reflexivity.
  - split; [reflexivity | ]. split; [reflexivity | ]. split; reflexivity.
Qed.

(** ** What the sources depend on *)

Lemma length_for_push {A : Type} (body : nat -> list A) (k count from : nat) :
  (forall i, List.length (body i) = k) ->
  List.length (for_push from count body) = count * k.
Proof.
  intros Hk. revert from. induction count as [|n IH]; intros from; simpl.
  - reflexivity.
  - rewrite length_app, Hk, IH. reflexivity.
Qed.

Lemma length_fragment {T : Type} (scene : Scene T) :
  let n := List.length (sectionPlanes (_sectionPlanesState scene)) in
  List.length (_buildFragmentShader scene)
  = 15 + (if logarithmicDepthBufferEnabled scene then 4 else 0)
    + (if (0 <? n)%nat then 9 + 6 * n else 0).
Proof.
  cbv zeta. unfold _buildFragmentShader. cbv zeta.
  rewrite !length_app.
  destruct (0 <? List.length (sectionPlanes (_sectionPlanesState scene)))%nat.
  - rewrite !length_app.
    rewrite !(length_for_push _ 3) by (intros i; reflexivity).
    destruct (logarithmicDepthBufferEnabled scene); simpl List.length; lia.
  - destruct (logarithmicDepthBufferEnabled scene); reflexivity.
Qed.

Lemma offset_declared {T : Type} (scene : Scene T) :
  declares "in vec3 offset;" (_buildVertexShader scene) = entityOffsetsEnabled scene.
Proof.
  unfold _buildVertexShader. cbv zeta.
  destruct (logarithmicDepthBufferEnabled scene),
           (entityOffsetsEnabled scene),
           (sectionPlanes (_sectionPlanesState scene)) as [|p ps];
    reflexivity.
Qed.

(** X1.  Two scenes are given the same pair of sources exactly when they
    have the same number of section planes and agree on logarithmic-depth
    enablement and on entity-offset enablement. *)
Theorem X1_sources_tell_configurations_apart {T : Type} (s1 s2 : Scene T) :
  _buildShader s1 = _buildShader s2
  <-> (List.length (sectionPlanes (_sectionPlanesState s1))
       = List.length (sectionPlanes (_sectionPlanesState s2))
       /\ logarithmicDepthBufferEnabled s1 = logarithmicDepthBufferEnabled s2
       /\ entityOffsetsEnabled s1 = entityOffsetsEnabled s2).
Proof.
  split.
  - intros H.
    assert (Hv : _buildVertexShader s1 = _buildVertexShader s2)
      by exact (f_equal vertex H).
    assert (Hf : _buildFragmentShader s1 = _buildFragmentShader s2)
      by exact (f_equal fragment H).
    assert (Hoff : entityOffsetsEnabled s1 = entityOffsetsEnabled s2).
    { rewrite <- (offset_declared s1), <- (offset_declared s2), Hv. reflexivity. }
    assert (Hlog : logarithmicDepthBufferEnabled s1 = logarithmicDepthBufferEnabled s2).
    { rewrite <- (logDepth_vertex_lines s1 "out float vFragDepth;"),
              <- (logDepth_vertex_lines s2 "out float vFragDepth;"), Hv.
      - reflexivity.
      - simpl. tauto.
      - simpl. tauto. }
    split; [ | split; [exact Hlog | exact Hoff] ].
    apply (f_equal (@List.length string)) in Hf.
    rewrite !length_fragment in Hf. cbv zeta in Hf. rewrite Hlog in Hf.
    destruct (Nat.ltb_spec 0 (List.length (sectionPlanes (_sectionPlanesState s1))));
      destruct (Nat.ltb_spec 0 (List.length (sectionPlanes (_sectionPlanesState s2))));
      destruct (logarithmicDepthBufferEnabled s2); lia.
  - intros (Hn & Hlog & Hoff). apply _buildShader_reads; assumption.
Qed.

Lemma declares_for_push_one (l : string) (body : nat -> list string) (i count from : nat) :
  (forall j, declares l (body j) = (i =? j)%nat) ->
  declares l (for_push from count body) = ((from <=? i) && (i <? from + count))%nat.
Proof.
  intros Hbody. revert from. induction count as [|n IH]; intros from; simpl.
  - destruct (Nat.leb_spec from i), (Nat.ltb_spec i (from + 0)); try reflexivity; lia.
  - rewrite declares_app, Hbody, IH.
    destruct (Nat.eqb_spec i from), (Nat.leb_spec (S from) i), (Nat.leb_spec from i),
             (Nat.ltb_spec i (S from + n)), (Nat.ltb_spec i (from + S n));
      try reflexivity; lia.
Qed.

Lemma String_length_append (a b : string) :
  String.length (a ++ b) = String.length a + String.length b.
Proof.
  induction a as [|c a IH]; simpl; [reflexivity | now rewrite IH].
Qed.

Lemma String_eqb_suffix (a b s : string) :
  String.eqb (a ++ s) (b ++ s) = String.eqb a b.
Proof.
  destruct (String.eqb_spec a b) as [-> | Hne].
  - apply String.eqb_refl.
  - apply String.eqb_neq. intros H. apply Hne.
    revert b H Hne. induction a as [|c a IH]; intros b H Hne.
    + destruct b as [|d b]; [reflexivity | ].
      exfalso. apply (f_equal String.length) in H.
      simpl in H. rewrite String_length_append in H. simpl in H. lia.
    + destruct b as [|d b].
      * exfalso. apply (f_equal String.length) in H.
        simpl in H. rewrite String_length_append in H. simpl in H. lia.
      * simpl in H. injection H as -> H. f_equal.
        apply IH; [exact H | ]. intros ->. apply Hne. reflexivity.
Qed.

Lemma plane_line_eqb (prefix : string) (i j : nat) :
  String.eqb (prefix ++ string_of_nat i ++ ";") (prefix ++ string_of_nat j ++ ";")
  = (i =? j)%nat.
Proof.
  rewrite String_eqb_prefix, String_eqb_suffix. apply string_of_nat_eqb.
Qed.

(** The fragment source declares the three uniforms of plane [i] exactly
    when the scene has more than [i] planes. *)
Lemma fragment_declares_plane {T : Type} (scene : Scene T) (i : nat) :
  let n := List.length (sectionPlanes (_sectionPlanesState scene)) in
  declares ("uniform bool sectionPlaneActive" ++ string_of_nat i ++ ";")
           (_buildFragmentShader scene) = (i <? n)%nat
  /\ declares ("uniform vec3 sectionPlanePos" ++ string_of_nat i ++ ";")
              (_buildFragmentShader scene) = (i <? n)%nat
  /\ declares ("uniform vec3 sectionPlaneDir" ++ string_of_nat i ++ ";")
              (_buildFragmentShader scene) = (i <? n)%nat.
Proof.
  cbv zeta. unfold _buildFragmentShader. cbv zeta.
  set (n := List.length (sectionPlanes (_sectionPlanesState scene))).
  set (decl := fun j : nat =>
      [ ("uniform bool sectionPlaneActive" ++ string_of_nat j ++ ";")%string;
        ("uniform vec3 sectionPlanePos" ++ string_of_nat j ++ ";")%string;
        ("uniform vec3 sectionPlaneDir" ++ string_of_nat j ++ ";")%string ]).
  set (body := fun j : nat =>
      [ ("if (sectionPlaneActive" ++ string_of_nat j ++ ") {")%string;
        ("   dist += clamp(dot(-sectionPlaneDir" ++ string_of_nat j
          ++ ".xyz, vWorldPosition.xyz - sectionPlanePos" ++ string_of_nat j
          ++ ".xyz), 0.0, 1000.0);")%string;
        "}" ]).
  assert (Ha : forall j, declares ("uniform bool sectionPlaneActive" ++ string_of_nat i ++ ";")
                           (decl j) = (i =? j)%nat).
  { intros j. unfold decl, declares. cbn [existsb].
    rewrite (plane_line_eqb "uniform bool sectionPlaneActive").
    replace (String.eqb ("uniform bool sectionPlaneActive" ++ string_of_nat i ++ ";")
                        ("uniform vec3 sectionPlanePos" ++ string_of_nat j ++ ";"))
      with false by reflexivity.
    replace (String.eqb ("uniform bool sectionPlaneActive" ++ string_of_nat i ++ ";")
                        ("uniform vec3 sectionPlaneDir" ++ string_of_nat j ++ ";"))
      with false by reflexivity.
    rewrite !orb_false_r. reflexivity. }
  assert (Hp : forall j, declares ("uniform vec3 sectionPlanePos" ++ string_of_nat i ++ ";")
                           (decl j) = (i =? j)%nat).
  { intros j. unfold decl, declares. cbn [existsb].
    rewrite (plane_line_eqb "uniform vec3 sectionPlanePos").
    replace (String.eqb ("uniform vec3 sectionPlanePos" ++ string_of_nat i ++ ";")
                        ("uniform bool sectionPlaneActive" ++ string_of_nat j ++ ";"))
      with false by reflexivity.
    replace (String.eqb ("uniform vec3 sectionPlanePos" ++ string_of_nat i ++ ";")
                        ("uniform vec3 sectionPlaneDir" ++ string_of_nat j ++ ";"))
      with false by reflexivity.
    rewrite !orb_false_r. reflexivity. }
  assert (Hd : forall j, declares ("uniform vec3 sectionPlaneDir" ++ string_of_nat i ++ ";")
                           (decl j) = (i =? j)%nat).
  { intros j. unfold decl, declares. cbn [existsb].
    rewrite (plane_line_eqb "uniform vec3 sectionPlaneDir").
    replace (String.eqb ("uniform vec3 sectionPlaneDir" ++ string_of_nat i ++ ";")
                        ("uniform bool sectionPlaneActive" ++ string_of_nat j ++ ";"))
      with false by reflexivity.
    replace (String.eqb ("uniform vec3 sectionPlaneDir" ++ string_of_nat i ++ ";")
                        ("uniform vec3 sectionPlanePos" ++ string_of_nat j ++ ";"))
      with false by reflexivity.
    rewrite !orb_false_r. reflexivity. }
  assert (Hbody : forall l, In l (decl i) -> forall from count,
            declares l (for_push from count body) = false).
  { intros l Hl from count. apply declares_for_push_none. intros j.
    unfold decl in Hl. simpl in Hl.
    repeat (destruct Hl as [<- | Hl]; [reflexivity | ]); contradiction. }
  rewrite !declares_app.
  destruct (Nat.ltb_spec 0 n) as [Hpos | Hzero].
  - rewrite !declares_app.
    rewrite (declares_for_push_one _ decl i n 0 Ha),
            (declares_for_push_one _ decl i n 0 Hp),
            (declares_for_push_one _ decl i n 0 Hd).
    rewrite !(Hbody _) by (unfold decl; simpl; tauto).
    cbn [Nat.leb andb Nat.add].
    destruct (logarithmicDepthBufferEnabled scene), (i <? n)%nat; repeat split.
  - assert (Hi : (i <? n)%nat = false) by (apply Nat.ltb_ge; lia).
    rewrite Hi.
    destruct (logarithmicDepthBufferEnabled scene); repeat split.
Qed.

Lemma vertex_declares_fixed {T : Type} (scene : Scene T) (l : string) :
  In l [ "uniform int renderPass;";
         "uniform mat4 sceneModelMatrix;";
         "uniform mat4 viewMatrix;";
         "uniform mat4 projMatrix;";
         "uniform vec3 uCameraEyeRtc;";
         "uniform highp sampler2D uObjectPerObjectPositionsDecodeMatrix;";
         "uniform highp sampler2D uTexturePerObjectMatrix;";
         "uniform lowp usampler2D uObjectPerObjectColorsAndFlags;";
         "uniform mediump usampler2D uTexturePerVertexIdCoordinates;";
         "uniform highp usampler2D uTexturePerPolygonIdIndices;";
         "uniform mediump usampler2D uTexturePerPolygonIdPortionIds;" ] ->
  declares l (_buildVertexShader scene) = true.
Proof.
  intros Hl. unfold _buildVertexShader. cbv zeta.
  destruct (logarithmicDepthBufferEnabled scene),
           (entityOffsetsEnabled scene),
           (sectionPlanes (_sectionPlanesState scene)) as [|p ps];
    simpl in Hl;
    repeat (destruct Hl as [<- | Hl]; [reflexivity | ]);
    contradiction.
Qed.

Lemma endsWith_refl (s : string) : endsWith s s = true.
Proof.
  destruct s as [|c s]; cbn [endsWith]; rewrite String.eqb_refl; reflexivity.
Qed.

Lemma endsWith_app (a s l : string) :
  endsWith s l = true -> endsWith s (a ++ l) = true.
Proof.
  intros H. induction a as [|c a IH]; [exact H | ].
  change (endsWith s (String c (a ++ l)) = true).
  cbn [endsWith]. rewrite IH. apply orb_true_r.
Qed.

Lemma holdsChar_app (c : ascii) (a b : string) :
  holdsChar c (a ++ b) = holdsChar c a || holdsChar c b.
Proof.
  induction a as [|d a IH]; [reflexivity | ].
  change (holdsChar c (String d (a ++ b)) = holdsChar c (String d a) || holdsChar c b).
  cbn [holdsChar]. rewrite IH. apply orb_assoc.
Qed.

Lemma endsWith_holdsChar (c : ascii) (s l : string) :
  holdsChar c s = true -> endsWith s l = true -> holdsChar c l = true.
Proof.
  intros Hs. induction l as [|d l IH]; cbn [endsWith holdsChar]; intros H.
  - rewrite orb_false_r in H. apply String.eqb_eq in H. subst s. exact Hs.
  - apply orb_true_iff in H. destruct H as [H | H].
    + apply String.eqb_eq in H. subst s. exact Hs.
    + rewrite (IH H). apply orb_true_r.
Qed.

Lemma holdsChar_string_of_nat (c : ascii) (n : nat) :
  holdsChar c "0123456789" = false -> holdsChar c (string_of_nat n) = false.
Proof.
  intros H. cbn [holdsChar] in H.
  repeat (apply orb_false_elim in H; destruct H as [? H]).
  unfold string_of_nat. generalize (Nat.to_uint n) as d.
  induction d as [ |d IH|d IH|d IH|d IH|d IH|d IH|d IH|d IH|d IH|d IH];
    cbn [NilEmpty.string_of_uint holdsChar]; [reflexivity | .. ];
    rewrite IH, orb_false_r; assumption.
Qed.

Lemma noLineDeclares_app (name : string) (a b : list string) :
  noLineDeclares name (a ++ b) = noLineDeclares name a && noLineDeclares name b.
Proof. apply forallb_app. Qed.

Lemma noLineDeclares_for_push (name : string) (body : nat -> list string)
    (from count : nat) :
  (forall j, noLineDeclares name (body j) = true) ->
  noLineDeclares name (for_push from count body) = true.
Proof.
  intros Hbody. revert from. induction count as [|n IH]; intros from; simpl.
  - reflexivity.
  - rewrite noLineDeclares_app, Hbody, IH. reflexivity.
Qed.

(** A line without a character of the name cannot end with the name. *)
Lemma line_without_char (c : ascii) (s l : string) :
  holdsChar c s = true -> holdsChar c l = false -> negb (endsWith s l) = true.
Proof.
  intros Hs Hl. destruct (endsWith s l) eqn:He; [ | reflexivity ].
  rewrite (endsWith_holdsChar c s l Hs He) in Hl. discriminate Hl.
Qed.

Lemma noLineDeclares_sound (name : string) (src : list string) (type : string) :
  noLineDeclares name src = true ->
  declares (uniformDeclaration type name) src = false.
Proof.
  intros H. unfold declares.
  destruct (existsb _ src) eqn:He; [ | reflexivity ].
  apply existsb_exists in He. destruct He as (l & Hin & Heq).
  apply String.eqb_eq in Heq. subst l.
  unfold noLineDeclares in H. rewrite forallb_forall in H.
  specialize (H _ Hin). unfold uniformDeclaration in H.
  rewrite (endsWith_app "uniform " _ _ (endsWith_app type _ _ (endsWith_refl _))) in H.
  discriminate H.
Qed.

Lemma vertex_declares_neither {T : Type} (scene : Scene T) :
  noLineDeclares "objectDecodeAndInstanceMatrix" (_buildVertexShader scene) = true
  /\ noLineDeclares "uTexturePerPolygonIdNormals" (_buildVertexShader scene) = true.
Proof.
  unfold _buildVertexShader. cbv zeta.
  destruct (logarithmicDepthBufferEnabled scene),
           (entityOffsetsEnabled scene),
           (sectionPlanes (_sectionPlanesState scene)) as [|p ps];
    split; vm_compute; reflexivity.
Qed.

Ltac fragment_without c :=
  unfold _buildFragmentShader; cbv zeta;
  match goal with
  | |- context [logarithmicDepthBufferEnabled ?scene] =>
      destruct (logarithmicDepthBufferEnabled scene),
               (0 <? List.length (sectionPlanes (_sectionPlanesState scene)))%nat
  end;
  rewrite !noLineDeclares_app;
  rewrite ?noLineDeclares_for_push
    by (intros j; unfold noLineDeclares; cbn [forallb];
        rewrite !(line_without_char c)
          by first [ reflexivity
                   | rewrite !holdsChar_app, !holdsChar_string_of_nat by reflexivity;
                     reflexivity ];
        reflexivity);
  reflexivity.

Lemma fragment_declares_neither {T : Type} (scene : Scene T) :
  noLineDeclares "objectDecodeAndInstanceMatrix" (_buildFragmentShader scene) = true
  /\ noLineDeclares "uTexturePerPolygonIdNormals" (_buildFragmentShader scene) = true.
Proof.
  split; [fragment_without "j"%char | fragment_without "g"%char].
Qed.

(** X2.  What [_allocate] stores after a successful compilation, and which
    of it the source the program was compiled from declares.  Declared,
    under the name they were looked up by, are the render pass, the three
    matrices and the camera eye in the vertex source, the logarithmic-depth
    constant in both sources (it is looked up only when logarithmic depth is
    enabled, and left as it was otherwise), six sampler names in the vertex
    source, and one triple per section plane of the scene in the fragment
    source.  The two names left, [objectDecodeAndInstanceMatrix] stored in
    [_uPositionsDecodeMatrix] and the sampler name
    [uTexturePerPolygonIdNormals], are declared as a uniform of no type in
    either source; the first is a local of the vertex [main]. *)
Theorem X2_which_stored_names_are_declared {T : Type} {imports : Imports T}
    (this : Renderer) (scene : Scene T) :
  let src := _buildShader scene in
  let this' := fst (_allocate this scene) in
  program_errors (Program_new src) = None ->
  (uniformDeclaredIn (vertex src) "int" (_uRenderPass this')
   /\ uniformDeclaredIn (vertex src) "mat4" (_uSceneModelMatrix this')
   /\ uniformDeclaredIn (vertex src) "mat4" (_uViewMatrix this')
   /\ uniformDeclaredIn (vertex src) "mat4" (_uProjMatrix this')
   /\ uniformDeclaredIn (vertex src) "vec3" (_uCameraEyeRtc this'))
  /\ ((logarithmicDepthBufferEnabled scene = true ->
       uniformDeclaredIn (vertex src) "float" (_uLogDepthBufFC this')
       /\ uniformDeclaredIn (fragment src) "float" (_uLogDepthBufFC this'))
      /\ (logarithmicDepthBufferEnabled scene = false ->
          _uLogDepthBufFC this' = _uLogDepthBufFC this))
  /\ (samplerDeclaredIn (vertex src) "highp sampler2D"
        (uTexturePerObjectPositionsDecodeMatrix this')
      /\ samplerDeclaredIn (vertex src) "mediump usampler2D"
           (_uTexturePerVertexIdCoordinates this')
      /\ samplerDeclaredIn (vertex src) "lowp usampler2D"
           (uTexturePerObjectColorsAndFlags this')
      /\ samplerDeclaredIn (vertex src) "highp sampler2D" (_uTexturePerObjectMatrix this')
      /\ samplerDeclaredIn (vertex src) "mediump usampler2D"
           (_uTexturePerPolygonIdPortionIds this')
      /\ samplerDeclaredIn (vertex src) "highp usampler2D"
           (_uTexturePerPolygonIdIndices this'))
  /\ (exists us,
       _uSectionPlanes this' = Some us
       /\ List.length us = List.length (sectionPlanes (_sectionPlanesState scene))
       /\ forall i u, nth_error us i = Some u ->
            declares (uniformDeclaration "bool" (locationName (active u))) (fragment src) = true
            /\ declares (uniformDeclaration "vec3" (locationName (pos u))) (fragment src) = true
            /\ declares (uniformDeclaration "vec3" (locationName (dir u))) (fragment src) = true)
  /\ (_uPositionsDecodeMatrix this'
      = Some (getLocation (Program_new src) "objectDecodeAndInstanceMatrix")
      /\ _uTexturePerPolygonIdNormals this' = Some "uTexturePerPolygonIdNormals"
      /\ (forall type,
            declares (uniformDeclaration type "objectDecodeAndInstanceMatrix") (vertex src)
            = false
            /\ declares (uniformDeclaration type "objectDecodeAndInstanceMatrix")
                 (fragment src) = false
            /\ declares (uniformDeclaration type "uTexturePerPolygonIdNormals") (vertex src)
               = false
            /\ declares (uniformDeclaration type "uTexturePerPolygonIdNormals")
                 (fragment src) = false)
      /\ existsb (String.prefix "mat4 objectDecodeAndInstanceMatrix = ") (vertex src) = true).
Proof.
  intros src this' Hok. subst this'. unfold _allocate. fold src. rewrite Hok.
  cbn [fst _uRenderPass _uSceneModelMatrix _uViewMatrix _uProjMatrix _uCameraEyeRtc
       _uLogDepthBufFC uTexturePerObjectPositionsDecodeMatrix
       _uTexturePerVertexIdCoordinates uTexturePerObjectColorsAndFlags
       _uTexturePerObjectMatrix _uTexturePerPolygonIdPortionIds
       _uTexturePerPolygonIdIndices _uSectionPlanes
       _uPositionsDecodeMatrix _uTexturePerPolygonIdNormals].
  assert (Hfixed : forall l, In l _ -> declares l (vertex src) = true)
    by exact (vertex_declares_fixed scene).
  split; [ | split; [ | split; [ | split ] ] ].
  - repeat split; eexists; (split; [reflexivity | ]); apply Hfixed; simpl; tauto.
  - split.
    + intros Hlog. rewrite Hlog.
      split; eexists; (split; [reflexivity | ]).
      * change (declares "uniform float logDepthBufFC;" (_buildVertexShader scene) = true).
        rewrite logDepth_vertex_lines by (simpl; tauto). exact Hlog.
      * change (declares "uniform float logDepthBufFC;" (_buildFragmentShader scene) = true).
        rewrite logDepth_fragment_lines by (simpl; tauto). exact Hlog.
    + intros Hlog. rewrite Hlog. reflexivity.
  - repeat split; eexists; (split; [reflexivity | ]); apply Hfixed; simpl; tauto.
  - eexists. split; [reflexivity | ].
    rewrite for_push_singletons. split.
    + rewrite length_map, length_seq. reflexivity.
    + intros i u Hu.
      rewrite nth_error_planeUniforms in Hu.
      destruct (Nat.ltb_spec i (List.length (sectionPlanes (_sectionPlanesState scene))))
        as [Hlt | Hge]; [ | discriminate ].
      injection Hu as <-.
      destruct (fragment_declares_plane scene i) as (Ha & Hp & Hd).
      cbv zeta in Ha, Hp, Hd.
      apply Nat.ltb_lt in Hlt. rewrite Hlt in Ha, Hp, Hd.
      split; [exact Ha | split; [exact Hp | exact Hd] ].
  - split; [reflexivity | ]. split; [reflexivity | ]. split.
    + intros type.
      destruct (vertex_declares_neither scene) as (Hv1 & Hv2).
      destruct (fragment_declares_neither scene) as (Hf1 & Hf2).
      split; [exact (noLineDeclares_sound _ _ type Hv1) | ].
      split; [exact (noLineDeclares_sound _ _ type Hf1) | ].
      split; [exact (noLineDeclares_sound _ _ type Hv2) | ].
      exact (noLineDeclares_sound _ _ type Hf2).
    + change (existsb (String.prefix "mat4 objectDecodeAndInstanceMatrix = ")
                (_buildVertexShader scene) = true).
      unfold _buildVertexShader. cbv zeta.
      destruct (logarithmicDepthBufferEnabled scene),
               (entityOffsetsEnabled scene),
               (sectionPlanes (_sectionPlanesState scene)) as [|p ps];
        reflexivity.
Qed.

Lemma X2_witness :
  let scene := sceneWith [planeFixture; planeFixture] true false true in
  let this' := fst (_allocate (imports := workingImports) blank scene) in
  _uSectionPlanes this'
  = Some [ planeUniforms {| id := 1; program_errors := None |} 0;
           planeUniforms {| id := 1; program_errors := None |} 1 ]
  /\ declares "uniform vec3 sectionPlanePos1;" (fragment (_buildShader scene)) = true
  /\ uniformDeclaredIn (fragment (_buildShader scene)) "float" (_uLogDepthBufFC this')
  /\ declares "uniform mat4 objectDecodeAndInstanceMatrix;" (vertex (_buildShader scene))
     = false.
Proof.
  intros scene this'.
  destruct (X2_which_stored_names_are_declared (imports := workingImports) blank scene eq_refl)
    as (_ & (Hlog & _) & _ & (us & Hus & _ & Hplanes) & (_ & _ & Hnone & _)).
  split; [reflexivity | ]. split; [ | split ].
  - injection Hus as <-.
    exact (proj1 (proj2 (Hplanes 1%nat _ eq_refl))).
  - exact (proj2 (Hlog eq_refl)).
  - exact (proj1 (Hnone "mat4")).
Defined.


(** ** The life cycle of the program *)

Section LifeCycle.
Context {T : Type} {scalar : Scalar T} {imports : Imports T}.

(** Every call of [drawLayer], whatever its end, taken apart into the guard
    and what follows it. *)
Lemma drawLayer_shape (this : Renderer) (scene : Scene T) (frameCtx : FrameCtx T)
    (layer : DataTextureLayer T) (renderPass : Z) :
  let out := drawLayer this scene frameCtx layer renderPass in
  exists this1 c0 leave rest,
    ensureProgram this scene = (this1, c0, leave)
    /\ renderer out = this1
    /\ calls out = c0 ++ rest
    /\ compilations rest = 0
    /\ (completion out = Skipped <-> leave = true)
    /\ (leave = true -> rest = [] /\ frame out = frameCtx)
    /\ (completion out <> Completed ->
        drawCounts rest = []
        /\ drawElements (frame out) = drawElements frameCtx
        /\ pickZFar (frame out) = pickZFar frameCtx)
    /\ (completion out = Threw <->
        leave = false
        /\ (origin (_state layer) = None
            \/ (sectionPlanes (_sectionPlanesState scene) <> []
                /\ _uSectionPlanes this1 = None))).
Proof.
  cbv zeta. unfold drawLayer. cbv zeta.
  destruct (ensureProgram this scene) as [[this1 c0] leave] eqn:He.
  destruct (ensureProgram_calls this this1 scene c0 leave He) as ((p & Hp) & _).
  exists this1, c0, leave.
  destruct leave.
  - exists []. cbn [renderer calls completion frame].
    rewrite app_nil_r.
    repeat split; try reflexivity; try discriminate.
    intros (Hf & _). discriminate Hf.
  - rewrite Hp.
    destruct (bindPhase_frame this1 scene frameCtx p) as (_ & Hde & Hpz & _ & Hd1 & Hc1 & _).
    destruct (bindPhase this1 scene frameCtx p) as [fc1 c1]. simpl in Hde, Hpz, Hd1, Hc1.
    destruct (origin (_state layer)) as [o|].
    + destruct (rtc (camera scene) (model layer) o) as [v e].
      destruct (frameUniformCalls_quiet this1 scene fc1 (model layer) v e renderPass)
        as (_ & Hd3 & _ & Hc3).
      destruct (sectionPlanePhase this1 scene layer) as [c4|] eqn:H4.
      * destruct (sectionPlanePhase_quiet this1 scene layer c4 H4) as (_ & _ & _ & Hc4).
        destruct (bucketCalls_counts this1 p (_state layer)) as (_ & _ & _ & Hc5).
        eexists. cbn [renderer calls completion frame].
        split; [reflexivity | ]. split; [reflexivity | ]. split; [reflexivity | ].
        split; [rewrite !compilations_app, Hc1, Hc3, Hc4, Hc5; reflexivity | ].
        split; [split; discriminate | ].
        split; [discriminate | ].
        split; [intros H; exfalso; apply H; reflexivity | ].
        split; [discriminate | ].
        intros (_ & [Ho | (Hne & Hus)]); [discriminate Ho | ].
        exfalso. unfold sectionPlanePhase in H4. rewrite Hus in H4.
        destruct (sectionPlanes (_sectionPlanesState scene)); [contradiction | ].
        discriminate H4.
      * eexists. cbn [renderer calls completion frame].
        split; [reflexivity | ]. split; [reflexivity | ]. split; [reflexivity | ].
        split; [rewrite !compilations_app, Hc1, Hc3; reflexivity | ].
        split; [split; discriminate | ].
        split; [discriminate | ].
        split.
        { intros _. rewrite !drawCounts_app, Hd1, Hd3.
          split; [reflexivity | split; [exact Hde | exact Hpz] ]. }
        split; [ | intros _; reflexivity ].
        intros _. split; [reflexivity | ]. right.
        unfold sectionPlanePhase in H4.
        destruct (sectionPlanes (_sectionPlanesState scene)) as [|pl pls];
          [discriminate H4 | ].
        split; [discriminate | ].
        cbn [List.length Nat.ltb Nat.leb] in H4.
        destruct (_uSectionPlanes this1); [discriminate H4 | reflexivity].
    + eexists. cbn [renderer calls completion frame].
      split; [reflexivity | ]. split; [reflexivity | ]. split; [reflexivity | ].
      split; [rewrite !compilations_app, Hc1; reflexivity | ].
      split; [split; discriminate | ].
      split; [discriminate | ].
      split.
      { intros _. rewrite !drawCounts_app, Hd1.
        split; [reflexivity | split; [exact Hde | exact Hpz] ]. }
      split; [ | intros _; reflexivity ].
      intros _. split; [reflexivity | left; reflexivity ].
Qed.

Lemma _allocate_keeps (this : Renderer) (scene : Scene T) :
  _hash (fst (_allocate this scene)) = _hash this
  /\ errors (fst (_allocate this scene))
     = match program_errors (Program_new (_buildShader scene)) with
       | Some e => Some e
       | None => errors this
       end.
Proof.
  unfold _allocate.
  destruct (program_errors (Program_new (_buildShader scene))); split; reflexivity.
Qed.

Lemma ensureProgram_keeps_hash (this this1 : Renderer) (scene : Scene T)
    (c0 : list (GLCall T)) (leave : bool) :
  ensureProgram this scene = (this1, c0, leave) -> _hash this1 = _hash this.
Proof.
  unfold ensureProgram. destruct (_program this).
  - intros [= <- _ _]. reflexivity.
  - destruct (_allocate_keeps this scene) as (Hh & _).
    destruct (_allocate this scene) as [this' c]. simpl in Hh.
    intros [= <- _ _]. exact Hh.
Qed.

Lemma ensureProgram_leave (this this1 : Renderer) (scene : Scene T)
    (c0 : list (GLCall T)) (leave : bool) :
  ensureProgram this scene = (this1, c0, leave) ->
  (leave = true <->
   _program this = None
   /\ (program_errors (Program_new (_buildShader scene)) <> None \/ errors this <> None)).
Proof.
  unfold ensureProgram. destruct (_program this) as [p|].
  - intros [= _ _ <-]. split; [discriminate | intros (H & _); discriminate H].
  - destruct (_allocate_keeps this scene) as (_ & He).
    destruct (_allocate this scene) as [this' c]. simpl in He.
    intros [= _ _ <-]. rewrite He.
    destruct (program_errors (Program_new (_buildShader scene))) as [e|].
    + split; [ | reflexivity ].
      intros _. split; [reflexivity | left; discriminate].
    + destruct (errors this) as [e|].
      * split; [ | reflexivity ].
        intros _. split; [reflexivity | right; discriminate].
      * split; [discriminate | ].
        intros (_ & [H | H]); exfalso; apply H; reflexivity.
Qed.

(** X3.  The hash a renderer is judged by is the one its constructor took:
    neither [drawLayer], also when it compiles anew, nor
    [webglContextRestored] nor [destroy] changes what [getValid] answers,
    and a renderer fresh from its constructor is valid for exactly the
    scenes whose hash equals that of the scene it was constructed on,
    whether or not its compilation succeeded. *)
Theorem X3_validity_is_fixed_at_construction (this : Renderer) (scene scene' : Scene T)
    (frameCtx : FrameCtx T) (layer : DataTextureLayer T) (renderPass : Z) :
  getValid (renderer (drawLayer this scene frameCtx layer renderPass)) scene'
  = getValid this scene'
  /\ getValid (webglContextRestored this) scene' = getValid this scene'
  /\ getValid (fst (destroy this)) scene' = getValid this scene'
  /\ getValid (fst (constructor scene)) scene'
     = String.eqb (_getHash scene) (_getHash scene').
Proof.
  split; [ | split; [ | split ] ].
  - destruct (drawLayer_shape this scene frameCtx layer renderPass)
      as (this1 & c0 & leave & rest & He & Hr & _).
    cbv zeta in Hr. unfold getValid.
    rewrite Hr, (ensureProgram_keeps_hash this this1 scene c0 leave He). reflexivity.
  - reflexivity.
  - reflexivity.
  - unfold constructor.
    destruct (_allocate_keeps blank scene) as (Hh & _).
    destruct (_allocate blank scene) as [this' c]. reflexivity.
Qed.

(** X4.  [drawLayer] compiles exactly when the renderer holds no program,
    once, from the source of the scene as it is at that call, and leaves
    that program on the renderer; a renderer that holds a program comes back
    unchanged.  So the call after [webglContextRestored] or [destroy]
    compiles once and the call after that not at all.  [destroy] calls the
    program's own [destroy] exactly when one is held, so a second [destroy],
    or one after [webglContextRestored], calls nothing. *)
Theorem X4_compiles_only_without_program (this : Renderer) (scene : Scene T)
    (frameCtx : FrameCtx T) (layer : DataTextureLayer T) (renderPass : Z) :
  let out := drawLayer this scene frameCtx layer renderPass in
  (forall program, _program this = Some program ->
     compilations (calls out) = 0 /\ renderer out = this)
  /\ (_program this = None ->
      exists rest, calls out = NewProgram (_buildShader scene) :: rest
                   /\ compilations rest = 0
                   /\ _program (renderer out) = Some (Program_new (_buildShader scene)))
  /\ (forall lost, lost = webglContextRestored this \/ lost = fst (destroy this) ->
      let next := drawLayer lost scene frameCtx layer renderPass in
      compilations (calls next) = 1
      /\ forall scene2 frameCtx2 layer2 renderPass2,
           compilations (calls (drawLayer (renderer next) scene2 frameCtx2 layer2 renderPass2))
           = 0)
  /\ (snd (destroy this) = None <-> _program this = None)
  /\ snd (destroy (fst (destroy this))) = None
  /\ snd (destroy (webglContextRestored this)) = None.
Proof.
  assert (Hheld : forall (r : Renderer) sc fc ly rp p, _program r = Some p ->
            compilations (calls (drawLayer r sc fc ly rp)) = 0
            /\ renderer (drawLayer r sc fc ly rp) = r).
  { intros r sc fc ly rp p Hp.
    destruct (drawLayer_shape r sc fc ly rp) as (r1 & c0 & leave & rest & He & Hr & Hc & Hn & _).
    destruct (ensureProgram_calls r r1 sc c0 leave He) as (_ & _ & _ & _ & Hsome & _).
    destruct (Hsome p Hp) as (-> & -> & _).
    cbv zeta in Hr, Hc. rewrite Hc. split; [exact Hn | exact Hr]. }
  assert (Hnone : forall (r : Renderer) sc fc ly rp, _program r = None ->
            exists rest, calls (drawLayer r sc fc ly rp) = NewProgram (_buildShader sc) :: rest
                         /\ compilations rest = 0
                         /\ _program (renderer (drawLayer r sc fc ly rp))
                            = Some (Program_new (_buildShader sc))).
  { intros r sc fc ly rp Hp.
    destruct (drawLayer_shape r sc fc ly rp) as (r1 & c0 & leave & rest & He & Hr & Hc & Hn & _).
    destruct (ensureProgram_calls r r1 sc c0 leave He) as (_ & _ & _ & _ & _ & Hnew).
    cbv zeta in Hr, Hc. exists rest. rewrite Hc, (Hnew Hp), Hr.
    split; [reflexivity | ]. split; [exact Hn | ].
    unfold ensureProgram in He. rewrite Hp in He.
    destruct (_allocate_program r sc) as (Hprog & _).
    destruct (_allocate r sc) as [r' c]. simpl in Hprog.
    injection He as <- _ _. exact Hprog. }
  cbv zeta. split; [ | split; [ | split; [ | split; [ | split ] ] ] ].
  - intros program Hp. exact (Hheld this scene frameCtx layer renderPass program Hp).
  - intros Hp. exact (Hnone this scene frameCtx layer renderPass Hp).
  - intros lost Hlost.
    assert (Hp : _program lost = None) by (destruct Hlost as [-> | ->]; reflexivity).
    destruct (Hnone lost scene frameCtx layer renderPass Hp) as (rest & Hc & Hn & Hprog).
    split.
    + rewrite Hc. unfold compilations in *. cbn [filter List.length]. rewrite Hn. reflexivity.
    + intros scene2 frameCtx2 layer2 renderPass2.
      exact (proj1 (Hheld _ scene2 frameCtx2 layer2 renderPass2 _ Hprog)).
  - unfold destroy. cbn [snd]. destruct (_program this); split; congruence.
  - reflexivity.
  - reflexivity.
Qed.

(** X5.  The error set is never cleared.  A renderer that holds no program
    but still carries the error set of an earlier failure leaves the call
    that compiles anew at once, also when that compilation succeeds: the
    call makes the one compile call and nothing else, and leaves the frame
    context as it was.  The program stays on the renderer, so no later call
    is stopped. *)
Theorem X5_old_errors_stop_the_recompiling_call (this : Renderer) (scene : Scene T)
    (frameCtx : FrameCtx T) (layer : DataTextureLayer T) (renderPass : Z)
    (e : list string) :
  _program this = None ->
  errors this = Some e ->
  let out := drawLayer this scene frameCtx layer renderPass in
  completion out = Skipped
  /\ calls out = [NewProgram (_buildShader scene)]
  /\ frame out = frameCtx
  /\ _program (renderer out) = Some (Program_new (_buildShader scene))
  /\ forall scene2 frameCtx2 layer2 renderPass2,
       completion (drawLayer (renderer out) scene2 frameCtx2 layer2 renderPass2) <> Skipped.
Proof.
  intros Hp Herr out. subst out.
  destruct (drawLayer_shape this scene frameCtx layer renderPass)
    as (this1 & c0 & leave & rest & He & Hr & Hc & _ & Hskip & Hleave & _).
  cbv zeta in Hr, Hc, Hskip, Hleave.
  destruct (ensureProgram_calls this this1 scene c0 leave He) as (_ & _ & _ & _ & _ & Hnew).
  assert (Hl : leave = true).
  { apply (ensureProgram_leave this this1 scene c0 leave He).
    split; [exact Hp | right; rewrite Herr; discriminate]. }
  destruct (Hleave Hl) as (Hrest & Hf).
  assert (Hprog : _program this1 = Some (Program_new (_buildShader scene))).
  { unfold ensureProgram in He. rewrite Hp in He.
    destruct (_allocate_program this scene) as (Hprog & _).
    destruct (_allocate this scene) as [r' c]. simpl in Hprog.
    injection He as <- _ _. exact Hprog. }
  split; [apply Hskip; exact Hl | ].
  split; [rewrite Hc, Hrest, (Hnew Hp); reflexivity | ].
  split; [exact Hf | ].
  rewrite Hr. split; [exact Hprog | ].
  intros scene2 frameCtx2 layer2 renderPass2.
  exact (proj1 (errors_not_consulted this1 scene2 frameCtx2 layer2 renderPass2 _ Hprog)).
Qed.

(** X6.  How a call ends, read off its inputs.  It is skipped exactly when
    the renderer holds no program and either the compilation fails or an
    error set is already there.  It raises exactly when it is not skipped
    and the layer has no origin, or the scene has section planes and the
    renderer has no table of their uniforms.  A call that does not run to
    completion draws nothing and leaves [drawElements] and [pickZFar] as
    they were. *)
Theorem X6_how_a_call_ends (this : Renderer) (scene : Scene T)
    (frameCtx : FrameCtx T) (layer : DataTextureLayer T) (renderPass : Z) :
  let out := drawLayer this scene frameCtx layer renderPass in
  let skipped :=
    _program this = None
    /\ (program_errors (Program_new (_buildShader scene)) <> None \/ errors this <> None) in
  (completion out = Skipped <-> skipped)
  /\ (completion out = Threw <->
      ~ skipped
      /\ (origin (_state layer) = None
          \/ (sectionPlanes (_sectionPlanesState scene) <> []
              /\ _uSectionPlanes (renderer out) = None)))
  /\ (completion out <> Completed ->
      drawCounts (calls out) = []
      /\ drawElements (frame out) = drawElements frameCtx
      /\ pickZFar (frame out) = pickZFar frameCtx).
Proof.
  cbv zeta.
  destruct (drawLayer_shape this scene frameCtx layer renderPass)
    as (this1 & c0 & leave & rest & He & Hr & Hc & _ & Hskip & _ & Hinc & Hthrew).
  cbv zeta in Hr, Hc, Hskip, Hinc, Hthrew.
  pose proof (ensureProgram_leave this this1 scene c0 leave He) as Hleave.
  destruct (ensureProgram_calls this this1 scene c0 leave He) as (_ & _ & Hd0 & _).
  split; [ | split ].
  - rewrite Hskip. exact Hleave.
  - rewrite Hthrew, Hr, <- Hleave.
    destruct leave; split.
    + intros (H & _). discriminate H.
    + intros (H & _). exfalso. apply H. reflexivity.
    + intros (_ & H). split; [discriminate | exact H].
    + intros (_ & H). split; [reflexivity | exact H].
  - intros Hn. destruct (Hinc Hn) as (Hd & Hde & Hpz).
    rewrite Hc, drawCounts_app, Hd0, Hd.
    split; [reflexivity | split; [exact Hde | exact Hpz] ].
Qed.

End LifeCycle.

Lemma X5_witness :
  let scene := sceneWith [] false false true in
  let this := webglContextRestored (fst (constructor (imports := failingImports) scene)) in
  let out := drawLayer (imports := workingImports) this scene frameFixture
               (layerWith (Some zero3) zero3 [] 300 0 90) 1 in
  program_errors (Program_new (Imports := workingImports) (_buildShader scene)) = None
  /\ completion out = Skipped
  /\ calls out = [NewProgram (_buildShader scene)]
  /\ frame out = frameFixture.
Proof.
  intros scene this out.
  destruct (X5_old_errors_stop_the_recompiling_call (imports := workingImports)
              this scene frameFixture (layerWith (Some zero3) zero3 [] 300 0 90) 1
              ["ERROR: 0:1: syntax error"] eq_refl eq_refl)
    as (Hs & Hc & Hf & _).
  split; [reflexivity | ].
  split; [exact Hs | ]. split; [exact Hc | exact Hf].
Defined.

(** ** The values in effect at the draw *)

Section LastUploadProperties.
Context {T : Type} {scalar : Scalar T} {imports : Imports T}.





End LastUploadProperties.


(** ** The texel encoding as the vertex stage reads it *)

Section DecodeProperties.
Import VertexStage.
Context {T : Type} {scalar : Scalar T} {builtins : Builtins T}.

Lemma group_of_vertex (gl_VertexID : Z) :
  (0 <= gl_VertexID)%Z ->
  Z.shiftr (Z.quot gl_VertexID 3) 3 = (gl_VertexID / 24)%Z.
Proof.
  intros H.
  rewrite Z.quot_div_nonneg by lia.
  rewrite Z.shiftr_div_pow2 by lia.
  change (2 ^ 3)%Z with 8%Z.
  rewrite Z.div_div by lia. reflexivity.
Qed.

(** X8.  The portion-id texture is read once for every eight polygons: the
    object of a vertex is the texel at column [g mod 4096] and row
    [g / 4096] for [g = gl_VertexID / 24], and its row in the per-object
    textures is [(objectIndex % 512, objectIndex / 512)], from which
    [objectIndex] is recovered as [512 * row + column].  Two vertices with
    the same [g] therefore belong to the same object and leave [main] the
    same way. *)
Theorem X8_object_of_a_vertex (logDepth clipping : bool) (u : Uniforms T)
    (t : Textures T) (gl_VertexID gl_VertexID' : Z) :
  (0 <= gl_VertexID)%Z ->
  (0 <= gl_VertexID')%Z ->
  let g := (gl_VertexID / 24)%Z in
  let objectIndex := int32 (v4x (uTexturePerPolygonIdPortionIds t (g mod 4096, g / 4096)))%Z in
  objectIndexCoords t gl_VertexID = (Z.rem objectIndex 512, Z.quot objectIndex 512)
  /\ (512 * snd (objectIndexCoords t gl_VertexID) + fst (objectIndexCoords t gl_VertexID))%Z
     = objectIndex
  /\ ((gl_VertexID' / 24 = g)%Z ->
      objectIndexCoords t gl_VertexID' = objectIndexCoords t gl_VertexID
      /\ fst (main logDepth clipping u t gl_VertexID')
         = fst (main logDepth clipping u t gl_VertexID)).
Proof.
  intros H H' g objectIndex.
  assert (Hoic : forall v, (0 <= v)%Z ->
            objectIndexCoords t v
            = (Z.rem (int32 (v4x (uTexturePerPolygonIdPortionIds t
                                    ((v / 24) mod 4096, v / 24 / 4096))%Z)) 512,
               Z.quot (int32 (v4x (uTexturePerPolygonIdPortionIds t
                                     ((v / 24) mod 4096, v / 24 / 4096))%Z)) 512)).
  { intros v Hv. unfold objectIndexCoords. cbv zeta.
    rewrite (group_of_vertex v Hv).
    change 4095%Z with (Z.ones 12).
    rewrite Z.land_ones by lia.
    rewrite Z.shiftr_div_pow2 by lia.
    reflexivity. }
  split; [ | split ].
  - exact (Hoic gl_VertexID H).
  - rewrite (Hoic gl_VertexID H). cbn [fst snd]. fold g. fold objectIndex.
    symmetry. apply Z.quot_rem'.
  - intros Hg.
    assert (Hsame : objectIndexCoords t gl_VertexID' = objectIndexCoords t gl_VertexID).
    { rewrite (Hoic gl_VertexID' H'), (Hoic gl_VertexID H), Hg. reflexivity. }
    split; [exact Hsame | ].
    unfold main. cbv zeta. rewrite Hsame.
    destruct (negb _); [reflexivity | ].
    destruct (_ =? 0)%Z; reflexivity.
Qed.

Lemma int32_high (z : Z) : (2 ^ 31 <= z < 2 ^ 32)%Z -> int32 z = (z - 2 ^ 32)%Z.
Proof.
  intros Hz. unfold int32.
  rewrite <- (Z.mod_unique (z + 2 ^ 31) (2 ^ 32) 1 (z + 2 ^ 31 - 2 ^ 32)); lia.
Qed.

(** X9.  A base stored in a texel is read as four bytes, most significant
    first: for bytes [r], [g], [b], [a] the value is
    [r * 2^24 + g * 2^16 + b * 2^8 + a] when [r < 128], and that number less
    [2^32], so negative, when [r >= 128]. *)
Theorem X9_base_is_big_endian (r g b a : Z) :
  (0 <= r < 256)%Z -> (0 <= g < 256)%Z -> (0 <= b < 256)%Z -> (0 <= a < 256)%Z ->
  let value := (r * 2 ^ 24 + g * 2 ^ 16 + b * 2 ^ 8 + a)%Z in
  unpack (ivec4 (mkVec4 r g b a))
  = if (r <? 128)%Z then value else (value - 2 ^ 32)%Z.
Proof.
  intros Hr Hg Hb Ha value. subst value.
  unfold unpack, ivec4. cbn [v4x v4y v4z v4w].
  rewrite (int32_small r), (int32_small g), (int32_small b), (int32_small a) by lia.
  rewrite !Z.shiftl_mul_pow2 by lia.
  rewrite (int32_small (g * 2 ^ 16)), (int32_small (b * 2 ^ 8)) by lia.
  destruct (Z.ltb_spec r 128) as [Hlow | Hhigh].
  - rewrite (int32_small (r * 2 ^ 24)) by lia.
    rewrite (int32_small (r * 2 ^ 24 + g * 2 ^ 16)) by lia.
    rewrite (int32_small (r * 2 ^ 24 + g * 2 ^ 16 + b * 2 ^ 8)) by lia.
    apply int32_small. lia.
  - rewrite (int32_high (r * 2 ^ 24)) by lia.
    rewrite (int32_small (r * 2 ^ 24 - 2 ^ 32 + g * 2 ^ 16)) by lia.
    rewrite (int32_small (r * 2 ^ 24 - 2 ^ 32 + g * 2 ^ 16 + b * 2 ^ 8)) by lia.
    rewrite int32_small by lia. lia.
Qed.

End DecodeProperties.

Lemma X8_witness :
  VertexStage.objectIndexCoords (texturesWith 1 255) 47 = (0, 0)%Z
  /\ fst (VertexStage.main false false (uniformsWith 1) (texturesWith 1 255) 47)
     = fst (VertexStage.main false false (uniformsWith 1) (texturesWith 1 255) 25).
Proof.
  destruct (X8_object_of_a_vertex false false (uniformsWith 1) (texturesWith 1 255)
              25 47 ltac:(lia) ltac:(lia)) as (Hoic & _ & Hsame).
  destruct (Hsame eq_refl) as (Hc & He).
  split; [ | exact He ].
  rewrite Hc. exact Hoic.
Defined.

Lemma X9_witness :
  VertexStage.unpack (VertexStage.ivec4 (mkVec4 1 2 3 4)%Z) = 16909060%Z
  /\ VertexStage.unpack (VertexStage.ivec4 (mkVec4 255 255 255 255)%Z) = (-1)%Z.
Proof.
  split.
  - exact (X9_base_is_big_endian 1 2 3 4 ltac:(lia) ltac:(lia) ltac:(lia) ltac:(lia)).
  - exact (X9_base_is_big_endian 255 255 255 255
             ltac:(lia) ltac:(lia) ltac:(lia) ltac:(lia)).
Defined.

(** ** Entity offsets, and the occlusion shader source *)

Lemma planeDeclarations_own (i j : nat) (l : string) :
  In l (planeDeclarations i) ->
  declares l (planeDeclarations j) = (i =? j)%nat
  /\ declares l (planeTests j) = false.
Proof.
  intros Hl. unfold planeDeclarations in Hl. cbn [In] in Hl.
  destruct Hl as [<- | [<- | [<- | []]]];
    unfold planeDeclarations, planeTests, declares; cbn [existsb].
  - rewrite (plane_line_eqb "uniform bool sectionPlaneActive").
    split; [ | reflexivity ].
    replace (String.eqb ("uniform bool sectionPlaneActive" ++ string_of_nat i ++ ";")
                        ("uniform vec3 sectionPlanePos" ++ string_of_nat j ++ ";"))
      with false by reflexivity.
    replace (String.eqb ("uniform bool sectionPlaneActive" ++ string_of_nat i ++ ";")
                        ("uniform vec3 sectionPlaneDir" ++ string_of_nat j ++ ";"))
      with false by reflexivity.
    rewrite !orb_false_r. reflexivity.
  - rewrite (plane_line_eqb "uniform vec3 sectionPlanePos").
    split; [ | reflexivity ].
    replace (String.eqb ("uniform vec3 sectionPlanePos" ++ string_of_nat i ++ ";")
                        ("uniform bool sectionPlaneActive" ++ string_of_nat j ++ ";"))
      with false by reflexivity.
    replace (String.eqb ("uniform vec3 sectionPlanePos" ++ string_of_nat i ++ ";")
                        ("uniform vec3 sectionPlaneDir" ++ string_of_nat j ++ ";"))
      with false by reflexivity.
    rewrite !orb_false_r. reflexivity.
  - rewrite (plane_line_eqb "uniform vec3 sectionPlaneDir").
    split; [ | reflexivity ].
    replace (String.eqb ("uniform vec3 sectionPlaneDir" ++ string_of_nat i ++ ";")
                        ("uniform bool sectionPlaneActive" ++ string_of_nat j ++ ";"))
      with false by reflexivity.
    replace (String.eqb ("uniform vec3 sectionPlaneDir" ++ string_of_nat i ++ ";")
                        ("uniform vec3 sectionPlanePos" ++ string_of_nat j ++ ";"))
      with false by reflexivity.
    rewrite !orb_false_r. reflexivity.
Qed.

Lemma occlusion_fragment_planes {T : Type} (scene : Scene T) (i : nat) (l : string) :
  In l (planeDeclarations i) ->
  declares l (InstancingOcclusionShaderSource.buildFragment scene)
  = (i <? List.length (sectionPlanes (_sectionPlanesState scene)))%nat.
Proof.
  intros Hk.
  assert (Hown : forall j, declares l (planeDeclarations j) = (i =? j)%nat)
    by (intros j; exact (proj1 (planeDeclarations_own i j l Hk))).
  assert (Htest : forall from count, declares l (for_push from count planeTests) = false).
  { intros from count. apply declares_for_push_none. intros j.
    exact (proj2 (planeDeclarations_own i j l Hk)). }
  unfold InstancingOcclusionShaderSource.buildFragment. cbv zeta.
  fold planeDeclarations. fold planeTests.
  set (n := List.length (sectionPlanes (_sectionPlanesState scene))).
  rewrite !declares_app.
  destruct (Nat.ltb_spec 0 n) as [Hpos | Hzero].
  - rewrite !declares_app.
    rewrite (declares_for_push_one l planeDeclarations i n 0 Hown), Htest.
    cbn [Nat.leb andb Nat.add].
    unfold planeDeclarations in Hk. cbn [In] in Hk.
    destruct Hk as [<- | [<- | [<- | []]]];
      destruct (logarithmicDepthBufferEnabled scene
                && logarithmicDepthBufferSupported (viewer scene)),
               (i <? n)%nat; reflexivity.
  - assert (Hi : (i <? n)%nat = false) by (apply Nat.ltb_ge; lia).
    rewrite Hi.
    unfold planeDeclarations in Hk. cbn [In] in Hk.
    destruct Hk as [<- | [<- | [<- | []]]];
      destruct (logarithmicDepthBufferEnabled scene
                && logarithmicDepthBufferSupported (viewer scene)); reflexivity.
Qed.

Lemma occlusion_logDepth_vertex {T : Type} (scene : Scene T) (l : string) :
  In l occlusionLogDepthVertexLines ->
  declares l (InstancingOcclusionShaderSource.buildVertex scene)
  = logarithmicDepthBufferEnabled scene && logarithmicDepthBufferSupported (viewer scene).
Proof.
  intros Hl. unfold InstancingOcclusionShaderSource.buildVertex. cbv zeta.
  destruct (logarithmicDepthBufferEnabled scene),
           (logarithmicDepthBufferSupported (viewer scene)),
           (entityOffsetsEnabled scene),
           (sectionPlanes (_sectionPlanesState scene)) as [|p ps];
    simpl in Hl;
    repeat (destruct Hl as [<- | Hl]; [reflexivity | ]);
    contradiction.
Qed.

Lemma occlusion_logDepth_fragment {T : Type} (scene : Scene T) (l : string) :
  In l occlusionLogDepthFragmentLines ->
  declares l (InstancingOcclusionShaderSource.buildFragment scene)
  = logarithmicDepthBufferEnabled scene && logarithmicDepthBufferSupported (viewer scene).
Proof.
  intros Hl. unfold InstancingOcclusionShaderSource.buildFragment. cbv zeta.
  fold planeDeclarations. fold planeTests.
  rewrite !declares_app.
  assert (Hdecl : forall n from, declares l (for_push from n planeDeclarations) = false).
  { intros n from. apply declares_for_push_none. intros i.
    simpl in Hl.
    repeat (destruct Hl as [<- | Hl]; [reflexivity | ]); contradiction. }
  assert (Htest : forall n from, declares l (for_push from n planeTests) = false).
  { intros n from. apply declares_for_push_none. intros i.
    simpl in Hl.
    repeat (destruct Hl as [<- | Hl]; [reflexivity | ]); contradiction. }
  destruct (0 <? List.length (sectionPlanes (_sectionPlanesState scene)))%nat;
    rewrite ?declares_app, ?Hdecl, ?Htest;
    destruct (logarithmicDepthBufferEnabled scene),
             (logarithmicDepthBufferSupported (viewer scene));
    simpl in Hl;
    repeat (destruct Hl as [<- | Hl]; [reflexivity | ]);
    contradiction.
Qed.

(** X10.  Entity offsets reach the two shaders differently.  In the
    data-texture shader enabling them adds the one line [in vec3 offset;] to
    the vertex source and changes nothing else in either source, so the
    offset is declared and never added to a position; the occlusion vertex
    source declares its offset attribute and adds it to the world position,
    both exactly when offsets are enabled. *)
Theorem X10_entity_offsets_declared_not_applied {T : Type} (scene : Scene T) :
  filter (fun l => negb (String.eqb l "in vec3 offset;")) (vertex (_buildShader scene))
  = vertex (_buildShader (withoutEntityOffsets scene))
  /\ fragment (_buildShader scene) = fragment (_buildShader (withoutEntityOffsets scene))
  /\ declares "attribute vec3 offset;"
       (vertex (InstancingOcclusionShaderSource.create scene))
     = entityOffsetsEnabled scene
  /\ declares "      worldPosition.xyz = worldPosition.xyz + offset;"
       (vertex (InstancingOcclusionShaderSource.create scene))
     = entityOffsetsEnabled scene.
Proof.
  split; [ | split; [ | split ] ].
  - unfold _buildShader, withoutEntityOffsets, _buildVertexShader. cbv zeta.
    cbn [vertex _sectionPlanesState logarithmicDepthBufferEnabled entityOffsetsEnabled].
    destruct (logarithmicDepthBufferEnabled scene),
             (entityOffsetsEnabled scene),
             (sectionPlanes (_sectionPlanesState scene)) as [|p ps];
      reflexivity.
  - reflexivity.
  - unfold InstancingOcclusionShaderSource.create,
           InstancingOcclusionShaderSource.buildVertex. cbv zeta. cbn [vertex].
    destruct (logarithmicDepthBufferEnabled scene),
             (logarithmicDepthBufferSupported (viewer scene)),
             (entityOffsetsEnabled scene),
             (sectionPlanes (_sectionPlanesState scene)) as [|p ps];
      reflexivity.
  - unfold InstancingOcclusionShaderSource.create,
           InstancingOcclusionShaderSource.buildVertex. cbv zeta. cbn [vertex].
    destruct (logarithmicDepthBufferEnabled scene),
             (logarithmicDepthBufferSupported (viewer scene)),
             (entityOffsetsEnabled scene),
             (sectionPlanes (_sectionPlanesState scene)) as [|p ps];
      reflexivity.
Qed.

(** X11.  The occlusion shader source asks for the fragment-depth extension,
    declares the depth constant and the depth varying, assigns the varying
    and writes [gl_FragDepthEXT] exactly when logarithmic depth is enabled
    and the viewer reports it supported; with either switched off both
    sources hold none of these lines. *)
Theorem X11_occlusion_log_depth_needs_support {T : Type} (scene : Scene T) :
  let on := logarithmicDepthBufferEnabled scene
            && logarithmicDepthBufferSupported (viewer scene) in
  (forall l, In l occlusionLogDepthVertexLines ->
     declares l (vertex (InstancingOcclusionShaderSource.create scene)) = on)
  /\ (forall l, In l occlusionLogDepthFragmentLines ->
     declares l (fragment (InstancingOcclusionShaderSource.create scene)) = on).
Proof.
  cbv zeta. split.
  - intros l Hl. apply occlusion_logDepth_vertex. exact Hl.
  - intros l Hl. apply occlusion_logDepth_fragment. exact Hl.
Qed.

(** X12.  The occlusion fragment source declares the active, position and
    direction uniforms of section plane [i] exactly when the scene has more
    than [i] planes, under the same names and types as the data-texture
    fragment source does, so the two sources declare the same section-plane
    uniforms for every scene. *)
Theorem X12_occlusion_declares_the_same_planes {T : Type} (scene : Scene T) (i : nat) :
  forall l, In l (planeDeclarations i) ->
    declares l (fragment (InstancingOcclusionShaderSource.create scene))
    = (i <? List.length (sectionPlanes (_sectionPlanesState scene)))%nat
    /\ declares l (fragment (_buildShader scene))
       = declares l (fragment (InstancingOcclusionShaderSource.create scene)).
Proof.
  intros l Hl.
  pose proof (occlusion_fragment_planes scene i l Hl) as Hocc.
  cbn [fragment InstancingOcclusionShaderSource.create _buildShader].
  split; [exact Hocc | ].
  rewrite Hocc.
  destruct (fragment_declares_plane scene i) as (Ha & Hp & Hd). cbv zeta in Ha, Hp, Hd.
  unfold planeDeclarations in Hl. cbn [In] in Hl.
  destruct Hl as [<- | [<- | [<- | []]]]; [exact Ha | exact Hp | exact Hd].
Qed.

Lemma X12_witness :
  let scene := sceneWith [planeFixture; planeFixture] false false true in
  let l := "uniform vec3 sectionPlanePos1;" in
  declares l (fragment (InstancingOcclusionShaderSource.create scene)) = true
  /\ declares l (fragment (_buildShader scene)) = true.
Proof.
  intros scene l.
  assert (Hl : In l (planeDeclarations 1)) by (right; left; reflexivity).
  destruct (X12_occlusion_declares_the_same_planes scene 1 l Hl) as (H1 & H2).
  split; [exact H1 | rewrite H2; exact H1].
Defined.

(** ** Properties of the fast-navigation plugin *)

Section FastNavProperties.
Import FastNavPlugin.
Context {T : Type} {scalar : Scalar T} {browser : Browser T}.

Lemma shown_hidden (s : State T) (interval : option positive) (img : Img T) (o : T) :
  shown (with_fade s interval (Some (with_style img "hidden" o))) = false.
Proof. reflexivity. Qed.

Lemma _cancelFade_consistent (s : State T) :
  consistent s ->
  consistent (_cancelFade s)
  /\ _pInterval (_cancelFade s) = None
  /\ shown (_cancelFade s) = false.
Proof.
  intros Hc. pose proof Hc as (Hfast & Hint & Himg & Hr). unfold _cancelFade.
  destruct (_img s) as [img|] eqn:Hi.
  - split; [ | split; reflexivity ].
    unfold consistent. cbn.
    split; [intros Hf; destruct (Hfast Hf) as (H1 & H2 & H3 & _); repeat split; assumption | ].
    split; [split; [intros H; exfalso; apply H; reflexivity | discriminate] | ].
    split; [exact Himg | exact Hr].
  - assert (Hs : shown s = false) by (unfold shown; rewrite Hi; reflexivity).
    assert (Hp : _pInterval s = None).
    { destruct (_pInterval s) eqn:Hp; [ | reflexivity ].
      assert (Hne : Some p <> None) by discriminate.
      apply Hint in Hne. congruence. }
    split; [exact Hc | split; assumption ].
Qed.

Lemma _startFade_shown (s : State T) :
  let s' := _startFade s in
  _pInterval s' = Some setInterval
  /\ shown s' = true
  /\ (exists img, _img s' = Some img /\ opacity img = lit 1
                  /\ src img = Some getSnapshot)
  /\ imagesInBody s'
     = match _img s with Some _ => imagesInBody s | None => S (imagesInBody s) end
  /\ fastMode s' = fastMode s /\ timer s' = timer s
  /\ subscribed s' = subscribed s /\ superDestroyed s' = superDestroyed s
  /\ raised s' = raised s.
Proof.
  unfold _startFade. destruct (_img s) as [img|] eqn:Hi; cbn.
  - rewrite Hi. cbn. repeat split. eexists. repeat split.
  - repeat split. eexists. repeat split.
Qed.

Lemma step_consistent (s : State T) (e : Event T) :
  consistent s -> consistent (step s e).
Proof.
  intros Hc. pose proof Hc as (Hfast & Hint & Himg & Hr).
  destruct e as [ | deltaTime | | name | ]; cbn [step].
  - (* the camera moved *)
    destruct (subscribed s); [ | exact Hc ].
    unfold onCameraMatrix. destruct (fastMode s) eqn:Hf.
    + unfold consistent. cbn. rewrite Hf. repeat split; try apply Hfast; try apply Hint;
        try assumption; reflexivity.
    + assert (Hc' : consistent (with_timer s timeoutDuration)) by exact Hc.
      destruct (_cancelFade_consistent _ Hc') as ((_ & Hint' & Himg' & Hr') & Hp' & Hs').
      unfold consistent.
      change (_pInterval (with_mode ?x _ _ _)) with (_pInterval x).
      change (shown (with_mode ?x _ _ _)) with (shown x).
      change (imagesInBody (with_mode ?x _ _ _)) with (imagesInBody x).
      change (_img (with_mode ?x _ _ _)) with (_img x).
      change (raised (with_mode ?x _ _ _)) with (raised x).
      change (superDestroyed (with_mode ?x _ _ _)) with (superDestroyed x).
      split; [intros _; cbn; repeat split; exact Hp' | ].
      split; [exact Hint' | split; [exact Himg' | exact Hr'] ].
  - (* a tick *)
    destruct (subscribed s); [ | exact Hc ].
    unfold onSceneTick. destruct (fastMode s) eqn:Hf; cbn [negb]; [ | exact Hc ].
    destruct (leb (sub (timer s) deltaTime) (lit 0)).
    + destruct (_startFade_shown (with_timer s (sub (timer s) deltaTime)))
        as (Hp' & Hs' & _ & Hn' & _ & _ & _ & Hsd' & Hr').
      cbv zeta in Hp', Hs', Hn', Hsd', Hr'.
      unfold consistent.
      change (_pInterval (with_mode ?x _ _ _)) with (_pInterval x).
      change (shown (with_mode ?x _ _ _)) with (shown x).
      change (imagesInBody (with_mode ?x _ _ _)) with (imagesInBody x).
      change (_img (with_mode ?x _ _ _)) with (_img x).
      change (raised (with_mode ?x _ _ _)) with (raised x).
      change (superDestroyed (with_mode ?x _ _ _)) with (superDestroyed x).
      split; [cbn; discriminate | ].
      split; [rewrite Hp', Hs'; split; [reflexivity | discriminate] | ].
      split.
      * rewrite Hn'. change (_img (with_timer s _)) with (_img s).
        change (imagesInBody (with_timer s _)) with (imagesInBody s).
        unfold shown in Hs'.
        destruct (_img (_startFade (with_timer s (sub (timer s) deltaTime))));
          [ | discriminate Hs' ].
        rewrite Himg. destruct (_img s); reflexivity.
      * rewrite Hr', Hsd'. exact Hr.
    + unfold consistent. cbn. rewrite Hf.
      repeat split; try apply Hfast; try apply Hint; try assumption; reflexivity.
  - (* the interval fires *)
    destruct (_pInterval s) as [h|] eqn:Hp; [ | exact Hc ].
    assert (Hs : shown s = true) by (apply Hint; discriminate).
    unfold intervalCallback. cbn [_img].
    unfold shown in Hs. destruct (_img s) as [img|] eqn:Hi; [ | discriminate Hs ].
    assert (Hf : fastMode s = false).
    { destruct (fastMode s) eqn:Hf; [ | reflexivity ].
      destruct (Hfast eq_refl) as (_ & _ & _ & Hn). congruence. }
    destruct (ltb (lit 0) (sub (fadeOpacity s) (fadeInc s))).
    + unfold consistent, shown. cbn. rewrite Hf, Hp.
      split; [discriminate | ].
      split; [split; [intros _; exact Hs | discriminate] | ].
      split; [rewrite Himg; reflexivity | exact Hr].
    + unfold consistent, shown. cbn. rewrite Hf.
      split; [discriminate | ].
      split; [split; [intros H; exfalso; apply H; reflexivity | discriminate] | ].
      split; [rewrite Himg; reflexivity | exact Hr].
  - (* send *)
    unfold send. destruct (String.eqb name "clear"); [ | exact Hc ].
    exact (proj1 (_cancelFade_consistent s Hc)).
  - (* destroy *)
    destruct (_cancelFade_consistent s Hc) as ((Hfast' & Hint' & Himg' & Hr') & Hp' & Hs').
    unfold destroy. cbv zeta. cbn [_img].
    destruct (_img (_cancelFade s)) as [img|] eqn:Hi.
    + unfold consistent, shown. cbn -[_cancelFade]. rewrite Hp'.
      split; [intros Hf; destruct (Hfast' Hf) as (H1 & H2 & H3 & _); repeat split; assumption | ].
      split; [split; [intros H; exfalso; apply H; reflexivity | discriminate] | ].
      split; [rewrite Himg'; reflexivity | intros _; reflexivity].
    + unfold consistent, shown, with_raised. cbn -[_cancelFade]. rewrite Hp'.
      split; [intros Hf; destruct (Hfast' Hf) as (H1 & H2 & H3 & _); repeat split; assumption | ].
      split; [split; [intros H; exfalso; apply H; reflexivity | discriminate] | ].
      split; [exact Himg' | intros _; reflexivity].
Qed.

Lemma run_consistent (events : list (Event T)) (s : State T) :
  consistent s -> consistent (run s events).
Proof.
  unfold run. revert s. induction events as [|e events IH]; intros s Hc; simpl.
  - exact Hc.
  - apply IH. apply step_consistent. exact Hc.
Qed.

Lemma constructor_consistent (pbr sao edgesOn : bool) (c : Canvas) :
  consistent (constructor pbr sao edgesOn c).
Proof.
  unfold consistent, shown. cbn.
  split; [discriminate | ].
  split; [split; [intros H; exfalso; apply H; reflexivity | discriminate] | ].
  split; [reflexivity | discriminate].
Qed.

(** X13.  Whatever sequence of camera events, ticks, interval firings,
    [send] calls and [destroy] calls a plugin goes through after its
    constructor: while it is in fast mode the scene's three switches are off,
    no fade interval is set and the image is not shown; the fade interval is
    set exactly while the image is shown; the document body holds one image
    of the plugin while [_img] is set and none otherwise; and nothing but
    [destroy] has raised. *)
Theorem X13_plugin_keeps_its_state_consistent (pbr sao edgesOn : bool) (c : Canvas)
    (events : list (Event T)) :
  let s := run (constructor pbr sao edgesOn c) events in
  (fastMode s = true ->
   pbrEnabled s = false /\ saoEnabled s = false /\ edges s = false
   /\ _pInterval s = None /\ shown s = false)
  /\ (_pInterval s <> None <-> shown s = true)
  /\ imagesInBody s = match _img s with Some _ => 1 | None => 0 end
  /\ (raised s = true -> superDestroyed s = true).
Proof.
  intros s.
  destruct (run_consistent events _ (constructor_consistent pbr sao edgesOn c))
    as (Hfast & Hint & Himg & Hr).
  fold s in Hfast, Hint, Himg, Hr.
  split; [ | split; [exact Hint | split; [exact Himg | exact Hr] ] ].
  intros Hf. destruct (Hfast Hf) as (H1 & H2 & H3 & H4).
  repeat split; try assumption.
  apply not_true_is_false. intros Hs. apply Hint in Hs. exact (Hs H4).
Qed.

(** X14.  Leaving fast mode switches the three effects on, whatever they
    were before the camera moved.  From a fresh plugin, a camera event
    switches all three off and enters fast mode without creating an image;
    a tick that then uses up the 600 milliseconds leaves fast mode with all
    three switched on, the image created, shown at opacity 1 with a fresh
    snapshot, above the canvas, and the fade interval set. *)
Theorem X14_leaving_fast_mode_switches_everything_on (pbr sao edgesOn : bool)
    (c : Canvas) (deltaTime : T) :
  leb (sub timeoutDuration deltaTime) (lit 0) = true ->
  let moving := run (constructor pbr sao edgesOn c) [CameraMatrix] in
  let still := run (constructor pbr sao edgesOn c) [CameraMatrix; Tick deltaTime] in
  (fastMode moving = true
   /\ pbrEnabled moving = false /\ saoEnabled moving = false /\ edges moving = false
   /\ _img moving = None)
  /\ (fastMode still = false
      /\ pbrEnabled still = true /\ saoEnabled still = true /\ edges still = true
      /\ _pInterval still = Some setInterval
      /\ exists img,
           _img still = Some img
           /\ visibility img = "visible" /\ opacity img = lit 1
           /\ src img = Some getSnapshot
           /\ zIndex img = zIndexAbove c).
Proof.
  intros Hd moving still. subst moving still.
  split.
  - repeat split.
  - unfold run. cbn [fold_left step constructor subscribed].
    unfold onCameraMatrix. cbn [fastMode constructor].
    unfold onSceneTick. cbn. fold timeoutDuration.
    rewrite Hd. cbn.
    repeat split. eexists. repeat split.
Qed.

Lemma step_unsubscribed (s : State T) (e : Event T) :
  subscribed s = false ->
  subscribed (step s e) = false
  /\ pbrEnabled (step s e) = pbrEnabled s
  /\ saoEnabled (step s e) = saoEnabled s
  /\ edges (step s e) = edges s
  /\ fastMode (step s e) = fastMode s.
Proof.
  intros Hs. destruct e as [ | deltaTime | | name | ]; cbn [step].
  - rewrite Hs. repeat split; solve [exact Hs | reflexivity].
  - rewrite Hs. repeat split; solve [exact Hs | reflexivity].
  - destruct (_pInterval s); [ | repeat split; solve [exact Hs | reflexivity] ].
    unfold intervalCallback. cbn [_img].
    destruct (_img s); [ | repeat split; solve [exact Hs | reflexivity] ].
    destruct (ltb _ _); repeat split; solve [exact Hs | reflexivity].
  - unfold send. destruct (String.eqb name "clear"); [ | repeat split; solve [exact Hs | reflexivity] ].
    unfold _cancelFade. destruct (_img s); repeat split; solve [exact Hs | reflexivity].
  - unfold destroy, _cancelFade.
    destruct (_img s) eqn:Hi; cbn; rewrite ?Hi; cbn;
      repeat split; solve [exact Hs | reflexivity].
Qed.

Lemma destroy_fields (s : State T) :
  _img (destroy s) = None
  /\ raised (destroy s)
     = (raised s || match _img s with Some _ => false | None => true end)
  /\ subscribed (destroy s) = false
  /\ pbrEnabled (destroy s) = pbrEnabled s
  /\ saoEnabled (destroy s) = saoEnabled s
  /\ edges (destroy s) = edges s
  /\ fastMode (destroy s) = fastMode s.
Proof.
  unfold destroy, _cancelFade.
  destruct (_img s) as [img|] eqn:Hi; cbn; rewrite ?Hi; cbn.
  - rewrite orb_false_r. repeat split.
  - rewrite orb_true_r. repeat split.
Qed.

(** X15.  [destroy] raises a [TypeError] exactly when the plugin has no
    image, which is so until the first fade and again after a [destroy]
    that went through; so a second [destroy] always raises.  It unsubscribes
    the two handlers before it can raise and restores nothing: after it no
    event changes the three switches or the fast-mode flag, so a plugin
    destroyed in fast mode leaves the effects switched off. *)
Theorem X15_destroy_raises_without_image (s : State T) (events : list (Event T)) :
  (raised (destroy s) = true <-> raised s = true \/ _img s = None)
  /\ raised (destroy (destroy s)) = true
  /\ (let s' := run (destroy s) events in
      subscribed s' = false
      /\ pbrEnabled s' = pbrEnabled s
      /\ saoEnabled s' = saoEnabled s
      /\ edges s' = edges s
      /\ fastMode s' = fastMode s).
Proof.
  destruct (destroy_fields s) as (Hi & Hr & Hd).
  split; [ | split ].
  - rewrite Hr. destruct (_img s) as [img|], (raised s); cbn.
    + split; [intros _; left; reflexivity | intros _; reflexivity].
    + split; [discriminate | intros [H | H]; discriminate H].
    + split; [intros _; left; reflexivity | intros _; reflexivity].
    + split; [intros _; right; reflexivity | intros _; reflexivity].
  - destruct (destroy_fields (destroy s)) as (_ & Hr2 & _).
    rewrite Hr2, Hi. apply orb_true_r.
  - cbv zeta. revert Hd. generalize (destroy s) as t.
    unfold run. induction events as [|e events IH]; intros t Hd; simpl.
    + exact Hd.
    + apply IH.
      destruct Hd as (H0 & H1 & H2 & H3 & H4).
      destruct (step_unsubscribed t e H0) as (K0 & K1 & K2 & K3 & K4).
      repeat split; congruence.
Qed.

End FastNavProperties.

Lemma X14_witness :
  let still := FastNavPlugin.run (FastNavPlugin.constructor false false false canvasFixture)
                 [FastNavPlugin.CameraMatrix; FastNavPlugin.Tick 600%Z] in
  FastNavPlugin.pbrEnabled still = true
  /\ FastNavPlugin.saoEnabled still = true
  /\ FastNavPlugin.edges still = true
  /\ FastNavPlugin._pInterval still = Some 1%positive
  /\ FastNavPlugin.imagesInBody still = 1.
Proof.
  intros still.
  assert (Hd : FastNavPlugin.leb (sub FastNavPlugin.timeoutDuration 600%Z) (lit 0) = true)
    by reflexivity.
  destruct (X14_leaving_fast_mode_switches_everything_on false false false
              canvasFixture 600%Z Hd) as (_ & (_ & H1 & H2 & H3 & H4 & _)).
  split; [exact H1 | ]. split; [exact H2 | ]. split; [exact H3 | ].
  split; [exact H4 | reflexivity].
Defined.
